(** * CloudHSMv2 cluster and HSM resources: a shallow embedding

    Embedding of [aws/resource_aws_cloudhsm2_cluster.go] (the cluster
    resource and, in the same file, the HSM resource): the describe
    helpers, the status refresh functions, and the create / read /
    update / delete entry points, together with the part of the
    Terraform helper libraries they drive (the attribute store, the
    bounded retry and the state-convergence waiter).

    Go pointers to strings are [option string]; a nil dereference is a
    panic of the monad [M].  Go maps that the code iterates over are
    association lists in iteration order, so every statement proved for
    an arbitrary list holds for every iteration order. *)

From Stdlib Require Import ZArith String List Bool Lia.
From stdpp Require Import base option gmap strings list fin_maps.

Open Scope string_scope.
Open Scope Z_scope.

(** ** The Go [error] interface *)

(** The values of type [error] that flow through the resource: errors of
    the remote API ([awserr.Error], with a code and a message), any other
    error of the client, the two errors of the waiter, and errors built
    by [fmt.Errorf] with one [%s] argument, kept structurally. *)
Inductive error : Type :=
| AwsError (code message : string)
| OtherError (text : string)
| TimeoutError (LastState : string) (ExpectedState : list string)
| UnexpectedStateError (State : string) (ExpectedState : list string)
| Errorf (format : string) (arg : error)
| ErrorfId (format : string) (id : string) (arg : error).

(** ** Package [aws] of the SDK *)
Module aws.
(** [aws.String]: a pointer to the string. *)
Definition String (s : string) : option string := Some s.
(** [aws.StringValue]: the string, or the empty string for nil. *)
Definition StringValue (p : option string) : string :=
  match p with Some s => s | None => "" end.
End aws.

(** The string between double quotes, as a Go literal writes it with
    escaped quotes. *)
Definition quoted (s : string) : string :=
  String (Ascii.ascii_of_nat 34) (s ++ String (Ascii.ascii_of_nat 34) "").

(** Go's [len] on a string, as far as the code uses it: compared with 0. *)
Definition len (s : string) : Z := Z.of_nat (String.length s).

(** ** Package [cloudhsmv2] of the SDK: the structures the code reads *)
Module cloudhsmv2.

(** Modelled from the spec: the status constants of the SDK
    ([cloudhsmv2.ClusterState...], [cloudhsmv2.HsmState...]) are not
    under src/; section 4.3 of the specification gives their values. *)
Definition ClusterStateCreateInProgress := "CREATE_IN_PROGRESS".
Definition ClusterStateUninitialized := "UNINITIALIZED".
Definition ClusterStateInitializeInProgress := "INITIALIZE_IN_PROGRESS".
Definition ClusterStateActive := "ACTIVE".
Definition ClusterStateDeleteInProgress := "DELETE_IN_PROGRESS".
Definition ClusterStateDeleted := "DELETED".
Definition HsmStateCreateInProgress := "CREATE_IN_PROGRESS".
Definition HsmStateActive := "ACTIVE".
Definition HsmStateDeleteInProgress := "DELETE_IN_PROGRESS".

(** Modelled from the spec: the error code of the transient
    "internal failure" kind (section 4.1); the SDK constant is not
    under src/. *)
Definition ErrCodeCloudHsmInternalFailureException :=
  "CloudHsmInternalFailureException".

Module Certificates.
Record t := mk {
  AwsHardwareCertificate : option string;
  ClusterCertificate : option string;
  ClusterCsr : option string;
  HsmCertificate : option string;
  ManufacturerHardwareCertificate : option string }.
End Certificates.

Module Hsm.
Record t := mk {
  AvailabilityZone : option string;
  ClusterId : option string;
  EniId : option string;
  EniIp : option string;
  HsmId : option string;
  State : option string;
  SubnetId : option string }.
End Hsm.

Module Cluster.
Record t := mk {
  Certificates : option Certificates.t;
  ClusterId : option string;
  HsmType : option string;
  Hsms : list Hsm.t;
  SecurityGroup : option string;
  SourceBackupId : option string;
  State : option string;
  (** [map[string]*string], availability zone to subnet, in the
      order the Go runtime iterates it *)
  SubnetMapping : list (string * option string);
  VpcId : option string }.
End Cluster.

Module Tag.
Record t := mk { Key : option string; Value : option string }.
End Tag.

Module DescribeClustersInput.
Record t := mk {
  Filters : list (string * list string);
  MaxResults : option Z }.
End DescribeClustersInput.

Module DescribeClustersOutput.
Record t := mk { Clusters : list Cluster.t }.
End DescribeClustersOutput.

Module CreateClusterInput.
Record t := mk {
  HsmType : option string;
  SourceBackupId : option string;
  SubnetIds : list string }.
End CreateClusterInput.

Module CreateClusterOutput.
Record t := mk { Cluster : option Cluster.t }.
End CreateClusterOutput.

Module DeleteClusterInput.
Record t := mk { ClusterId : option string }.
End DeleteClusterInput.

Module DeleteClusterOutput.
Record t := mk { Cluster : option Cluster.t }.
End DeleteClusterOutput.

Module CreateHsmInput.
Record t := mk {
  AvailabilityZone : option string;
  ClusterId : option string;
  IpAddress : option string }.
End CreateHsmInput.

Module CreateHsmOutput.
Record t := mk { Hsm : option Hsm.t }.
End CreateHsmOutput.

Module DeleteHsmInput.
Record t := mk {
  ClusterId : option string;
  HsmId : option string }.
End DeleteHsmInput.

Module DeleteHsmOutput.
Record t := mk { HsmId : option string }.
End DeleteHsmOutput.

Module TagResourceInput.
Record t := mk { ResourceId : option string; TagList : list Tag.t }.
End TagResourceInput.

Module UntagResourceInput.
Record t := mk { ResourceId : option string; TagKeyList : list string }.
End UntagResourceInput.

End cloudhsmv2.

(** ** Package [helper/schema]: the attribute store [ResourceData] *)
Module schema.

Inductive ValueType := TypeString | TypeSet | TypeMap.

(** The values the resource reads and writes: a string, a set of
    strings (as [Set.List] enumerates it), a set of string maps (the
    certificate projection) and a string map (the tags). *)
Inductive Value :=
| VString (s : string)
| VStrings (l : list string)
| VMaps (l : list (list (string * string)))
| VMap (m : gmap string string).

Definition TimeoutCreate := "create".
Definition TimeoutUpdate := "update".
Definition TimeoutDelete := "delete".

(** [schema.ResourceTimeout], durations in seconds. *)
Module ResourceTimeout.
Record t := mk {
  Create : option Z;
  Update : option Z;
  Delete : option Z;
  Default : option Z }.
End ResourceTimeout.

Module ResourceData.
Record t := mk {
  (** the identifier, [d.Id()] *)
  id : string;
  (** the resource's schema: the top-level keys and their types *)
  Schema : gmap string ValueType;
  (** the prior state, the old side of [d.GetChange] *)
  prior : gmap string Value;
  (** the current attributes, read by [d.Get] and written by [d.Set] *)
  attrs : gmap string Value;
  timeouts : ResourceTimeout.t }.
End ResourceData.

End schema.

Import schema.
Abbreviation ResourceData := ResourceData.t.

(** Does a value fit a schema type?  A set-typed key takes a list of
    strings or a list of maps; the two set-typed keys of the cluster
    schema are told apart by their element type, which the code never
    mixes up. *)
Definition fits (ty : ValueType) (v : Value) : bool :=
  match ty, v with
  | TypeString, VString _ => true
  | TypeSet, VStrings _ => true
  | TypeSet, VMaps _ => true
  | TypeMap, VMap _ => true
  | _, _ => false
  end.

(** [d.Id()] and [d.SetId]. *)
Definition Id (d : ResourceData) : string := ResourceData.id d.

Definition SetId (v : string) (d : ResourceData) : ResourceData :=
  ResourceData.mk v (ResourceData.Schema d) (ResourceData.prior d)
    (ResourceData.attrs d) (ResourceData.timeouts d).

(** [d.Get(key).(string)]: the zero value when the key is unset. *)
Definition GetString (d : ResourceData) (key : string) : string :=
  match ResourceData.attrs d !! key with
  | Some (VString s) => s
  | _ => ""
  end.

(** [d.Get(key).( *schema.Set).List()]. *)
Definition GetStrings (d : ResourceData) (key : string) : list string :=
  match ResourceData.attrs d !! key with
  | Some (VStrings l) => l
  | _ => []
  end.

(** [d.Get(key)] on the set of certificate maps. *)
Definition GetMaps (d : ResourceData) (key : string)
  : list (list (string * string)) :=
  match ResourceData.attrs d !! key with
  | Some (VMaps l) => l
  | _ => []
  end.

Definition mapOf (o : option Value) : gmap string string :=
  match o with
  | Some (VMap m) => m
  | _ => ∅
  end.

(** [d.GetChange(key)] on a map-typed key: the old and the new value. *)
Definition GetChange (d : ResourceData) (key : string)
  : gmap string string * gmap string string :=
  (mapOf (ResourceData.prior d !! key), mapOf (ResourceData.attrs d !! key)).

(** [d.HasChange(key)]: the old and the new value differ. *)
Definition HasChange (d : ResourceData) (key : string) : bool :=
  let '(o, n) := GetChange d key in
  bool_decide (o ≠ n).

(** [d.Set(key, value)].  A key that is not in the schema, or a value of
    the wrong type, is refused with an error and the store is left as it
    was; a nil pointer clears the key.  The second component is the
    error [d.Set] returns. *)
Definition Set_ (d : ResourceData) (key : string) (value : option Value)
  : ResourceData * option error :=
  match ResourceData.Schema d !! key with
  | None => (d, Some (OtherError ("Invalid address to set: " ++ key)))
  | Some ty =>
      match value with
      | None =>
          (ResourceData.mk (ResourceData.id d) (ResourceData.Schema d)
             (ResourceData.prior d) (delete key (ResourceData.attrs d))
             (ResourceData.timeouts d), None)
      | Some v =>
          if fits ty v then
            (ResourceData.mk (ResourceData.id d) (ResourceData.Schema d)
               (ResourceData.prior d) (<[key:=v]> (ResourceData.attrs d))
               (ResourceData.timeouts d), None)
          else (d, Some (OtherError (key ++ ": wrong type")))
      end
  end.

(** [d.Timeout(key)]: the configured duration of the key, else the
    default of the block, else twenty minutes. *)
Definition Timeout_ (d : ResourceData) (key : string) : Z :=
  let t := ResourceData.timeouts d in
  let timeout :=
    if String.eqb key TimeoutCreate then ResourceTimeout.Create t
    else if String.eqb key TimeoutUpdate then ResourceTimeout.Update t
    else if String.eqb key TimeoutDelete then ResourceTimeout.Delete t
    else None in
  match timeout with
  | Some v => v
  | None =>
      match ResourceTimeout.Default t with
      | Some v => v
      | None => 20 * 60
      end
  end.

(** The schema of [resourceAwsCloudHsm2Cluster]. *)
Definition resourceAwsCloudHsm2Cluster_Schema : gmap string ValueType :=
  list_to_map
    [ ("backup_identifier", TypeString);
      ("hsm_type", TypeString);
      ("subnet_ids", TypeSet);
      ("cluster_id", TypeString);
      ("vpc_id", TypeString);
      ("cluster_certificates", TypeSet);
      ("security_group_id", TypeString);
      ("cluster_state", TypeString);
      ("tags", TypeMap) ].

(** The schema of [resourceAwsCloudHsm2Hsm]. *)
Definition resourceAwsCloudHsm2Hsm_Schema : gmap string ValueType :=
  list_to_map
    [ ("cluster_id", TypeString);
      ("subnet_id", TypeString);
      ("availability_zone", TypeString);
      ("ip_address", TypeString);
      ("hsm_id", TypeString);
      ("hsm_state", TypeString);
      ("hsm_eni_id", TypeString) ].

(** The timeouts both resources declare: 120 minutes each. *)
Definition declaredTimeouts : ResourceTimeout.t :=
  ResourceTimeout.mk (Some (120 * 60)) (Some (120 * 60)) (Some (120 * 60)) None.

(** ** The remote API client and the world the resource runs in *)

Import cloudhsmv2.

(** What the resource does to its collaborators, newest first: the calls
    of the remote API with their requests, each invocation of the
    bounded retry with its ceiling, each invocation of the waiter with
    its configuration, and each sleep (seconds). *)
Inductive Event :=
| EvDescribeClusters (input : DescribeClustersInput.t)
| EvCreateCluster (input : CreateClusterInput.t)
| EvDeleteCluster (input : DeleteClusterInput.t)
| EvCreateHsm (input : CreateHsmInput.t)
| EvDeleteHsm (input : DeleteHsmInput.t)
| EvTagResource (input : TagResourceInput.t)
| EvUntagResource (input : UntagResourceInput.t)
| EvRetry (timeout : Z)
| EvWaitForState (Pending Target : list string) (timeout MinTimeout Delay : Z)
| EvSleep (seconds : Z).

(** The client [*cloudhsmv2.CloudHSMV2].  The remote system is
    deterministic in what it has seen: each call answers from the
    history of events so far and the request.  An SDK call returns its
    output structure (never nil) and an error. *)
Record CloudHSMV2 := {
  DescribeClusters :
    list Event -> DescribeClustersInput.t ->
    DescribeClustersOutput.t * option error;
  CreateCluster :
    list Event -> CreateClusterInput.t -> CreateClusterOutput.t * option error;
  DeleteCluster :
    list Event -> DeleteClusterInput.t -> DeleteClusterOutput.t * option error;
  CreateHsm :
    list Event -> CreateHsmInput.t -> CreateHsmOutput.t * option error;
  DeleteHsm :
    list Event -> DeleteHsmInput.t -> DeleteHsmOutput.t * option error;
  TagResource : list Event -> TagResourceInput.t -> option error;
  UntagResource : list Event -> UntagResourceInput.t -> option error }.

(** [*AWSClient], the [meta] argument of every entry point. *)
Record AWSClient := { cloudhsmv2conn : CloudHSMV2 }.

(** The world: the attribute store [d] the entry point was given, and
    the trace of events. *)
Record World := { d : ResourceData; trace : list Event }.

(** ** The monad of the resource code: state and panic *)

Inductive Res (A : Type) : Type :=
| Returns (a : A) (w : World)
| Panics (w : World).
Arguments Returns {A} a w.
Arguments Panics {A} w.

Definition M (A : Type) : Type := World -> Res A.

Definition ret {A} (a : A) : M A := fun w => Returns a w.

Definition bind {A B} (m : M A) (k : A -> M B) : M B :=
  fun w =>
    match m w with
    | Returns a w' => k a w'
    | Panics w' => Panics w'
    end.

Declare Scope go_scope.
Delimit Scope go_scope with go.
Notation "'let*' x := m 'in' k" := (bind m (fun x => k))
  (at level 10, x name, m at level 100, k at level 200) : go_scope.
Notation "'let*' ' p := m 'in' k" :=
  (bind m (fun x => match x with p => k end))
  (at level 10, p pattern, m at level 100, k at level 200) : go_scope.
Notation "'run' m 'in' k" := (bind m (fun _ => k))
  (at level 10, m at level 100, k at level 200) : go_scope.
Open Scope go_scope.

(** The world after a computation, whether it returned or panicked. *)
Definition worldOf {A} (r : Res A) : World :=
  match r with Returns _ w => w | Panics w => w end.

Definition panic {A} : M A := fun w => Panics w.

(** [*p]: a nil pointer dereference panics. *)
Definition deref {A} (p : option A) : M A :=
  match p with Some a => ret a | None => panic end.

Definition getData : M ResourceData := fun w => Returns (d w) w.

Definition putData (d' : ResourceData) : M unit :=
  fun w => Returns tt {| d := d'; trace := trace w |}.

Definition emit (e : Event) : M unit :=
  fun w => Returns tt {| d := d w; trace := e :: trace w |}.

(** A call of the client: the remote answers from the history, and the
    call joins the history. *)
Definition call {I O} (ev : I -> Event) (f : list Event -> I -> O)
    (input : I) : M O :=
  fun w => Returns (f (trace w) input)
             {| d := d w; trace := ev input :: trace w |}.

(** [time.Sleep]. *)
Definition sleep (seconds : Z) : M unit := emit (EvSleep seconds).

(** [d.SetId(v)] and [d.Set(key, value)] on the store of the world. *)
Definition dSetId (v : string) : M unit :=
  let* dd := getData in putData (SetId v dd).

Definition dSet (key : string) (value : option Value) : M (option error) :=
  let* dd := getData in
  let '(d', err) := Set_ dd key value in
  run putData d' in ret err.

(** [for _, x := range l { acc = body(acc, x) }] with a body that may
    panic. *)
Fixpoint forRange {A B} (l : list A) (acc : B) (body : B -> A -> M B)
  : M B :=
  match l with
  | [] => ret acc
  | x :: l' => let* acc' := body acc x in forRange l' acc' body
  end.

(** ** Package [helper/resource]: bounded retry and the waiter *)

(** A value of type [interface{}], as the refresh functions return it. *)
Inductive iface :=
| inil
| iint (z : Z)
| icluster (c : Cluster.t)
| ihsm (h : Hsm.t).

Module resource.

Record RetryError := { Err : error; Retryable : bool }.

Definition RetryableError (err : error) : option RetryError :=
  Some {| Err := err; Retryable := true |}.

Definition NonRetryableError (err : error) : option RetryError :=
  Some {| Err := err; Retryable := false |}.

(** [resource.StateRefreshFunc]. *)
Definition StateRefreshFunc := M (iface * string * option error).

(** [resource.StateChangeConf], durations in seconds. *)
Record StateChangeConf := {
  Pending : list string;
  Target : list string;
  Refresh : StateRefreshFunc;
  Timeout : Z;
  MinTimeout : Z;
  Delay : Z }.

Definition inStates (s : string) (l : list string) : bool :=
  existsb (String.eqb s) l.

Section Retry.
(** The variables the closure captures and assigns, threaded
    through the attempts. *)
Context {S : Type}.
(** The pause the primitive takes before attempt [n + 1]. *)
Variable backoff : nat -> Z.

(** Modelled from the spec: [resource.Retry] is not under src/.
    Section 4.1: the operation is invoked repeatedly; on success the
    retry returns at once; an error of the retryable kind is retried
    after a backoff of the primitive until success or until the
    ceiling is exhausted, and then the last error is returned; any
    other error is returned at once.  The fuel bounds the number of
    attempts. *)
Fixpoint retryLoop (fuel : nat) (timeout elapsed : Z) (n : nat)
    (f : S -> M (S * option RetryError)) (s : S)
  : M (S * option error) :=
  let* '(s', rerr) := f s in
  match rerr with
  | None => ret (s', None)
  | Some re =>
      if Retryable re then
        match fuel with
        | O => ret (s', Some (Err re))
        | Datatypes.S fuel' =>
            if timeout <? elapsed + backoff n
            then ret (s', Some (Err re))
            else
              run sleep (backoff n) in
              retryLoop fuel' timeout (elapsed + backoff n)
                (Datatypes.S n) f s'
        end
      else ret (s', Some (Err re))
  end.

Definition Retry (timeout : Z) (f : S -> M (S * option RetryError))
    (s : S) : M (S * option error) :=
  run emit (EvRetry timeout) in
  retryLoop (Z.to_nat timeout) timeout 0 0 f s.
End Retry.

(** Modelled from the spec: [StateChangeConf.WaitForState] is not
    under src/.  Section 4.3: wait the initial delay, then poll the
    refresh function; a status of the target set succeeds with the
    entity; a status of the pending set sleeps the minimum interval
    (fixed delay) and polls again; any other status is a fatal state
    mismatch; an error of the refresh function is propagated; once the
    elapsed time exceeds the timeout, a timeout error reports the last
    status.  The fuel bounds the number of polls. *)
Fixpoint waitLoop (fuel : nat) (conf : StateChangeConf) (elapsed : Z)
    (last : string) : M (iface * option error) :=
  match fuel with
  | O => ret (inil, Some (TimeoutError last (Target conf)))
  | Datatypes.S fuel' =>
      if Timeout conf <? elapsed
      then ret (inil, Some (TimeoutError last (Target conf)))
      else
        let* '(res, currentState, err) := Refresh conf in
        match err with
        | Some e => ret (inil, Some e)
        | None =>
            if inStates currentState (Target conf) then ret (res, None)
            else if inStates currentState (Pending conf) then
              run sleep (MinTimeout conf) in
              waitLoop fuel' conf (elapsed + MinTimeout conf) currentState
            else
              ret (inil,
                   Some (UnexpectedStateError currentState (Target conf)))
        end
  end.

Definition WaitForState (conf : StateChangeConf)
  : M (iface * option error) :=
  run emit (EvWaitForState (Pending conf) (Target conf) (Timeout conf)
              (MinTimeout conf) (Delay conf)) in
  run sleep (Delay conf) in
  waitLoop (Datatypes.S (Z.to_nat (Timeout conf))) conf (Delay conf) "".

End resource.

Import resource.

(** ** The resource code *)

Section Provider.

(** [isAWSErr(err, code, message)] of the provider package, not under
    src/: does the error carry this code and this message?  Kept as a
    parameter, so every statement below holds for any classifier. *)
Variable isAWSErr : error -> string -> string -> bool.

(** [diffTagsGeneric(old, new)] of the provider package, not under
    src/: the tags to create and the tags to remove. *)
Variable diffTagsGeneric :
  gmap string string -> gmap string string ->
  gmap string string * gmap string string.

(** The backoff schedule of the retry primitive. *)
Variable backoff : nat -> Z.

Definition internalFailureMessage : string :=
  "request was rejected because of an AWS CloudHSM internal failure".

(** *** Cluster *)

Definition resourceAwsCloudHsm2ClusterImport
  : M (list ResourceData * option error) :=
  let* dd := getData in
  let* _ := dSet "cluster_id" (Some (VString (Id dd))) in
  let* dd' := getData in
  ret ([dd'], None).

Definition describeCloudHsm2Cluster (clusterId : string) (meta : AWSClient)
  : M (option Cluster.t * option error) :=
  let conn := cloudhsmv2conn meta in
  let filters := [clusterId] in
  let result := 1 in
  let* '(out, err) :=
    call EvDescribeClusters (DescribeClusters conn)
      (DescribeClustersInput.mk [("clusterIds", filters)] (Some result)) in
  match err with
  | Some e => ret (None, Some e)
  | None =>
      let* cluster :=
        forRange (DescribeClustersOutput.Clusters out) None
          (fun cluster c =>
             let* cid := deref (Cluster.ClusterId c) in
             ret (if String.eqb cid clusterId then Some c else cluster)) in
      ret (cluster, None)
  end.

Definition resourceAwsCloudHsm2ClusterRefreshFunc (meta : AWSClient)
  : StateRefreshFunc :=
  let* dd := getData in
  let* '(cluster, err) := describeCloudHsm2Cluster (Id dd) meta in
  match cluster with
  | None => ret (iint 42, "destroyed", None)
  | Some cluster =>
      let* state := deref (Cluster.State cluster) in
      ret (icluster cluster, state, err)
  end.

Definition readCloudHsm2ClusterCertificates (cluster : Cluster.t)
  : list (list (string * string)) :=
  let certs :=
    match Cluster.Certificates cluster with
    | Some c =>
        if String.eqb (aws.StringValue (Cluster.State cluster))
             "UNINITIALIZED" then
          [ ("cluster_csr", aws.StringValue (Certificates.ClusterCsr c));
            ("aws_hardware_certificate",
             aws.StringValue (Certificates.AwsHardwareCertificate c));
            ("hsm_certificate",
             aws.StringValue (Certificates.HsmCertificate c));
            ("manufacturer_hardware_certificate",
             aws.StringValue (Certificates.ManufacturerHardwareCertificate c)) ]
        else if String.eqb (aws.StringValue (Cluster.State cluster))
                  "ACTIVE" then
          [ ("cluster_certificate",
             aws.StringValue (Certificates.ClusterCertificate c)) ]
        else []
    | None => []
    end in
  [certs].

Definition resourceAwsCloudHsm2ClusterRead (meta : AWSClient)
  : M (option error) :=
  let* dd := getData in
  let* '(cluster, err) := describeCloudHsm2Cluster (Id dd) meta in
  match cluster with
  | None => run dSetId "" in ret err
  | Some cluster =>
      let* _ := dSet "cluster_id" (VString <$> Cluster.ClusterId cluster) in
      let* _ := dSet "cluster_state" (VString <$> Cluster.State cluster) in
      let* _ := dSet "security_group_id"
                  (VString <$> Cluster.SecurityGroup cluster) in
      let* _ := dSet "vpc_id" (VString <$> Cluster.VpcId cluster) in
      let* _ := dSet "backup_identifier"
                  (VString <$> Cluster.SourceBackupId cluster) in
      let* _ := dSet "hsm_type" (VString <$> Cluster.HsmType cluster) in
      let* _ := dSet "cluster_certificate"
                  (Some (VMaps (readCloudHsm2ClusterCertificates cluster))) in
      let* subnets :=
        forRange (Cluster.SubnetMapping cluster) []
          (fun subnets '(_, sn) =>
             let* s := deref sn in ret (subnets ++ [s])%list) in
      let* err := dSet "subnet_ids" (Some (VStrings subnets)) in
      match err with
      | Some e =>
          let* dd' := getData in
          ret (Some (ErrorfId
            "[DEBUG] Error saving Subnet IDs to state for CloudHSMv2 Cluster (%s): %s"
            (Id dd') e))
      | None => ret None
      end
  end.

Definition setTagsAwsCloudHsm2Cluster (conn : CloudHSMV2)
  : M (option error) :=
  let* dd := getData in
  if HasChange dd "tags" then
    let '(oraw, nraw) := GetChange dd "tags" in
    let '(create, remove) := diffTagsGeneric oraw nraw in
    let* errUntag :=
      if 0 <? Z.of_nat (size remove) then
        let keys := (map_to_list remove).*1 in
        call EvUntagResource (UntagResource conn)
          (UntagResourceInput.mk (aws.String (Id dd)) keys)
      else ret None in
    match errUntag with
    | Some e => ret (Some e)
    | None =>
        if 0 <? Z.of_nat (size create) then
          (* every [Key] is the address of the one loop variable [k],
             which holds the last key once the loop is over *)
          let k := List.last (map_to_list create).*1 "" in
          let tagList :=
            (fun kv : string * string => Tag.mk (Some k) (Some kv.2))
              <$> map_to_list create in
          let* errTag :=
            call EvTagResource (TagResource conn)
              (TagResourceInput.mk (aws.String (Id dd)) tagList) in
          match errTag with
          | Some e => ret (Some e)
          | None => ret None
          end
        else ret None
    end
  else ret None.

(** The closure [resourceAwsCloudHsm2ClusterCreate] hands to
    [resource.Retry]; it assigns the captured [output]. *)
Definition resourceAwsCloudHsm2ClusterCreate_func (cloudhsm2 : CloudHSMV2)
    (input : CreateClusterInput.t) (output : option CreateClusterOutput.t)
  : M (option CreateClusterOutput.t * option RetryError) :=
  let* '(out, err) := call EvCreateCluster (CreateCluster cloudhsm2) input in
  match err with
  | Some e =>
      if isAWSErr e ErrCodeCloudHsmInternalFailureException
           internalFailureMessage
      then ret (Some out, RetryableError e)
      else ret (Some out, NonRetryableError e)
  | None => ret (Some out, None)
  end.

Definition resourceAwsCloudHsm2ClusterCreate (meta : AWSClient)
  : M (option error) :=
  let cloudhsm2 := cloudhsmv2conn meta in
  let* dd := getData in
  let subnetIds := GetStrings dd "subnet_ids" in
  let input :=
    CreateClusterInput.mk (aws.String (GetString dd "hsm_type")) None
      subnetIds in
  let backupId := GetString dd "backup_identifier" in
  let input :=
    if negb (len backupId =? 0)
    then CreateClusterInput.mk (CreateClusterInput.HsmType input)
           (aws.String backupId) (CreateClusterInput.SubnetIds input)
    else input in
  let* '(output, err) :=
    Retry backoff 180
      (resourceAwsCloudHsm2ClusterCreate_func cloudhsm2 input) None in
  match err with
  | Some e => ret (Some e)
  | None =>
      let* out := deref output in
      let* cluster := deref (CreateClusterOutput.Cluster out) in
      run dSetId (aws.StringValue (Cluster.ClusterId cluster)) in
      let targetState :=
        if 0 <? len backupId then ClusterStateActive
        else ClusterStateUninitialized in
      let* dd := getData in
      let stateConf :=
        {| Pending := [ClusterStateCreateInProgress;
                       ClusterStateInitializeInProgress];
           Target := [targetState];
           Refresh := resourceAwsCloudHsm2ClusterRefreshFunc meta;
           Timeout := Timeout_ dd TimeoutCreate;
           MinTimeout := 30;
           Delay := 30 |} in
      let* '(_, errWait) := WaitForState stateConf in
      match errWait with
      | Some e =>
          if len backupId =? 0 then
            ret (Some (Errorf
              ("[WARN] Error waiting for CloudHSMv2 Cluster state to be "
                 ++ quoted "UNINITIALIZED" ++ ": %s")
              e))
          else
            ret (Some (Errorf
              ("[WARN] Error waiting for CloudHSMv2 Cluster state to be "
                 ++ quoted "ACTIVE" ++ ": %s")
              e))
      | None =>
          let* err := setTagsAwsCloudHsm2Cluster cloudhsm2 in
          match err with
          | Some e => ret (Some e)
          | None => resourceAwsCloudHsm2ClusterRead meta
          end
      end
  end.

Definition resourceAwsCloudHsm2ClusterUpdate (meta : AWSClient)
  : M (option error) :=
  let cloudhsm2 := cloudhsmv2conn meta in
  let* err := setTagsAwsCloudHsm2Cluster cloudhsm2 in
  match err with
  | Some e => ret (Some e)
  | None => resourceAwsCloudHsm2ClusterRead meta
  end.

(** The closure of [resourceAwsCloudHsm2ClusterDelete]. *)
Definition resourceAwsCloudHsm2ClusterDelete_func (cloudhsm2 : CloudHSMV2)
    (output : option DeleteClusterOutput.t)
  : M (option DeleteClusterOutput.t * option RetryError) :=
  let* dd := getData in
  let* '(out, err) :=
    call EvDeleteCluster (DeleteCluster cloudhsm2)
      (DeleteClusterInput.mk (aws.String (Id dd))) in
  match err with
  | Some e =>
      if isAWSErr e ErrCodeCloudHsmInternalFailureException
           internalFailureMessage
      then ret (Some out, RetryableError e)
      else ret (Some out, NonRetryableError e)
  | None => ret (Some out, None)
  end.

Definition resourceAwsCloudHsm2ClusterDelete (meta : AWSClient)
  : M (option error) :=
  let cloudhsm2 := cloudhsmv2conn meta in
  let* '(output, err) :=
    Retry backoff 180 (resourceAwsCloudHsm2ClusterDelete_func cloudhsm2)
      None in
  match err with
  | Some e => ret (Some e)
  | None =>
      let* dd := getData in
      let stateConf :=
        {| Pending := [ClusterStateDeleteInProgress];
           Target := [ClusterStateDeleted];
           Refresh := resourceAwsCloudHsm2ClusterRefreshFunc meta;
           Timeout := Timeout_ dd TimeoutCreate;
           MinTimeout := 30;
           Delay := 30 |} in
      let* '(_, errWait) := WaitForState stateConf in
      match errWait with
      | Some e =>
          ret (Some (Errorf
            ("[WARN] Error waiting for CloudHSMv2 Cluster state to be "
               ++ quoted "DELETED" ++ ": %s")
            e))
      | None => ret None
      end
  end.

Definition validateCloudHsm2HsmType (v : string) (k : string)
  : list string * list error :=
  let value := v in
  let hsmType := "hsm1.medium" in
  if negb (String.eqb value hsmType)
  then ([], [OtherError ("there is only " ++ hsmType ++ " HSM type available")])
  else ([], []).

(** *** HSM *)

Definition resourceAwsCloudHsm2HsmImport
  : M (list ResourceData * option error) :=
  let* dd := getData in
  let* _ := dSet "hsm_id" (Some (VString (Id dd))) in
  let* dd' := getData in
  ret ([dd'], None).

Definition describeHsm (meta : AWSClient)
  : M (option Hsm.t * option error) :=
  let conn := cloudhsmv2conn meta in
  let* dd := getData in
  let clusterId := GetString dd "cluster_id" in
  let hsmId := Id dd in
  let filters := [clusterId] in
  let result := 1 in
  let* '(out, err) :=
    call EvDescribeClusters (DescribeClusters conn)
      (DescribeClustersInput.mk [("clusterIds", filters)] (Some result)) in
  match err with
  | Some e => ret (None, Some e)
  | None =>
      let* cluster :=
        forRange (DescribeClustersOutput.Clusters out) None
          (fun cluster c =>
             let* cid := deref (Cluster.ClusterId c) in
             ret (if String.eqb cid clusterId then Some c else cluster)) in
      let* hsm :=
        match cluster with
        | Some cluster =>
            forRange (Cluster.Hsms cluster) None
              (fun hsm h =>
                 let* hid := deref (Hsm.HsmId h) in
                 ret (if String.eqb hid hsmId then Some h else hsm))
        | None => ret None
        end in
      ret (hsm, None)
  end.

Definition resourceAwsCloudHsm2HsmRefreshFunc (meta : AWSClient)
  : StateRefreshFunc :=
  let* '(hsm, err) := describeHsm meta in
  match hsm with
  | None => ret (iint 42, "destroyed", None)
  | Some hsm =>
      let* state := deref (Hsm.State hsm) in
      ret (ihsm hsm, state, err)
  end.

Definition resourceAwsCloudHsm2HsmRead (meta : AWSClient)
  : M (option error) :=
  let* '(hsm, err) := describeHsm meta in
  match hsm with
  | None => run dSetId "" in ret err
  | Some hsm =>
      let* _ := dSet "cluster_id" (VString <$> Hsm.ClusterId hsm) in
      let* _ := dSet "subnet_id" (VString <$> Hsm.SubnetId hsm) in
      let* _ := dSet "availability_zone"
                  (VString <$> Hsm.AvailabilityZone hsm) in
      let* _ := dSet "ip_address" (VString <$> Hsm.EniIp hsm) in
      let* _ := dSet "hsm_id" (VString <$> Hsm.HsmId hsm) in
      let* _ := dSet "hsm_state" (VString <$> Hsm.State hsm) in
      let* _ := dSet "hsm_eni_id" (VString <$> Hsm.EniId hsm) in
      ret None
  end.

(** The closure of [resourceAwsCloudHsm2HsmCreate]. *)
Definition resourceAwsCloudHsm2HsmCreate_func (cloudhsm2 : CloudHSMV2)
    (input : CreateHsmInput.t) (output : option CreateHsmOutput.t)
  : M (option CreateHsmOutput.t * option RetryError) :=
  let* '(out, err) := call EvCreateHsm (CreateHsm cloudhsm2) input in
  match err with
  | Some e =>
      if isAWSErr e ErrCodeCloudHsmInternalFailureException
           internalFailureMessage
      then ret (Some out, RetryableError e)
      else ret (Some out, NonRetryableError e)
  | None => ret (Some out, None)
  end.

Definition resourceAwsCloudHsm2HsmCreate (meta : AWSClient)
  : M (option error) :=
  let cloudhsm2 := cloudhsmv2conn meta in
  let* dd := getData in
  let clusterId := GetString dd "cluster_id" in
  let* '(cluster, err) := describeCloudHsm2Cluster clusterId meta in
  match cluster with
  | None => ret err
  | Some cluster =>
      let availabilityZone := GetString dd "availability_zone" in
      let* availabilityZone :=
        if len availabilityZone =? 0 then
          let subnetId := GetString dd "subnet_id" in
          forRange (Cluster.SubnetMapping cluster) availabilityZone
            (fun availabilityZone '(az, sn) =>
               let* s := deref sn in
               ret (if String.eqb s subnetId then az else availabilityZone))
        else ret availabilityZone in
      let input :=
        CreateHsmInput.mk (aws.String availabilityZone)
          (aws.String clusterId) None in
      let ipAddress := GetString dd "ip_address" in
      let input :=
        if negb (len ipAddress =? 0)
        then CreateHsmInput.mk (CreateHsmInput.AvailabilityZone input)
               (CreateHsmInput.ClusterId input) (aws.String ipAddress)
        else input in
      let* '(output, errRetry) :=
        Retry backoff 180
          (resourceAwsCloudHsm2HsmCreate_func cloudhsm2 input) None in
      match errRetry with
      | Some e => ret (Some e)
      | None =>
          let* out := deref output in
          let* hsm := deref (CreateHsmOutput.Hsm out) in
          run dSetId (aws.StringValue (Hsm.HsmId hsm)) in
          let* dd := getData in
          let stateConf :=
            {| Pending := [HsmStateCreateInProgress; "destroyed"];
               Target := [HsmStateActive];
               Refresh := resourceAwsCloudHsm2HsmRefreshFunc meta;
               Timeout := Timeout_ dd TimeoutCreate;
               MinTimeout := 30;
               Delay := 30 |} in
          let* '(_, errWait) := WaitForState stateConf in
          match errWait with
          | Some e =>
              ret (Some (Errorf
                ("[WARN] Error waiting for CloudHSMv2 HSM state to be "
                   ++ quoted "ACTIVE" ++ ": %s")
                e))
          | None => resourceAwsCloudHsm2HsmRead meta
          end
      end
  end.

Definition resourceAwsCloudHsm2HsmUpdate (meta : AWSClient)
  : M (option error) :=
  resourceAwsCloudHsm2HsmRead meta.

(** The closure of [resourceAwsCloudHsm2HsmDelete]. *)
Definition resourceAwsCloudHsm2HsmDelete_func (cloudhsm2 : CloudHSMV2)
    (clusterId : string) (output : option DeleteHsmOutput.t)
  : M (option DeleteHsmOutput.t * option RetryError) :=
  let* dd := getData in
  let* '(out, err) :=
    call EvDeleteHsm (DeleteHsm cloudhsm2)
      (DeleteHsmInput.mk (aws.String clusterId) (aws.String (Id dd))) in
  match err with
  | Some e =>
      if isAWSErr e ErrCodeCloudHsmInternalFailureException
           internalFailureMessage
      then ret (Some out, RetryableError e)
      else ret (Some out, NonRetryableError e)
  | None => ret (Some out, None)
  end.

Definition resourceAwsCloudHsm2HsmDelete (meta : AWSClient)
  : M (option error) :=
  let cloudhsm2 := cloudhsmv2conn meta in
  let* dd := getData in
  let clusterId := GetString dd "cluster_id" in
  let* '(output, errRetry) :=
    Retry backoff 180
      (resourceAwsCloudHsm2HsmDelete_func cloudhsm2 clusterId) None in
  match errRetry with
  | Some e => ret (Some e)
  | None =>
      let* dd := getData in
      let stateConf :=
        {| Pending := [HsmStateDeleteInProgress];
           Target := ["destroyed"];
           Refresh := resourceAwsCloudHsm2HsmRefreshFunc meta;
           Timeout := Timeout_ dd TimeoutCreate;
           MinTimeout := 30;
           Delay := 30 |} in
      let* '(_, errWait) := WaitForState stateConf in
      match errWait with
      | Some e =>
          ret (Some (Errorf
            ("[WARN] Error waiting for CloudHSMv2 HSM state to be "
               ++ quoted "DELETED" ++ ": %s")
            e))
      | None => ret None
      end
  end.

End Provider.


(** * Observations of a run *)

Open Scope list_scope.

(** [invariant f m]: whatever [m] does, returning or panicking, the
    observation [f] of the world is the same afterwards. *)
Definition invariant {X A} (f : World -> X) (m : M A) : Prop :=
  forall w, f (worldOf (m w)) = f w.

(** The events of a trace that [sel] selects. *)
Definition onTrace {X} (sel : Event -> option X) (w : World) : list X :=
  omap sel (trace w).

(** What the waiter was invoked with: pending set, target set, timeout,
    minimum interval and initial delay. *)
Definition selWait (e : Event)
  : option (list string * list string * Z * Z * Z) :=
  match e with
  | EvWaitForState p t timeout minTimeout delay =>
      Some (p, t, timeout, minTimeout, delay)
  | _ => None
  end.

(** The waiter invocations of a world's trace, newest first. *)
Definition waits : World -> list (list string * list string * Z * Z * Z) :=
  onTrace selWait.

(** Their pending and target sets. *)
Definition waitSets (w : World) : list (list string * list string) :=
  (fun c => (c.1.1.1.1, c.1.1.1.2)) <$> waits w.

(** Their timeouts. *)
Definition waitTimeouts (w : World) : list Z :=
  (fun c => c.1.1.2) <$> waits w.

(** The ceilings the bounded retry was invoked with. *)
Definition selRetry (e : Event) : option Z :=
  match e with EvRetry t => Some t | _ => None end.

Definition retryCeilings : World -> list Z := onTrace selRetry.

(** The mutating requests sent to the remote system. *)
Definition selCreateCluster (e : Event) : option CreateClusterInput.t :=
  match e with EvCreateCluster i => Some i | _ => None end.

Definition selCreateHsm (e : Event) : option CreateHsmInput.t :=
  match e with EvCreateHsm i => Some i | _ => None end.

Definition createClusterRequests : World -> list CreateClusterInput.t :=
  onTrace selCreateCluster.

Definition createHsmRequests : World -> list CreateHsmInput.t :=
  onTrace selCreateHsm.

(** The request [describeCloudHsm2Cluster] and [describeHsm] send for a
    cluster identifier. *)
Definition describeInput (clusterId : string) : DescribeClustersInput.t :=
  DescribeClustersInput.mk [("clusterIds", [clusterId])] (Some 1).

(** The world after one describe call for a cluster identifier. *)
Definition described (clusterId : string) (w : World) : World :=
  {| d := d w; trace := EvDescribeClusters (describeInput clusterId) :: trace w |}.

(** No element of the listing has the identifier (and no identifier of
    the listing is nil, which the lookup loop would dereference). *)
Definition listsNone {A} (key : A -> option string) (id : string)
    (l : list A) : Prop :=
  Forall (fun x => is_Some (key x) /\ key x <> Some id) l.

(** [c] is the last element of the listing with the identifier, the one
    the lookup loop keeps. *)
Definition listsLast {A} (key : A -> option string) (id : string)
    (l : list A) (c : A) : Prop :=
  exists l1 l2,
    l = l1 ++ c :: l2 /\ Forall (fun x => is_Some (key x)) l1 /\
    key c = Some id /\ listsNone key id l2.

(** What each closure returns, by the answer of the remote call: no
    error, or the error of the call with its classification. *)
Definition classified (isAWSErr : error -> string -> string -> bool)
    (err : option error) : option RetryError :=
  match err with
  | None => None
  | Some e =>
      Some {| Err := e;
              Retryable := isAWSErr e ErrCodeCloudHsmInternalFailureException
                             internalFailureMessage |}
  end.

(** The store with another configured delete timeout. *)
Definition setDeleteTimeout (t : option Z) (dd : ResourceData)
  : ResourceData :=
  ResourceData.mk (ResourceData.id dd) (ResourceData.Schema dd)
    (ResourceData.prior dd) (ResourceData.attrs dd)
    (ResourceTimeout.mk
       (ResourceTimeout.Create (ResourceData.timeouts dd))
       (ResourceTimeout.Update (ResourceData.timeouts dd))
       t
       (ResourceTimeout.Default (ResourceData.timeouts dd))).

(** A change of the store, on worlds and on outcomes. *)
Definition onData (phi : ResourceData -> ResourceData) (w : World) : World :=
  {| d := phi (d w); trace := trace w |}.

Definition mapRes {A} (phi : World -> World) (r : Res A) : Res A :=
  match r with
  | Returns a w => Returns a (phi w)
  | Panics w => Panics (phi w)
  end.

(** [m] does the same whatever the configured delete timeout is: the
    same result and the same events, the store differing only there. *)
Definition blindToDeleteTimeout {A} (m : M A) : Prop :=
  forall t w,
    m (onData (setDeleteTimeout t) w)
    = mapRes (onData (setDeleteTimeout t)) (m w).

(** The world after an event. *)
Definition after (e : Event) (w : World) : World :=
  {| d := d w; trace := e :: trace w |}.

(** What the retry wrapper is to do with a closure [g], attempt by
    attempt ([elapsed] seconds into the retry, before attempt [n + 1]):
    return at once on success and on an error that is not retryable;
    on a retryable error, pause and attempt again while the pause fits
    under the ceiling, and return the last error when it does not. *)
Inductive retried {S} (backoff : nat -> Z) (timeout : Z)
    (g : S -> M (S * option RetryError))
  : Z -> nat -> S -> World -> Res (S * option error) -> Prop :=
| retried_success elapsed n s w s' w' :
    g s w = Returns (s', None) w' ->
    retried backoff timeout g elapsed n s w (Returns (s', None) w')
| retried_other elapsed n s w s' re w' :
    g s w = Returns (s', Some re) w' ->
    Retryable re = false ->
    retried backoff timeout g elapsed n s w (Returns (s', Some (Err re)) w')
| retried_exhausted elapsed n s w s' re w' :
    g s w = Returns (s', Some re) w' ->
    Retryable re = true ->
    timeout < elapsed + backoff n ->
    retried backoff timeout g elapsed n s w (Returns (s', Some (Err re)) w')
| retried_again elapsed n s w s' re w' r :
    g s w = Returns (s', Some re) w' ->
    Retryable re = true ->
    elapsed + backoff n <= timeout ->
    retried backoff timeout g (elapsed + backoff n) (Datatypes.S n) s'
      (after (EvSleep (backoff n)) w') r ->
    retried backoff timeout g elapsed n s w r
| retried_panic elapsed n s w w' :
    g s w = Panics w' ->
    retried backoff timeout g elapsed n s w (Panics w').

(** What a store shows of the certificate projection: its schema and,
    when the schema has no key "cluster_certificate", the value under
    "cluster_certificates". *)
Definition certificatesOf (dd : ResourceData)
  : gmap string ValueType * option Value :=
  (ResourceData.Schema dd,
   if bool_decide (ResourceData.Schema dd !! "cluster_certificate" = None)
   then ResourceData.attrs dd !! "cluster_certificates"
   else None).

Definition certificatesObserved (w : World)
  : gmap string ValueType * option Value :=
  certificatesOf (d w).

(** * Concrete remotes and stores, for examples *)

(** A classifier of the transient kind: an API error with the internal
    failure code. *)
Definition byCode (err : error) (code message : string) : bool :=
  match err with
  | AwsError c _ => String.eqb c code
  | _ => false
  end.

(** A tag differ: everything new is created, everything old removed. *)
Definition replaceAll (o n : gmap string string)
  : gmap string string * gmap string string := (n, o).

(** A backoff of one second before every further attempt. *)
Definition everySecond (n : nat) : Z := 1.

Definition serviceDown : error :=
  AwsError "CloudHsmServiceException" "the service is unavailable".

Definition internalFailure : error :=
  AwsError ErrCodeCloudHsmInternalFailureException internalFailureMessage.

Definition exampleHsm (state : string) : Hsm.t :=
  Hsm.mk (Some "us-east-1a") (Some "cluster-1") (Some "eni-1")
    (Some "10.0.0.7") (Some "hsm-1") (Some state) (Some "subnet-1").

Definition exampleCertificates : Certificates.t :=
  Certificates.mk (Some "aws-hw-cert") (Some "cluster-cert")
    (Some "cluster-csr") (Some "hsm-cert") (Some "manufacturer-cert").

Definition exampleCluster (state : string) (hsms : list Hsm.t) : Cluster.t :=
  Cluster.mk (Some exampleCertificates) (Some "cluster-1")
    (Some "hsm1.medium") hsms (Some "sg-1") None (Some state)
    [("us-east-1a", Some "subnet-1")] (Some "vpc-1").

(** A remote whose describe call answers [describe] and whose mutating
    calls all succeed, assigning the identifiers of the examples. *)
Definition remote
    (describe : list Event -> DescribeClustersOutput.t * option error)
  : AWSClient :=
  {| cloudhsmv2conn :=
       {| DescribeClusters h _ := describe h;
          CreateCluster _ _ :=
            (CreateClusterOutput.mk
               (Some (exampleCluster "CREATE_IN_PROGRESS" [])), None);
          DeleteCluster _ _ := (DeleteClusterOutput.mk None, None);
          CreateHsm _ _ :=
            (CreateHsmOutput.mk (Some (exampleHsm "CREATE_IN_PROGRESS")),
             None);
          DeleteHsm _ _ := (DeleteHsmOutput.mk (Some "hsm-1"), None);
          TagResource _ _ := None;
          UntagResource _ _ := None |} |}.

(** Describe fails. *)
Definition remoteDown : AWSClient :=
  remote (fun _ => (DescribeClustersOutput.mk [], Some serviceDown)).

(** Describe succeeds with an empty listing. *)
Definition remoteEmpty : AWSClient :=
  remote (fun _ => (DescribeClustersOutput.mk [], None)).

(** Describe lists the example cluster, active, with its one HSM. *)
Definition remoteActive : AWSClient :=
  remote (fun _ =>
    (DescribeClustersOutput.mk
       [exampleCluster "ACTIVE" [exampleHsm "ACTIVE"]], None)).

(** Describe lists the example cluster, created and not initialized. *)
Definition remoteUninitialized : AWSClient :=
  remote (fun _ =>
    (DescribeClustersOutput.mk [exampleCluster "UNINITIALIZED" []], None)).

(** Describe lists the example cluster as restored from the backup
    "backup-123" and active. *)
Definition remoteRestored : AWSClient :=
  remote (fun _ =>
    (DescribeClustersOutput.mk
       [Cluster.mk (Some exampleCertificates) (Some "cluster-1")
          (Some "hsm1.medium") [] (Some "sg-1") (Some "backup-123")
          (Some "ACTIVE") [("us-east-1a", Some "subnet-1")] (Some "vpc-1")],
     None)).

(** Describe lists the example cluster with its HSM in a status that no
    waiter expects. *)
Definition remoteDegraded : AWSClient :=
  remote (fun _ =>
    (DescribeClustersOutput.mk
       [exampleCluster "ACTIVE" [exampleHsm "DEGRADED"]], None)).

(** Describe lists the example cluster in the DELETED status. *)
Definition remoteDeleted : AWSClient :=
  remote (fun _ =>
    (DescribeClustersOutput.mk [exampleCluster "DELETED" []], None)).

(** How many delete requests for a cluster the remote has seen. *)
Definition deletesSeen (h : list Event) : nat :=
  List.length
    (List.filter
       (fun e => match e with EvDeleteCluster _ => true | _ => false end) h).

(** A remote as [remoteDeleted] whose cluster delete answers from the
    number of delete requests it has seen before. *)
Definition remoteDeleting_by (answer : nat -> option error) : AWSClient :=
  {| cloudhsmv2conn :=
       {| DescribeClusters _ _ :=
            (DescribeClustersOutput.mk [exampleCluster "DELETED" []], None);
          CreateCluster := CreateCluster (cloudhsmv2conn remoteDeleted);
          DeleteCluster h _ :=
            (DeleteClusterOutput.mk None, answer (deletesSeen h));
          CreateHsm := CreateHsm (cloudhsmv2conn remoteDeleted);
          DeleteHsm := DeleteHsm (cloudhsmv2conn remoteDeleted);
          TagResource _ _ := None;
          UntagResource _ _ := None |} |}.

(** The cluster delete fails twice with the internal failure, then
    succeeds. *)
Definition remoteFlaky : AWSClient :=
  remoteDeleting_by
    (fun seen => if (seen <? 2)%nat then Some internalFailure else None).

(** The cluster delete is refused with another error. *)
Definition remoteRefusing : AWSClient :=
  remoteDeleting_by (fun _ => Some serviceDown).

(** The cluster delete fails with the internal failure for ever. *)
Definition remoteFailing : AWSClient :=
  remoteDeleting_by (fun _ => Some internalFailure).

(** The delete requests and the pauses of a trace. *)
Definition selDeleteCluster (e : Event) : option DeleteClusterInput.t :=
  match e with EvDeleteCluster i => Some i | _ => None end.

Definition selSleep (e : Event) : option Z :=
  match e with EvSleep z => Some z | _ => None end.

(** Describe lists the example cluster, whose mapping sends the zone
    us-east-1a to subnet-1; the HSM create call is refused. *)
Definition remoteRefusingHsm : AWSClient :=
  {| cloudhsmv2conn :=
       {| DescribeClusters _ _ :=
            (DescribeClustersOutput.mk [exampleCluster "ACTIVE" []], None);
          CreateCluster := CreateCluster (cloudhsmv2conn remoteActive);
          DeleteCluster := DeleteCluster (cloudhsmv2conn remoteActive);
          CreateHsm _ _ := (CreateHsmOutput.mk None, Some serviceDown);
          DeleteHsm := DeleteHsm (cloudhsmv2conn remoteActive);
          TagResource _ _ := None;
          UntagResource _ _ := None |} |}.

(** The store of a cluster resource with identifier [id]. *)
Definition clusterData (id backupId : string) : ResourceData :=
  ResourceData.mk id resourceAwsCloudHsm2Cluster_Schema ∅
    (list_to_map
       [ ("hsm_type", VString "hsm1.medium");
         ("subnet_ids", VStrings ["subnet-1"]);
         ("backup_identifier", VString backupId) ])
    declaredTimeouts.

(** The store of an HSM resource with identifier [id] and the given
    placement. *)
Definition hsmData (id availabilityZone subnetId : string) : ResourceData :=
  ResourceData.mk id resourceAwsCloudHsm2Hsm_Schema ∅
    (list_to_map
       [ ("cluster_id", VString "cluster-1");
         ("availability_zone", VString availabilityZone);
         ("subnet_id", VString subnetId) ])
    declaredTimeouts.

(** The store with the timeouts block replaced. *)
Definition withTimeouts (t : ResourceTimeout.t) (dd : ResourceData)
  : ResourceData :=
  ResourceData.mk (ResourceData.id dd) (ResourceData.Schema dd)
    (ResourceData.prior dd) (ResourceData.attrs dd) t.

(** A create timeout of one minute and a delete timeout of two hours. *)
Definition shortCreateLongDelete : ResourceTimeout.t :=
  ResourceTimeout.mk (Some 60) (Some (120 * 60)) (Some (120 * 60)) None.

(** Describe lists the example cluster, with its HSM, both being
    deleted and never done. *)
Definition remoteDeleting : AWSClient :=
  remote (fun _ =>
    (DescribeClustersOutput.mk
       [exampleCluster "DELETE_IN_PROGRESS" [exampleHsm "DELETE_IN_PROGRESS"]],
     None)).

Definition fresh (dd : ResourceData) : World := {| d := dd; trace := [] |}.

(** The mutating requests of a run, newest first. *)
Definition selMutation (e : Event) : option Event :=
  match e with
  | EvCreateCluster _ | EvDeleteCluster _ | EvCreateHsm _ | EvDeleteHsm _ =>
      Some e
  | _ => None
  end.

Definition mutations : World -> list Event := onTrace selMutation.

(** The run [op] of an operation goes through the retry whose outcome
    is [r]: an error of the retry is the error of the operation, which
    ends in the world the retry ended in; after a retry without an error
    the operation sends no further mutating request. *)
Definition through {S} (r : Res (S * option error))
    (op : Res (option error)) : Prop :=
  match r with
  | Returns (_, Some e) w' => op = Returns (Some e) w'
  | Returns (_, None) w' => mutations (worldOf op) = mutations w'
  | Panics w' => op = Panics w'
  end.

(** How many describe requests the remote has seen. *)
Definition describesSeen (h : list Event) : nat :=
  List.length
    (List.filter
       (fun e => match e with EvDescribeClusters _ => true | _ => false end)
       h).

(** Describe lists the example cluster with its HSM, active, at the
    first two requests, and the cluster without the HSM from then on. *)
Definition remoteVanishing : AWSClient :=
  remote (fun h =>
    (DescribeClustersOutput.mk
       [exampleCluster "ACTIVE"
          (if (describesSeen h <? 2)%nat then [exampleHsm "ACTIVE"] else [])],
     None)).

(** * Further observations and examples *)

(** Describe lists the example cluster twice, first as created and then
    as active. *)
Definition remoteTwice : AWSClient :=
  remote (fun _ =>
    (DescribeClustersOutput.mk
       [exampleCluster "CREATE_IN_PROGRESS" []; exampleCluster "ACTIVE" []],
     None)).

(** Describe lists the example cluster and a cluster without an
    identifier. *)
Definition remoteNameless : AWSClient :=
  remote (fun _ =>
    (DescribeClustersOutput.mk
       [exampleCluster "ACTIVE" [];
        Cluster.mk None None None [] None None None [] None],
     None)).

(** The tag and untag requests of a trace. *)
Definition selTagResource (e : Event) : option TagResourceInput.t :=
  match e with EvTagResource i => Some i | _ => None end.

Definition selUntagResource (e : Event) : option UntagResourceInput.t :=
  match e with EvUntagResource i => Some i | _ => None end.

Definition tagRequests : World -> list TagResourceInput.t :=
  onTrace selTagResource.

Definition untagRequests : World -> list UntagResourceInput.t :=
  onTrace selUntagResource.

(** The store of a cluster whose configuration adds the tags [new] to
    the tags [old] of the prior state. *)
Definition taggedClusterData (id : string) (old new : gmap string string)
  : ResourceData :=
  ResourceData.mk id resourceAwsCloudHsm2Cluster_Schema
    {[ "tags" := VMap old ]}
    (list_to_map
       [ ("hsm_type", VString "hsm1.medium");
         ("subnet_ids", VStrings ["subnet-1"]);
         ("tags", VMap new) ])
    declaredTimeouts.

(** A remote as [remoteActive] whose untag call is refused. *)
Definition remoteNoUntag : AWSClient :=
  {| cloudhsmv2conn :=
       {| DescribeClusters := DescribeClusters (cloudhsmv2conn remoteActive);
          CreateCluster := CreateCluster (cloudhsmv2conn remoteActive);
          DeleteCluster := DeleteCluster (cloudhsmv2conn remoteActive);
          CreateHsm := CreateHsm (cloudhsmv2conn remoteActive);
          DeleteHsm := DeleteHsm (cloudhsmv2conn remoteActive);
          TagResource _ _ := None;
          UntagResource _ _ := Some serviceDown |} |}.

(** The polling policy of the waiter invocations of a trace: timeout,
    minimum interval and initial delay. *)
Definition waitPolicies (w : World) : list (Z * Z * Z) :=
  (fun c => (c.1.1.2, c.1.2, c.2)) <$> waits w.

(** * Reasoning about runs *)

(** ** Observations that a computation leaves unchanged *)

Section Invariant.
Context {X : Type} (f : World -> X).

Lemma invariant_ret {A} (a : A) : invariant f (ret a).
Proof. intros w. reflexivity. Qed.

Lemma invariant_panic {A} : invariant f (@panic A).
Proof. intros w. reflexivity. Qed.

Lemma invariant_bind {A B} (m : M A) (k : A -> M B) :
  invariant f m -> (forall a, invariant f (k a)) -> invariant f (bind m k).
Proof.
  intros Hm Hk w. unfold bind. specialize (Hm w).
  destruct (m w) as [a w'|w']; simpl in *.
  - rewrite Hk. exact Hm.
  - exact Hm.
Qed.

Lemma invariant_deref {A} (p : option A) : invariant f (deref p).
Proof. destruct p; [apply invariant_ret | apply invariant_panic]. Qed.

Lemma invariant_getData : invariant f getData.
Proof. intros w. reflexivity. Qed.

Lemma invariant_forRange {A B} (l : list A) (acc : B) body :
  (forall b a, invariant f (body b a)) -> invariant f (forRange l acc body).
Proof.
  intros Hbody. revert acc.
  induction l as [|x l IH]; intros acc; simpl.
  - apply invariant_ret.
  - apply invariant_bind; [apply Hbody | intros b; apply IH].
Qed.

Lemma invariant_retryLoop {S} backoff fuel timeout elapsed n
    (g : S -> M (S * option RetryError)) s :
  (forall z, invariant f (sleep z)) ->
  (forall s, invariant f (g s)) ->
  invariant f (retryLoop backoff fuel timeout elapsed n g s).
Proof.
  intros Hsleep Hg. revert elapsed n s.
  induction fuel as [|fuel IH]; intros elapsed n s; simpl;
    apply invariant_bind; try apply Hg; intros [s' [re|]];
    try apply invariant_ret; destruct (Retryable re);
    try apply invariant_ret.
  destruct (timeout <? elapsed + backoff n); [apply invariant_ret|].
  apply invariant_bind; [apply Hsleep | intros _; apply IH].
Qed.

Lemma invariant_waitLoop fuel conf elapsed last :
  (forall z, invariant f (sleep z)) ->
  invariant f (Refresh conf) ->
  invariant f (waitLoop fuel conf elapsed last).
Proof.
  intros Hsleep Hr. revert elapsed last.
  induction fuel as [|fuel IH]; intros elapsed last; simpl.
  - apply invariant_ret.
  - destruct (Timeout conf <? elapsed); [apply invariant_ret|].
    apply invariant_bind; [exact Hr|].
    intros [[res st] [e|]]; [apply invariant_ret|].
    destruct (inStates st (Target conf)); [apply invariant_ret|].
    destruct (inStates st (Pending conf)); [|apply invariant_ret].
    apply invariant_bind; [apply Hsleep | intros _; apply IH].
Qed.

End Invariant.

(** The store is untouched by everything that only talks to the remote
    system or to the clock. *)
Lemma data_emit e : invariant d (emit e).
Proof. intros w. reflexivity. Qed.

Lemma data_call {I O} ev (g : list Event -> I -> O) i :
  invariant d (call ev g i).
Proof. intros w. reflexivity. Qed.

(** A projection of the trace is untouched by the store operations and
    by the events it does not select. *)
Section OnTrace.
Context {X : Type} (sel : Event -> option X).

Lemma onTrace_emit e : sel e = None -> invariant (onTrace sel) (emit e).
Proof. intros He w. unfold onTrace. simpl. rewrite He. reflexivity. Qed.

Lemma onTrace_call {I O} (ev : I -> Event) (g : list Event -> I -> O) i :
  sel (ev i) = None -> invariant (onTrace sel) (call ev g i).
Proof. intros He w. unfold onTrace. simpl. rewrite He. reflexivity. Qed.

Lemma onTrace_putData d' : invariant (onTrace sel) (putData d').
Proof. intros w. reflexivity. Qed.

Lemma onTrace_dSetId v : invariant (onTrace sel) (dSetId v).
Proof. intros w. reflexivity. Qed.

Lemma onTrace_dSet key value : invariant (onTrace sel) (dSet key value).
Proof.
  intros w. unfold dSet, bind, getData.
  destruct (Set_ (d w) key value). reflexivity.
Qed.

End OnTrace.

(** ** What the pieces of the resource leave unchanged *)

Ltac unchanged :=
  repeat first
    [ apply invariant_ret | apply invariant_panic | apply invariant_deref
    | apply invariant_getData
    | apply data_emit | apply data_call
    | apply onTrace_putData | apply onTrace_dSetId | apply onTrace_dSet
    | apply onTrace_emit; solve [auto]
    | apply onTrace_call; solve [auto]
    | apply invariant_bind; [| intros ?]
    | apply invariant_forRange; intros ? ?
    | match goal with
      | |- invariant _ (match ?x with _ => _ end) => destruct x
      end ].

Lemma data_describeCloudHsm2Cluster clusterId meta :
  invariant d (describeCloudHsm2Cluster clusterId meta).
Proof. unfold describeCloudHsm2Cluster. unchanged. Qed.

Lemma data_describeHsm meta : invariant d (describeHsm meta).
Proof. unfold describeHsm. unchanged. Qed.

Lemma data_ClusterRefreshFunc meta :
  invariant d (resourceAwsCloudHsm2ClusterRefreshFunc meta).
Proof.
  unfold resourceAwsCloudHsm2ClusterRefreshFunc.
  apply invariant_bind; [unchanged | intros dd].
  apply invariant_bind; [apply data_describeCloudHsm2Cluster | intros ?]. unchanged.
Qed.

Lemma data_HsmRefreshFunc meta :
  invariant d (resourceAwsCloudHsm2HsmRefreshFunc meta).
Proof.
  unfold resourceAwsCloudHsm2HsmRefreshFunc.
  apply invariant_bind; [apply data_describeHsm | intros ?]. unchanged.
Qed.

(** ** The describe helpers *)

Lemma bind_eq {A B} (m : M A) (k : A -> M B) (w : World) :
  bind m k w
  = match m w with
    | Returns a w' => k a w'
    | Panics w' => Panics w'
    end.
Proof. reflexivity. Qed.

(** The lookup loop of the describe helpers: the last element whose key
    is the identifier. *)
Lemma scan_absent {A} (key : A -> option string) (id : string)
    (l : list A) (acc : option A) (w : World) :
  Forall (fun x => is_Some (key x) /\ key x <> Some id) l ->
  forRange l acc
    (fun acc x =>
       let* k := deref (key x) in
       ret (if String.eqb k id then Some x else acc)) w
  = Returns acc w.
Proof.
  intros Hl. revert acc.
  induction Hl as [|x l [[k Hk] Hne] _ IH]; intros acc; simpl; [reflexivity|].
  unfold bind at 1. rewrite Hk. simpl.
  destruct (String.eqb_spec k id) as [->|_]; [congruence|].
  apply IH.
Qed.

Lemma scan_present {A} (key : A -> option string) (id : string)
    (l1 l2 : list A) (c : A) (acc : option A) (w : World) :
  Forall (fun x => is_Some (key x)) l1 ->
  key c = Some id ->
  Forall (fun x => is_Some (key x) /\ key x <> Some id) l2 ->
  forRange (l1 ++ c :: l2) acc
    (fun acc x =>
       let* k := deref (key x) in
       ret (if String.eqb k id then Some x else acc)) w
  = Returns (Some c) w.
Proof.
  intros H1 Hc H2. revert acc.
  induction H1 as [|x l1 [k Hk] _ IH]; intros acc; simpl.
  - unfold bind at 1. rewrite Hc. simpl. rewrite String.eqb_refl.
    apply scan_absent. exact H2.
  - unfold bind at 1. rewrite Hk. simpl. apply IH.
Qed.

Lemma describeCloudHsm2Cluster_error clusterId meta w out e :
  DescribeClusters (cloudhsmv2conn meta) (trace w) (describeInput clusterId)
    = (out, Some e) ->
  describeCloudHsm2Cluster clusterId meta w
    = Returns (None, Some e) (described clusterId w).
Proof.
  intros H. unfold describeCloudHsm2Cluster, bind, call.
  fold (describeInput clusterId). rewrite H. reflexivity.
Qed.

Lemma describeCloudHsm2Cluster_absent clusterId meta w out :
  DescribeClusters (cloudhsmv2conn meta) (trace w) (describeInput clusterId)
    = (out, None) ->
  listsNone Cluster.ClusterId clusterId (DescribeClustersOutput.Clusters out) ->
  describeCloudHsm2Cluster clusterId meta w
    = Returns (None, None) (described clusterId w).
Proof.
  intros H Habs. unfold describeCloudHsm2Cluster, bind at 1, call.
  fold (describeInput clusterId). rewrite H.
  rewrite bind_eq, (scan_absent Cluster.ClusterId); [reflexivity|exact Habs].
Qed.

Lemma describeCloudHsm2Cluster_present clusterId meta w out c :
  DescribeClusters (cloudhsmv2conn meta) (trace w) (describeInput clusterId)
    = (out, None) ->
  listsLast Cluster.ClusterId clusterId
    (DescribeClustersOutput.Clusters out) c ->
  describeCloudHsm2Cluster clusterId meta w
    = Returns (Some c, None) (described clusterId w).
Proof.
  intros H (l1 & l2 & Hl & H1 & Hc & H2).
  unfold describeCloudHsm2Cluster, bind at 1, call.
  fold (describeInput clusterId). rewrite H, Hl.
  rewrite bind_eq, (scan_present Cluster.ClusterId); [reflexivity|assumption..].
Qed.

Lemma describeHsm_error meta w out e :
  DescribeClusters (cloudhsmv2conn meta) (trace w)
    (describeInput (GetString (d w) "cluster_id")) = (out, Some e) ->
  describeHsm meta w
    = Returns (None, Some e) (described (GetString (d w) "cluster_id") w).
Proof.
  intros H. unfold describeHsm, bind, call, getData.
  fold (describeInput (GetString (d w) "cluster_id")). rewrite H. reflexivity.
Qed.

Lemma describeHsm_no_cluster meta w out :
  DescribeClusters (cloudhsmv2conn meta) (trace w)
    (describeInput (GetString (d w) "cluster_id")) = (out, None) ->
  listsNone Cluster.ClusterId (GetString (d w) "cluster_id")
    (DescribeClustersOutput.Clusters out) ->
  describeHsm meta w
    = Returns (None, None) (described (GetString (d w) "cluster_id") w).
Proof.
  intros H Habs. unfold describeHsm. rewrite bind_eq. simpl.
  rewrite bind_eq. unfold call.
  fold (describeInput (GetString (d w) "cluster_id")). rewrite H.
  rewrite bind_eq, (scan_absent Cluster.ClusterId); [reflexivity|exact Habs].
Qed.

Lemma describeHsm_absent meta w out c :
  DescribeClusters (cloudhsmv2conn meta) (trace w)
    (describeInput (GetString (d w) "cluster_id")) = (out, None) ->
  listsLast Cluster.ClusterId (GetString (d w) "cluster_id")
    (DescribeClustersOutput.Clusters out) c ->
  listsNone Hsm.HsmId (Id (d w)) (Cluster.Hsms c) ->
  describeHsm meta w
    = Returns (None, None) (described (GetString (d w) "cluster_id") w).
Proof.
  intros H (l1 & l2 & Hl & H1 & Hc & H2) Habs.
  unfold describeHsm. rewrite bind_eq. simpl.
  rewrite bind_eq. unfold call.
  fold (describeInput (GetString (d w) "cluster_id")). rewrite H, Hl.
  rewrite bind_eq, (scan_present Cluster.ClusterId); [|assumption..].
  rewrite bind_eq, (scan_absent Hsm.HsmId); [reflexivity|exact Habs].
Qed.

Lemma describeHsm_present meta w out c h :
  DescribeClusters (cloudhsmv2conn meta) (trace w)
    (describeInput (GetString (d w) "cluster_id")) = (out, None) ->
  listsLast Cluster.ClusterId (GetString (d w) "cluster_id")
    (DescribeClustersOutput.Clusters out) c ->
  listsLast Hsm.HsmId (Id (d w)) (Cluster.Hsms c) h ->
  describeHsm meta w
    = Returns (Some h, None) (described (GetString (d w) "cluster_id") w).
Proof.
  intros H (l1 & l2 & Hl & H1 & Hc & H2) (h1 & h2 & Hh & Hh1 & Hhc & Hh2).
  unfold describeHsm. rewrite bind_eq. simpl.
  rewrite bind_eq. unfold call.
  fold (describeInput (GetString (d w) "cluster_id")). rewrite H, Hl.
  rewrite bind_eq, (scan_present Cluster.ClusterId); [|assumption..].
  rewrite Hh.
  rewrite bind_eq, (scan_present Hsm.HsmId); [reflexivity|assumption..].
Qed.

(** ** Which parts of the trace each piece leaves alone *)

Section Ignoring.
Context {X : Type} (sel : Event -> option X).
Hypothesis ignoresDescribe : forall i, sel (EvDescribeClusters i) = None.
Hypothesis ignoresSleep : forall z, sel (EvSleep z) = None.
Hypothesis ignoresTags :
  (forall i, sel (EvTagResource i) = None) /\
  (forall i, sel (EvUntagResource i) = None).

Lemma onTrace_describeCloudHsm2Cluster clusterId meta :
  invariant (onTrace sel) (describeCloudHsm2Cluster clusterId meta).
Proof. unfold describeCloudHsm2Cluster. unchanged. Qed.

Lemma onTrace_describeHsm meta : invariant (onTrace sel) (describeHsm meta).
Proof. unfold describeHsm. unchanged. Qed.

Lemma onTrace_ClusterRefreshFunc meta :
  invariant (onTrace sel) (resourceAwsCloudHsm2ClusterRefreshFunc meta).
Proof.
  unfold resourceAwsCloudHsm2ClusterRefreshFunc.
  apply invariant_bind; [unchanged | intros dd].
  apply invariant_bind; [apply onTrace_describeCloudHsm2Cluster | intros ?].
  unchanged.
Qed.

Lemma onTrace_HsmRefreshFunc meta :
  invariant (onTrace sel) (resourceAwsCloudHsm2HsmRefreshFunc meta).
Proof.
  unfold resourceAwsCloudHsm2HsmRefreshFunc.
  apply invariant_bind; [apply onTrace_describeHsm | intros ?]. unchanged.
Qed.

Lemma onTrace_ClusterRead meta :
  invariant (onTrace sel) (resourceAwsCloudHsm2ClusterRead meta).
Proof.
  unfold resourceAwsCloudHsm2ClusterRead.
  apply invariant_bind; [unchanged | intros dd].
  apply invariant_bind; [apply onTrace_describeCloudHsm2Cluster | intros ?].
  unchanged.
Qed.

Lemma onTrace_HsmRead meta :
  invariant (onTrace sel) (resourceAwsCloudHsm2HsmRead meta).
Proof.
  unfold resourceAwsCloudHsm2HsmRead.
  apply invariant_bind; [apply onTrace_describeHsm | intros ?]. unchanged.
Qed.

Lemma onTrace_setTags diffTagsGeneric conn :
  invariant (onTrace sel) (setTagsAwsCloudHsm2Cluster diffTagsGeneric conn).
Proof.
  destruct ignoresTags as [Htag Huntag].
  unfold setTagsAwsCloudHsm2Cluster. unchanged.
Qed.

Lemma onTrace_sleep z : invariant (onTrace sel) (sleep z).
Proof. apply onTrace_emit, ignoresSleep. Qed.

Lemma onTrace_waitLoop fuel conf elapsed last :
  invariant (onTrace sel) (Refresh conf) ->
  invariant (onTrace sel) (waitLoop fuel conf elapsed last).
Proof. intros H. apply invariant_waitLoop; [apply onTrace_sleep | exact H]. Qed.

Lemma onTrace_WaitForState conf :
  (forall p t a b c, sel (EvWaitForState p t a b c) = None) ->
  invariant (onTrace sel) (Refresh conf) ->
  invariant (onTrace sel) (WaitForState conf).
Proof.
  intros Hw H. unfold WaitForState.
  apply invariant_bind; [apply onTrace_emit, Hw | intros _].
  apply invariant_bind; [apply onTrace_sleep | intros _].
  apply onTrace_waitLoop, H.
Qed.

Lemma onTrace_Retry {S} backoff timeout
    (g : S -> M (S * option RetryError)) s :
  (forall t, sel (EvRetry t) = None) ->
  (forall s, invariant (onTrace sel) (g s)) ->
  invariant (onTrace sel) (Retry backoff timeout g s).
Proof.
  intros Hr Hg. unfold Retry.
  apply invariant_bind; [apply onTrace_emit, Hr | intros _].
  apply invariant_retryLoop; [apply onTrace_sleep | exact Hg].
Qed.

(** The waiter invoked with a refresh function that leaves the
    selection alone adds exactly its own event. *)
Lemma onTrace_WaitForState_adds conf w x :
  sel (EvWaitForState (Pending conf) (Target conf) (Timeout conf)
         (MinTimeout conf) (Delay conf)) = Some x ->
  invariant (onTrace sel) (Refresh conf) ->
  onTrace sel (worldOf (WaitForState conf w)) = x :: onTrace sel w.
Proof.
  intros Hx H.
  change (WaitForState conf w)
    with (waitLoop (Datatypes.S (Z.to_nat (Timeout conf))) conf (Delay conf) ""
            {| d := d w;
               trace := EvSleep (Delay conf)
                        :: EvWaitForState (Pending conf) (Target conf)
                             (Timeout conf) (MinTimeout conf) (Delay conf)
                        :: trace w |}).
  rewrite (onTrace_waitLoop _ conf _ _ H).
  unfold onTrace. simpl. rewrite ignoresSleep, Hx. reflexivity.
Qed.

(** The bounded retry invoked with a closure that leaves the selection
    alone adds exactly its own event. *)
Lemma onTrace_Retry_adds {S} backoff timeout
    (g : S -> M (S * option RetryError)) s w x :
  sel (EvRetry timeout) = Some x ->
  (forall s, invariant (onTrace sel) (g s)) ->
  onTrace sel (worldOf (Retry backoff timeout g s w)) = x :: onTrace sel w.
Proof.
  intros Hx Hg.
  change (Retry backoff timeout g s w)
    with (retryLoop backoff (Z.to_nat timeout) timeout 0 0 g s
            {| d := d w; trace := EvRetry timeout :: trace w |}).
  rewrite (invariant_retryLoop (onTrace sel) backoff _ _ _ _ g s
             onTrace_sleep Hg).
  unfold onTrace. simpl. rewrite Hx. reflexivity.
Qed.

End Ignoring.

(** ** The closures handed to the bounded retry *)

Section Closures.
Variable isAWSErr : error -> string -> string -> bool.

Lemma ClusterCreate_func_eq conn input output w :
  resourceAwsCloudHsm2ClusterCreate_func isAWSErr conn input output w
  = Returns (Some (CreateCluster conn (trace w) input).1,
             classified isAWSErr (CreateCluster conn (trace w) input).2)
      {| d := d w; trace := EvCreateCluster input :: trace w |}.
Proof.
  unfold resourceAwsCloudHsm2ClusterCreate_func, bind, call, classified.
  destruct (CreateCluster conn (trace w) input) as [out [e|]]; simpl;
    [destruct (isAWSErr _ _ _)|]; reflexivity.
Qed.

Lemma ClusterDelete_func_eq conn output w :
  let input := DeleteClusterInput.mk (aws.String (Id (d w))) in
  resourceAwsCloudHsm2ClusterDelete_func isAWSErr conn output w
  = Returns (Some (DeleteCluster conn (trace w) input).1,
             classified isAWSErr (DeleteCluster conn (trace w) input).2)
      {| d := d w; trace := EvDeleteCluster input :: trace w |}.
Proof.
  unfold resourceAwsCloudHsm2ClusterDelete_func, bind, call, classified,
    getData. simpl.
  destruct (DeleteCluster conn (trace w) _) as [out [e|]]; simpl;
    [destruct (isAWSErr _ _ _)|]; reflexivity.
Qed.

Lemma HsmCreate_func_eq conn input output w :
  resourceAwsCloudHsm2HsmCreate_func isAWSErr conn input output w
  = Returns (Some (CreateHsm conn (trace w) input).1,
             classified isAWSErr (CreateHsm conn (trace w) input).2)
      {| d := d w; trace := EvCreateHsm input :: trace w |}.
Proof.
  unfold resourceAwsCloudHsm2HsmCreate_func, bind, call, classified.
  destruct (CreateHsm conn (trace w) input) as [out [e|]]; simpl;
    [destruct (isAWSErr _ _ _)|]; reflexivity.
Qed.

Lemma HsmDelete_func_eq conn clusterId output w :
  let input :=
    DeleteHsmInput.mk (aws.String clusterId) (aws.String (Id (d w))) in
  resourceAwsCloudHsm2HsmDelete_func isAWSErr conn clusterId output w
  = Returns (Some (DeleteHsm conn (trace w) input).1,
             classified isAWSErr (DeleteHsm conn (trace w) input).2)
      {| d := d w; trace := EvDeleteHsm input :: trace w |}.
Proof.
  unfold resourceAwsCloudHsm2HsmDelete_func, bind, call, classified,
    getData. simpl.
  destruct (DeleteHsm conn (trace w) _) as [out [e|]]; simpl;
    [destruct (isAWSErr _ _ _)|]; reflexivity.
Qed.

End Closures.

Section ClosureInvariants.
Variable isAWSErr : error -> string -> string -> bool.

Lemma data_ClusterCreate_func conn input output :
  invariant d (resourceAwsCloudHsm2ClusterCreate_func isAWSErr conn input output).
Proof. intros w. rewrite ClusterCreate_func_eq. reflexivity. Qed.

Lemma data_ClusterDelete_func conn output :
  invariant d (resourceAwsCloudHsm2ClusterDelete_func isAWSErr conn output).
Proof. intros w. rewrite ClusterDelete_func_eq. reflexivity. Qed.

Lemma data_HsmCreate_func conn input output :
  invariant d (resourceAwsCloudHsm2HsmCreate_func isAWSErr conn input output).
Proof. intros w. rewrite HsmCreate_func_eq. reflexivity. Qed.

Lemma data_HsmDelete_func conn clusterId output :
  invariant d
    (resourceAwsCloudHsm2HsmDelete_func isAWSErr conn clusterId output).
Proof. intros w. rewrite HsmDelete_func_eq. reflexivity. Qed.

Context {X : Type} (sel : Event -> option X).

Lemma onTrace_ClusterCreate_func conn input output :
  (forall i, sel (EvCreateCluster i) = None) ->
  invariant (onTrace sel)
    (resourceAwsCloudHsm2ClusterCreate_func isAWSErr conn input output).
Proof.
  intros H w. rewrite ClusterCreate_func_eq. unfold onTrace. simpl.
  rewrite H. reflexivity.
Qed.

Lemma onTrace_ClusterDelete_func conn output :
  (forall i, sel (EvDeleteCluster i) = None) ->
  invariant (onTrace sel)
    (resourceAwsCloudHsm2ClusterDelete_func isAWSErr conn output).
Proof.
  intros H w. rewrite ClusterDelete_func_eq. unfold onTrace. simpl.
  rewrite H. reflexivity.
Qed.

Lemma onTrace_HsmCreate_func conn input output :
  (forall i, sel (EvCreateHsm i) = None) ->
  invariant (onTrace sel)
    (resourceAwsCloudHsm2HsmCreate_func isAWSErr conn input output).
Proof.
  intros H w. rewrite HsmCreate_func_eq. unfold onTrace. simpl.
  rewrite H. reflexivity.
Qed.

Lemma onTrace_HsmDelete_func conn clusterId output :
  (forall i, sel (EvDeleteHsm i) = None) ->
  invariant (onTrace sel)
    (resourceAwsCloudHsm2HsmDelete_func isAWSErr conn clusterId output).
Proof.
  intros H w. rewrite HsmDelete_func_eq. unfold onTrace. simpl.
  rewrite H. reflexivity.
Qed.

End ClosureInvariants.

(** ** The store during the retry and during the wait *)

Lemma data_Retry {S} backoff timeout (g : S -> M (S * option RetryError)) s :
  (forall s, invariant d (g s)) ->
  invariant d (Retry backoff timeout g s).
Proof.
  intros Hg. unfold Retry.
  apply invariant_bind; [apply data_emit | intros _].
  apply invariant_retryLoop; [intros z; apply data_emit | exact Hg].
Qed.

Lemma data_WaitForState conf :
  invariant d (Refresh conf) -> invariant d (WaitForState conf).
Proof.
  intros H. unfold WaitForState.
  apply invariant_bind; [apply data_emit | intros _].
  apply invariant_bind; [apply data_emit | intros _].
  apply invariant_waitLoop; [intros z; apply data_emit | exact H].
Qed.

(** ** The waiter invocations of each entry point *)

(** One step of a run: a property of a bind follows from the property
    of the continuation at each outcome of the first computation. *)
Lemma bind_cases {A B} (m : M A) (k : A -> M B) (w : World)
    (P : Res B -> Prop) :
  (forall a w', m w = Returns a w' -> P (k a w')) ->
  (forall w', m w = Panics w' -> P (Panics w')) ->
  P (bind m k w).
Proof. intros Hr Hp. rewrite bind_eq. destruct (m w); auto. Qed.

Lemma bind_getData {B} (k : ResourceData -> M B) w :
  bind getData k w = k (d w) w.
Proof. reflexivity. Qed.

Lemma bind_ret {A B} (a : A) (k : A -> M B) w : bind (ret a) k w = k a w.
Proof. reflexivity. Qed.

Lemma bind_dSetId {B} v (k : unit -> M B) w :
  bind (dSetId v) k w = k tt {| d := SetId v (d w); trace := trace w |}.
Proof. reflexivity. Qed.

Lemma bind_deref_Some {A B} (a : A) (k : A -> M B) w :
  bind (deref (Some a)) k w = k a w.
Proof. reflexivity. Qed.

Lemma bind_deref_None {A B} (k : A -> M B) w :
  bind (deref None) k w = Panics w.
Proof. reflexivity. Qed.

(** Split the run from world [w] at its first computation; [H] names
    the equation of its outcome. *)
Ltac split_run w a w' H :=
  match goal with
  | |- context [bind ?m ?k w] =>
      pattern (bind m k w); apply bind_cases; [intros a w' H | intros w' H]
  end.

Lemma invariant_outcome {X A} (f : World -> X) (m : M A) w r :
  m w = r -> invariant f m -> f (worldOf r) = f w.
Proof. intros <- H. apply H. Qed.

Lemma adds_WaitForState_outcome {X} (sel : Event -> option X) conf w r x :
  WaitForState conf w = r ->
  (forall z, sel (EvSleep z) = None) ->
  sel (EvWaitForState (Pending conf) (Target conf) (Timeout conf)
         (MinTimeout conf) (Delay conf)) = Some x ->
  invariant (onTrace sel) (Refresh conf) ->
  onTrace sel (worldOf r) = x :: onTrace sel w.
Proof.
  intros <- Hs Hx Hr. apply onTrace_WaitForState_adds; assumption.
Qed.

Lemma adds_Retry_outcome {X S} (sel : Event -> option X) backoff timeout
    (g : S -> M (S * option RetryError)) s w r x :
  Retry backoff timeout g s w = r ->
  (forall z, sel (EvSleep z) = None) ->
  sel (EvRetry timeout) = Some x ->
  (forall s, invariant (onTrace sel) (g s)) ->
  onTrace sel (worldOf r) = x :: onTrace sel w.
Proof.
  intros <- Hs Hx Hg. apply onTrace_Retry_adds; assumption.
Qed.

(** Side conditions: the selection ignores a kind of event. *)
Ltac ignored := solve [intros; reflexivity | split; intros; reflexivity].

(** Invariance of an observation under the resource code: the lemmas
    of the pieces, and the structure of the code around them. *)
Ltac unchanged_piece :=
  unfold waits, retryCeilings, createClusterRequests, createHsmRequests;
  cbv zeta;
  repeat first
    [ apply data_describeCloudHsm2Cluster
    | apply data_describeHsm
    | apply data_ClusterRefreshFunc
    | apply data_HsmRefreshFunc
    | apply data_ClusterCreate_func
    | apply data_ClusterDelete_func
    | apply data_HsmCreate_func
    | apply data_HsmDelete_func
    | apply data_Retry; intros
    | apply data_WaitForState
    | apply onTrace_describeCloudHsm2Cluster; ignored
    | apply onTrace_describeHsm; ignored
    | apply onTrace_ClusterRefreshFunc; ignored
    | apply onTrace_HsmRefreshFunc; ignored
    | apply onTrace_ClusterRead; ignored
    | apply onTrace_HsmRead; ignored
    | apply onTrace_setTags; ignored
    | apply onTrace_ClusterCreate_func; ignored
    | apply onTrace_ClusterDelete_func; ignored
    | apply onTrace_HsmCreate_func; ignored
    | apply onTrace_HsmDelete_func; ignored
    | apply onTrace_Retry; [ignored | ignored | intros]
    | apply onTrace_WaitForState; [ignored | ignored | ]
    | apply invariant_ret | apply invariant_panic | apply invariant_deref
    | apply invariant_getData
    | apply data_emit | apply data_call
    | apply onTrace_putData | apply onTrace_dSetId | apply onTrace_dSet
    | apply onTrace_emit; ignored
    | apply onTrace_call; ignored
    | apply invariant_bind; [| intros ?]
    | apply invariant_forRange; intros ? ?
    | match goal with
      | |- invariant _ (match ?x with _ => _ end) => destruct x
      end ].

(** The rest of a run leaves the observation [f] alone. *)
Ltac rest_unchanged f :=
  match goal with
  | |- context [worldOf (?k ?w1)] =>
      let H := fresh in
      assert (H : invariant f k) by unchanged_piece;
      rewrite !(H w1); clear H
  end.

(** What invariance of the observation [f] says at the outcome [H]. *)
Ltac learn f H Hnew :=
  match type of H with
  | ?m ?w = ?r =>
      let Hx := fresh in
      assert (Hx : invariant f m) by unchanged_piece;
      pose proof (invariant_outcome f m w r H Hx) as Hnew;
      clear Hx; simpl in Hnew
  end.

(** What the waiter, or the retry, adds to the selection at the outcome
    [H]. *)
Ltac learn_added sel H Hnew :=
  match type of H with
  | WaitForState ?conf ?w = ?r =>
      pose proof (adds_WaitForState_outcome sel conf w r _ H
                    ltac:(ignored) eq_refl
                    ltac:(unchanged_piece)) as Hnew;
      simpl in Hnew
  | Retry ?b ?t ?g ?s ?w = ?r =>
      pose proof (adds_Retry_outcome sel b t g s w r _ H
                    ltac:(ignored) eq_refl
                    ltac:(intros; unchanged_piece)) as Hnew;
      simpl in Hnew
  end.

Lemma len_zero (s : string) : (len s =? 0) = true <-> s = "".
Proof.
  unfold len. destruct s; simpl; split; intros H; try reflexivity;
    try discriminate.
Qed.

Lemma len_nonempty (s : string) :
  s <> "" -> (len s =? 0) = false /\ (0 <? len s) = true.
Proof.
  unfold len. destruct s; [congruence|]. intros _. simpl String.length.
  split; [apply Z.eqb_neq | apply Z.ltb_lt]; lia.
Qed.

Lemma Timeout__SetId v dd key : Timeout_ (SetId v dd) key = Timeout_ dd key.
Proof. reflexivity. Qed.

Section Waits.
Variable isAWSErr : error -> string -> string -> bool.
Variable diffTagsGeneric :
  gmap string string -> gmap string string ->
  gmap string string * gmap string string.
Variable backoff : nat -> Z.

Lemma waits_ClusterDelete meta w :
  let r := resourceAwsCloudHsm2ClusterDelete isAWSErr backoff meta w in
  let c := ([ClusterStateDeleteInProgress], [ClusterStateDeleted],
            Timeout_ (d w) TimeoutCreate, 30, 30) in
  (waits (worldOf r) = waits w \/ waits (worldOf r) = c :: waits w) /\
  (forall w', r = Returns None w' -> waits w' = c :: waits w).
Proof.
  intros r c. subst r c. unfold resourceAwsCloudHsm2ClusterDelete.
  split_run w a w1 HR; learn waits HR Hw.
  - learn d HR Hd.
    destruct a as [output [e|]].
    { split; [left; exact Hw | discriminate]. }
    rewrite bind_getData, Hd.
    split_run w1 b w2 HW; learn_added selWait HW Hwait;
      fold waits in Hwait; rewrite Hw in Hwait.
    + destruct b as [res [e|]]; simpl;
        (split; [right; exact Hwait | ]); [discriminate|].
      intros w' [= <-]. exact Hwait.
    + split; [right; exact Hwait | discriminate].
  - split; [left; exact Hw | discriminate].
Qed.

Lemma waits_HsmDelete meta w :
  let r := resourceAwsCloudHsm2HsmDelete isAWSErr backoff meta w in
  let c := ([HsmStateDeleteInProgress], ["destroyed"],
            Timeout_ (d w) TimeoutCreate, 30, 30) in
  (waits (worldOf r) = waits w \/ waits (worldOf r) = c :: waits w) /\
  (forall w', r = Returns None w' -> waits w' = c :: waits w).
Proof.
  intros r c. subst r c. unfold resourceAwsCloudHsm2HsmDelete.
  rewrite bind_getData.
  split_run w a w1 HR; learn waits HR Hw.
  - learn d HR Hd.
    destruct a as [output [e|]].
    { split; [left; exact Hw | discriminate]. }
    rewrite bind_getData, Hd.
    split_run w1 b w2 HW; learn_added selWait HW Hwait;
      fold waits in Hwait; rewrite Hw in Hwait.
    + destruct b as [res [e|]]; simpl;
        (split; [right; exact Hwait | ]); [discriminate|].
      intros w' [= <-]. exact Hwait.
    + split; [right; exact Hwait | discriminate].
  - split; [left; exact Hw | discriminate].
Qed.

Lemma waits_ClusterCreate meta w :
  let r := resourceAwsCloudHsm2ClusterCreate isAWSErr diffTagsGeneric backoff
             meta w in
  let backupId := GetString (d w) "backup_identifier" in
  let c := ([ClusterStateCreateInProgress; ClusterStateInitializeInProgress],
            [if 0 <? len backupId then ClusterStateActive
             else ClusterStateUninitialized],
            Timeout_ (d w) TimeoutCreate, 30, 30) in
  (waits (worldOf r) = waits w \/ waits (worldOf r) = c :: waits w) /\
  (forall w', r = Returns None w' -> waits w' = c :: waits w).
Proof.
  intros r backupId c. subst r c. unfold resourceAwsCloudHsm2ClusterCreate.
  rewrite bind_getData. fold backupId.
  split_run w a w1 HR; learn waits HR Hw.
  2: { split; [left; exact Hw | discriminate]. }
  learn d HR Hd.
  destruct a as [output [e|]].
  { split; [left; exact Hw | discriminate]. }
  destruct output as [[[cluster|]]|];
    [rewrite bind_deref_Some; cbn [CreateClusterOutput.Cluster];
     rewrite bind_deref_Some
    |rewrite bind_deref_Some; cbn [CreateClusterOutput.Cluster];
     rewrite bind_deref_None; split; [left; exact Hw | discriminate]
    |rewrite bind_deref_None; split; [left; exact Hw | discriminate]].
  rewrite bind_dSetId, bind_getData. simpl d. rewrite Timeout__SetId, Hd.
  match goal with
  | |- context [bind ?m ?k ?w2] =>
      lazymatch m with WaitForState _ => set (w1' := w2) end
  end.
  assert (Hw' : waits w1' = waits w) by exact Hw.
  clearbody w1'.
  split_run w1' b w2 HW; learn_added selWait HW Hwait;
    fold waits in Hwait; rewrite Hw' in Hwait.
  2: { split; [right; exact Hwait | discriminate]. }
  destruct b as [res [e|]].
  { destruct (len backupId =? 0); simpl;
      (split; [right; exact Hwait | discriminate]). }
  rest_unchanged waits.
  split; [right; exact Hwait|].
  intros w' Hret.
  match type of Hret with
  | ?m = _ =>
      assert (Hrest : waits (worldOf m) = waits w2)
        by (apply (invariant_outcome waits _ w2 _ eq_refl); unchanged_piece)
  end.
  rewrite Hret in Hrest. simpl in Hrest. congruence.
Qed.

End Waits.

(** ** The requests of the retried call *)

(** A closure that always returns and adds one selected event [x] per
    attempt: the retry adds [x] once per attempt, at least once. *)
Lemma retryLoop_repeats {X S} (sel : Event -> option X) backoff fuel
    timeout elapsed n (g : S -> M (S * option RetryError)) s w x :
  (forall z, sel (EvSleep z) = None) ->
  (forall s w, exists r w',
      g s w = Returns r w' /\ onTrace sel w' = x :: onTrace sel w) ->
  exists k, (0 < k)%nat /\
    onTrace sel (worldOf (retryLoop backoff fuel timeout elapsed n g s w))
    = repeat x k ++ onTrace sel w.
Proof.
  intros Hsleep Hg. revert elapsed n s w.
  induction fuel as [|fuel IH]; intros elapsed n s w; simpl;
    rewrite bind_eq; destruct (Hg s w) as ([s' rerr] & w' & -> & Hw').
  - exists 1%nat. split; [lia|].
    destruct rerr as [re|]; [destruct (Retryable re)|]; exact Hw'.
  - destruct rerr as [re|]; [destruct (Retryable re)|];
      try (exists 1%nat; split; [lia | exact Hw']).
    destruct (timeout <? elapsed + backoff n);
      [exists 1%nat; split; [lia | exact Hw']|].
    rewrite bind_eq. simpl.
    destruct (IH (elapsed + backoff n) (Datatypes.S n) s'
                {| d := d w'; trace := EvSleep (backoff n) :: trace w' |})
      as (k & Hk & Heq).
    exists (Datatypes.S k). split; [lia|].
    assert (Hs : onTrace sel
                   {| d := d w'; trace := EvSleep (backoff n) :: trace w' |}
                 = onTrace sel w')
      by (unfold onTrace; simpl; rewrite Hsleep; reflexivity).
    rewrite Heq, Hs, Hw'.
    change (x :: onTrace sel w) with ([x] ++ onTrace sel w).
    rewrite app_assoc, <- repeat_cons. reflexivity.
Qed.

Lemma Retry_repeats {X S} (sel : Event -> option X) backoff timeout
    (g : S -> M (S * option RetryError)) s w r x :
  Retry backoff timeout g s w = r ->
  (forall z, sel (EvSleep z) = None) ->
  (forall t, sel (EvRetry t) = None) ->
  (forall s w, exists r w',
      g s w = Returns r w' /\ onTrace sel w' = x :: onTrace sel w) ->
  exists k, (0 < k)%nat /\
    onTrace sel (worldOf r) = repeat x k ++ onTrace sel w.
Proof.
  intros <- Hsleep Hretry Hg.
  change (Retry backoff timeout g s w)
    with (retryLoop backoff (Z.to_nat timeout) timeout 0 0 g s
            {| d := d w; trace := EvRetry timeout :: trace w |}).
  destruct (retryLoop_repeats sel backoff (Z.to_nat timeout) timeout 0 0 g s
              {| d := d w; trace := EvRetry timeout :: trace w |} x
              Hsleep Hg) as (k & Hk & Heq).
  exists k. split; [exact Hk|]. rewrite Heq. unfold onTrace. simpl.
  rewrite Hretry. reflexivity.
Qed.

Section Requests.
Variable isAWSErr : error -> string -> string -> bool.
Variable diffTagsGeneric :
  gmap string string -> gmap string string ->
  gmap string string * gmap string string.
Variable backoff : nat -> Z.

Lemma requests_ClusterCreate meta w :
  let r := resourceAwsCloudHsm2ClusterCreate isAWSErr diffTagsGeneric backoff
             meta w in
  let backupId := GetString (d w) "backup_identifier" in
  let input :=
    CreateClusterInput.mk (Some (GetString (d w) "hsm_type"))
      (if len backupId =? 0 then None else Some backupId)
      (GetStrings (d w) "subnet_ids") in
  exists k, (0 < k)%nat /\
    createClusterRequests (worldOf r)
    = repeat input k ++ createClusterRequests w.
Proof.
  intros r backupId input. subst r.
  unfold resourceAwsCloudHsm2ClusterCreate.
  rewrite bind_getData. fold backupId. cbv zeta.
  match goal with
  | |- context [Retry backoff 180
                  (resourceAwsCloudHsm2ClusterCreate_func _ _ ?i) None] =>
      replace i with input by (subst input; destruct (len backupId =? 0);
                               reflexivity)
  end.
  assert (Hg : forall s w, exists r w',
             resourceAwsCloudHsm2ClusterCreate_func isAWSErr
               (cloudhsmv2conn meta) input s w = Returns r w' /\
             onTrace selCreateCluster w' = input :: onTrace selCreateCluster w).
  { intros s w0. rewrite ClusterCreate_func_eq. eexists _, _.
    split; reflexivity. }
  split_run w a w1 HR;
    destruct (Retry_repeats selCreateCluster _ _ _ _ _ _ input HR
                ltac:(ignored) ltac:(ignored) Hg) as (k & Hk & Heq);
    exists k; (split; [exact Hk|]); [|exact Heq].
  rest_unchanged createClusterRequests. exact Heq.
Qed.

End Requests.

(** ** The HSM create: zone resolution, requests and the store *)

(** The resolution loop of the HSM create over a mapping without nil
    pointers: it ends on a zone mapped to the subnet, or on the zone it
    began with when no zone is mapped to the subnet. *)
Lemma zone_scan (subnetId : string) (mapping : list (string * option string))
    (acc : string) (w : World) :
  Forall (fun p => is_Some p.2) mapping ->
  exists z,
    forRange mapping acc
      (fun availabilityZone '(az, sn) =>
         let* s := deref sn in
         ret (if String.eqb s subnetId then az else availabilityZone)) w
    = Returns z w
    /\ (In (z, Some subnetId) mapping
        \/ (z = acc /\ forall az, ~ In (az, Some subnetId) mapping)).
Proof.
  intros Hm. revert acc.
  induction Hm as [|[az0 sn] mapping [s Hs] _ IH]; intros acc; simpl.
  - exists acc. split; [reflexivity|]. right. split; [reflexivity|]. tauto.
  - simpl in Hs. subst sn. rewrite bind_eq. simpl.
    destruct (String.eqb_spec s subnetId) as [->|Hne].
    + destruct (IH az0) as (z & -> & [Hin|[-> Hnone]]); exists z || exists az0;
        (split; [reflexivity|]); left; [right; exact Hin | left; reflexivity].
    + destruct (IH acc) as (z & -> & [Hin|[-> Hnone]]); exists z || exists acc;
        (split; [reflexivity|]); [left; right; exact Hin|].
      right. split; [reflexivity|]. intros az [Heq|Hin].
      * injection Heq as _ Heq. congruence.
      * exact (Hnone az Hin).
Qed.

Section HsmCreate.
Variable isAWSErr : error -> string -> string -> bool.
Variable backoff : nat -> Z.

(** Once the owning cluster is found and the zone resolved, every
    attempt sends the same request, and at least one attempt is made. *)
Lemma requests_HsmCreate meta w cluster err w0 availabilityZone w0' :
  let r := resourceAwsCloudHsm2HsmCreate isAWSErr backoff meta w in
  let clusterId := GetString (d w) "cluster_id" in
  let ipAddress := GetString (d w) "ip_address" in
  let input :=
    CreateHsmInput.mk (Some availabilityZone) (Some clusterId)
      (if len ipAddress =? 0 then None else Some ipAddress) in
  describeCloudHsm2Cluster clusterId meta w = Returns (Some cluster, err) w0 ->
  (if len (GetString (d w) "availability_zone") =? 0 then
     forRange (Cluster.SubnetMapping cluster)
       (GetString (d w) "availability_zone")
       (fun availabilityZone '(az, sn) =>
          let* s := deref sn in
          ret (if String.eqb s (GetString (d w) "subnet_id") then az
               else availabilityZone))
   else ret (GetString (d w) "availability_zone")) w0
    = Returns availabilityZone w0' ->
  exists k, (0 < k)%nat /\
    createHsmRequests (worldOf r) = repeat input k ++ createHsmRequests w.
Proof.
  intros r clusterId ipAddress input HD HZ. subst r.
  learn createHsmRequests HD Hq0. learn createHsmRequests HZ Hq0'.
  unfold resourceAwsCloudHsm2HsmCreate.
  rewrite bind_getData. fold clusterId ipAddress. cbv zeta.
  rewrite bind_eq, HD. rewrite bind_eq, HZ.
  match goal with
  | |- context [Retry backoff 180
                  (resourceAwsCloudHsm2HsmCreate_func _ _ ?i) None] =>
      replace i with input by (subst input; destruct (len ipAddress =? 0);
                               reflexivity)
  end.
  assert (Hg : forall s w, exists r w',
             resourceAwsCloudHsm2HsmCreate_func isAWSErr
               (cloudhsmv2conn meta) input s w = Returns r w' /\
             onTrace selCreateHsm w' = input :: onTrace selCreateHsm w).
  { intros s w2. rewrite HsmCreate_func_eq. eexists _, _.
    split; reflexivity. }
  assert (Hq : createHsmRequests w0' = createHsmRequests w) by congruence.
  split_run w0' a w1 HR;
    destruct (Retry_repeats selCreateHsm _ _ _ _ _ _ input HR
                ltac:(ignored) ltac:(ignored) Hg) as (k & Hk & Heq);
    fold createHsmRequests in Heq; rewrite Hq in Heq;
    exists k; (split; [exact Hk|]); [|exact Heq].
  rest_unchanged createHsmRequests. exact Heq.
Qed.

Lemma dSet_returns key value w :
  exists e d',
    dSet key value w = Returns e {| d := d'; trace := trace w |}.
Proof.
  unfold dSet, bind, getData, putData, ret.
  destruct (Set_ (d w) key value) as [d' e]. eexists _, _. reflexivity.
Qed.

(** The HSM read either returns a nil error or leaves the attributes
    as they were. *)
Lemma HsmRead_attrs meta w :
  let r := resourceAwsCloudHsm2HsmRead meta w in
  (exists w', r = Returns None w')
  \/ ResourceData.attrs (d (worldOf r)) = ResourceData.attrs (d w).
Proof.
  intros r. subst r. unfold resourceAwsCloudHsm2HsmRead.
  split_run w a w1 HD; learn d HD Hd.
  2: { right. simpl. rewrite Hd. reflexivity. }
  destruct a as [[hsm|] err].
  - left.
    repeat (rewrite bind_eq;
            match goal with
            | |- context [dSet ?k ?v ?w0] =>
                destruct (dSet_returns k v w0) as (? & ? & ->)
            end).
    eexists. reflexivity.
  - right. rewrite bind_dSetId. simpl. rewrite Hd. reflexivity.
Qed.

(** The HSM create either returns a nil error or leaves the attributes
    as they were: only its final read writes them. *)
Lemma HsmCreate_attrs meta w :
  let r := resourceAwsCloudHsm2HsmCreate isAWSErr backoff meta w in
  (exists w', r = Returns None w')
  \/ ResourceData.attrs (d (worldOf r)) = ResourceData.attrs (d w).
Proof.
  intros r. subst r. unfold resourceAwsCloudHsm2HsmCreate.
  rewrite bind_getData. cbv zeta.
  split_run w a w1 HD; learn d HD Hd1.
  2: { right. simpl. rewrite Hd1. reflexivity. }
  destruct a as [[cluster|] err].
  2: { right. simpl. rewrite Hd1. reflexivity. }
  split_run w1 az w2 HZ; learn d HZ Hd2.
  2: { right. simpl. rewrite Hd2, Hd1. reflexivity. }
  split_run w2 b w3 HR; learn d HR Hd3.
  2: { right. simpl. rewrite Hd3, Hd2, Hd1. reflexivity. }
  destruct b as [output [e|]].
  { right. simpl. rewrite Hd3, Hd2, Hd1. reflexivity. }
  destruct output as [[[hsm|]]|];
    [rewrite bind_deref_Some; cbn [CreateHsmOutput.Hsm];
     rewrite bind_deref_Some
    |rewrite bind_deref_Some; cbn [CreateHsmOutput.Hsm];
     rewrite bind_deref_None; right; simpl; rewrite Hd3, Hd2, Hd1; reflexivity
    |rewrite bind_deref_None; right; simpl; rewrite Hd3, Hd2, Hd1;
     reflexivity].
  rewrite bind_dSetId, bind_getData.
  match goal with
  | |- context [bind (WaitForState ?c) ?k ?w4] => set (begun := w4)
  end.
  assert (Hb : ResourceData.attrs (d begun) = ResourceData.attrs (d w))
    by (subst begun; simpl; rewrite Hd3, Hd2, Hd1; reflexivity).
  clearbody begun.
  split_run begun c w5 HW; learn d HW Hd5.
  2: { right. simpl. rewrite Hd5. exact Hb. }
  destruct c as [res [e|]].
  { right. simpl. rewrite Hd5. exact Hb. }
  destruct (HsmRead_attrs meta w5) as [Hok|Hsame]; [left; exact Hok|].
  right. rewrite Hsame, Hd5. exact Hb.
Qed.

End HsmCreate.

(** ** The ceilings of the retry *)

Section Ceilings.
Variable isAWSErr : error -> string -> string -> bool.
Variable diffTagsGeneric :
  gmap string string -> gmap string string ->
  gmap string string * gmap string string.
Variable backoff : nat -> Z.

Lemma ceilings_ClusterCreate meta w :
  retryCeilings
    (worldOf (resourceAwsCloudHsm2ClusterCreate isAWSErr diffTagsGeneric
                backoff meta w))
  = 180 :: retryCeilings w.
Proof.
  unfold resourceAwsCloudHsm2ClusterCreate. rewrite bind_getData. cbv zeta.
  split_run w a w1 HR; learn_added selRetry HR Hc; [|exact Hc].
  rest_unchanged retryCeilings. exact Hc.
Qed.

Lemma ceilings_ClusterDelete meta w :
  retryCeilings
    (worldOf (resourceAwsCloudHsm2ClusterDelete isAWSErr backoff meta w))
  = 180 :: retryCeilings w.
Proof.
  unfold resourceAwsCloudHsm2ClusterDelete.
  split_run w a w1 HR; learn_added selRetry HR Hc; [|exact Hc].
  rest_unchanged retryCeilings. exact Hc.
Qed.

Lemma ceilings_HsmDelete meta w :
  retryCeilings
    (worldOf (resourceAwsCloudHsm2HsmDelete isAWSErr backoff meta w))
  = 180 :: retryCeilings w.
Proof.
  unfold resourceAwsCloudHsm2HsmDelete. rewrite bind_getData. cbv zeta.
  split_run w a w1 HR; learn_added selRetry HR Hc; [|exact Hc].
  rest_unchanged retryCeilings. exact Hc.
Qed.

(** The HSM create reaches the retry when the owning cluster is found
    and its subnet mapping holds no nil pointer; otherwise it sends no
    create request. *)
Lemma ceilings_HsmCreate meta w :
  let r := resourceAwsCloudHsm2HsmCreate isAWSErr backoff meta w in
  (retryCeilings (worldOf r) = retryCeilings w
   /\ createHsmRequests (worldOf r) = createHsmRequests w)
  \/ retryCeilings (worldOf r) = 180 :: retryCeilings w.
Proof.
  intros r. subst r. unfold resourceAwsCloudHsm2HsmCreate.
  rewrite bind_getData. cbv zeta.
  split_run w a w1 HD; learn retryCeilings HD Hc1;
    learn createHsmRequests HD Hq1.
  2: { left. split; assumption. }
  destruct a as [[cluster|] err].
  2: { left. split; assumption. }
  split_run w1 az w2 HZ; learn retryCeilings HZ Hc2;
    learn createHsmRequests HZ Hq2.
  2: { left. simpl. split; congruence. }
  right.
  split_run w2 b w3 HR; learn_added selRetry HR Hc3;
    fold retryCeilings in Hc3; rewrite Hc2, Hc1 in Hc3.
  2: { exact Hc3. }
  rest_unchanged retryCeilings. exact Hc3.
Qed.

End Ceilings.

(** ** The retry loop does what the wrapper is to do *)

(** With pauses of at least one second the fuel never runs out before
    the ceiling does. *)
Lemma retryLoop_retried {S} backoff fuel timeout elapsed n
    (g : S -> M (S * option RetryError)) s w :
  (forall n, 1 <= backoff n) ->
  timeout - elapsed <= Z.of_nat fuel ->
  retried backoff timeout g elapsed n s w
    (retryLoop backoff fuel timeout elapsed n g s w).
Proof.
  intros Hb. revert elapsed n s w.
  induction fuel as [|fuel IH]; intros elapsed n s w Hfuel; simpl;
    rewrite bind_eq; destruct (g s w) as [[s' [re|]] w'|w'] eqn:Hg;
    try (apply retried_panic; exact Hg);
    try (apply retried_success; exact Hg).
  - destruct (Retryable re) eqn:Hre.
    + eapply retried_exhausted; eauto. specialize (Hb n). lia.
    + eapply retried_other; eauto.
  - destruct (Retryable re) eqn:Hre; [|eapply retried_other; eauto].
    destruct (Z.ltb_spec timeout (elapsed + backoff n)) as [Hlt|Hge].
    + eapply retried_exhausted; eauto.
    + eapply retried_again; eauto.
      rewrite bind_eq. simpl. apply IH. specialize (Hb n). lia.
Qed.

Lemma Retry_retried {S} backoff timeout
    (g : S -> M (S * option RetryError)) s w :
  (forall n, 1 <= backoff n) ->
  retried backoff timeout g 0 0 s (after (EvRetry timeout) w)
    (Retry backoff timeout g s w).
Proof.
  intros Hb.
  change (Retry backoff timeout g s w)
    with (retryLoop backoff (Z.to_nat timeout) timeout 0 0 g s
            (after (EvRetry timeout) w)).
  apply retryLoop_retried; [exact Hb | lia].
Qed.

(** ** Code that does not look at the delete timeout *)

Lemma blind_ret {A} (a : A) : blindToDeleteTimeout (ret a).
Proof. intros t w. reflexivity. Qed.

Lemma blind_panic {A} : blindToDeleteTimeout (@panic A).
Proof. intros t w. reflexivity. Qed.

Lemma blind_deref {A} (p : option A) : blindToDeleteTimeout (deref p).
Proof. destruct p; [apply blind_ret | apply blind_panic]. Qed.

Lemma blind_emit e : blindToDeleteTimeout (emit e).
Proof. intros t w. reflexivity. Qed.

Lemma blind_call {I O} ev (g : list Event -> I -> O) i :
  blindToDeleteTimeout (call ev g i).
Proof. intros t w. reflexivity. Qed.

Lemma blind_bind {A B} (m : M A) (k : A -> M B) :
  blindToDeleteTimeout m -> (forall a, blindToDeleteTimeout (k a)) ->
  blindToDeleteTimeout (bind m k).
Proof.
  intros Hm Hk t w. rewrite !bind_eq, Hm.
  destruct (m w) as [a w'|w']; simpl; [apply Hk | reflexivity].
Qed.

(** Reading the store: the rest must not tell the two stores apart. *)
Lemma blind_getData {B} (k : ResourceData -> M B) :
  (forall t dd, k (setDeleteTimeout t dd) = k dd) ->
  (forall dd, blindToDeleteTimeout (k dd)) ->
  blindToDeleteTimeout (bind getData k).
Proof.
  intros Hsame Hk t w. rewrite !bind_getData. simpl d.
  rewrite Hsame. apply Hk.
Qed.

Lemma blind_forRange {A B} (l : list A) (acc : B) body :
  (forall b a, blindToDeleteTimeout (body b a)) ->
  blindToDeleteTimeout (forRange l acc body).
Proof.
  intros Hbody. revert acc.
  induction l as [|x l IH]; intros acc; simpl.
  - apply blind_ret.
  - apply blind_bind; [apply Hbody | intros b; apply IH].
Qed.

Lemma blind_retryLoop {S} backoff fuel timeout elapsed n
    (g : S -> M (S * option RetryError)) s :
  (forall s, blindToDeleteTimeout (g s)) ->
  blindToDeleteTimeout (retryLoop backoff fuel timeout elapsed n g s).
Proof.
  intros Hg. revert elapsed n s.
  induction fuel as [|fuel IH]; intros elapsed n s; simpl;
    apply blind_bind; try apply Hg; intros [s' [re|]];
    try apply blind_ret; destruct (Retryable re);
    try apply blind_ret.
  destruct (timeout <? elapsed + backoff n); [apply blind_ret|].
  apply blind_bind; [apply blind_emit | intros _; apply IH].
Qed.

Lemma blind_Retry {S} backoff timeout
    (g : S -> M (S * option RetryError)) s :
  (forall s, blindToDeleteTimeout (g s)) ->
  blindToDeleteTimeout (Retry backoff timeout g s).
Proof.
  intros Hg. unfold Retry.
  apply blind_bind; [apply blind_emit | intros _].
  apply blind_retryLoop, Hg.
Qed.

Lemma blind_waitLoop fuel conf elapsed last :
  blindToDeleteTimeout (Refresh conf) ->
  blindToDeleteTimeout (waitLoop fuel conf elapsed last).
Proof.
  intros Hr. revert elapsed last.
  induction fuel as [|fuel IH]; intros elapsed last; simpl.
  - apply blind_ret.
  - destruct (Timeout conf <? elapsed); [apply blind_ret|].
    apply blind_bind; [exact Hr|].
    intros [[res st] [e|]]; [apply blind_ret|].
    destruct (inStates st (Target conf)); [apply blind_ret|].
    destruct (inStates st (Pending conf)); [|apply blind_ret].
    apply blind_bind; [apply blind_emit | intros _; apply IH].
Qed.

Lemma blind_WaitForState conf :
  blindToDeleteTimeout (Refresh conf) ->
  blindToDeleteTimeout (WaitForState conf).
Proof.
  intros Hr. unfold WaitForState.
  apply blind_bind; [apply blind_emit | intros _].
  apply blind_bind; [apply blind_emit | intros _].
  apply blind_waitLoop, Hr.
Qed.

Ltac blind :=
  cbv zeta;
  repeat first
    [ apply blind_ret | apply blind_panic | apply blind_deref
    | apply blind_emit | apply blind_call
    | apply blind_Retry; intros ?
    | apply blind_WaitForState
    | apply blind_getData; [intros ? ?; reflexivity | intros ?]
    | apply blind_bind; [| intros ?]
    | apply blind_forRange; intros ? ?
    | match goal with
      | |- blindToDeleteTimeout (match ?x with _ => _ end) => destruct x
      end ].

Lemma blind_ClusterDelete isAWSErr backoff meta :
  blindToDeleteTimeout
    (resourceAwsCloudHsm2ClusterDelete isAWSErr backoff meta).
Proof.
  unfold resourceAwsCloudHsm2ClusterDelete,
    resourceAwsCloudHsm2ClusterDelete_func,
    resourceAwsCloudHsm2ClusterRefreshFunc, describeCloudHsm2Cluster.
  blind.
Qed.

Lemma blind_HsmDelete isAWSErr backoff meta :
  blindToDeleteTimeout (resourceAwsCloudHsm2HsmDelete isAWSErr backoff meta).
Proof.
  unfold resourceAwsCloudHsm2HsmDelete, resourceAwsCloudHsm2HsmDelete_func,
    resourceAwsCloudHsm2HsmRefreshFunc, describeHsm.
  blind.
Qed.

(** ** The certificate projection in the store *)

Lemma invariant_data_fun {X A} (g : ResourceData -> X) (m : M A) :
  invariant d m -> invariant (fun w => g (d w)) m.
Proof. intros H w. rewrite (H w). reflexivity. Qed.

Lemma certificates_dSetId v : invariant certificatesObserved (dSetId v).
Proof. intros w. reflexivity. Qed.

(** A write under any key but "cluster_certificates" leaves the
    projection alone: under the key "cluster_certificate" because the
    schema refuses it. *)
Lemma certificates_dSet key value :
  key <> "cluster_certificates" ->
  invariant certificatesObserved (dSet key value).
Proof.
  intros Hkey w. unfold dSet, bind, getData, putData, ret, Set_.
  destruct (ResourceData.Schema (d w) !! key) as [ty|] eqn:Hs;
    [|reflexivity].
  destruct value as [v|]; [destruct (fits ty v); [|reflexivity]|];
    unfold certificatesObserved, certificatesOf; simpl;
    (f_equal; case_bool_decide; [|reflexivity]).
  - apply lookup_insert_ne. exact Hkey.
  - apply lookup_delete_ne. exact Hkey.
Qed.

Ltac kept :=
  cbv zeta;
  repeat first
    [ apply certificates_dSet; discriminate
    | apply certificates_dSetId
    | apply (invariant_data_fun certificatesOf); solve [unchanged_piece]
    | apply invariant_ret | apply invariant_panic | apply invariant_deref
    | apply invariant_getData
    | apply invariant_bind; [| intros ?]
    | apply invariant_forRange; intros ? ?
    | apply invariant_retryLoop
    | match goal with
      | |- invariant _ (match ?x with _ => _ end) => destruct x
      end ].

Lemma certificates_ClusterRead meta :
  invariant certificatesObserved (resourceAwsCloudHsm2ClusterRead meta).
Proof. unfold resourceAwsCloudHsm2ClusterRead. kept. Qed.

Lemma certificates_ClusterUpdate diffTagsGeneric meta :
  invariant certificatesObserved
    (resourceAwsCloudHsm2ClusterUpdate diffTagsGeneric meta).
Proof.
  unfold resourceAwsCloudHsm2ClusterUpdate.
  apply invariant_bind; [kept | intros [e|]; [kept|]].
  apply certificates_ClusterRead.
Qed.

Lemma certificates_ClusterCreate isAWSErr diffTagsGeneric backoff meta :
  invariant certificatesObserved
    (resourceAwsCloudHsm2ClusterCreate isAWSErr diffTagsGeneric backoff meta).
Proof.
  unfold resourceAwsCloudHsm2ClusterCreate. cbv zeta.
  apply invariant_bind; [kept | intros dd].
  apply invariant_bind; [kept | intros [output [e|]]]; [kept|].
  apply invariant_bind; [kept | intros out].
  apply invariant_bind; [kept | intros cluster].
  apply invariant_bind; [kept | intros _].
  apply invariant_bind; [kept | intros dd'].
  apply invariant_bind; [kept | intros [res [e|]]]; [kept|].
  apply invariant_bind; [kept | intros [e|]; [kept|]].
  apply certificates_ClusterRead.
Qed.

(** With the schema of the cluster resource, the projection is the
    value under "cluster_certificates". *)
Lemma certificatesObserved_cluster w w' :
  ResourceData.Schema (d w) = resourceAwsCloudHsm2Cluster_Schema ->
  certificatesObserved w' = certificatesObserved w ->
  ResourceData.attrs (d w') !! "cluster_certificates"
  = ResourceData.attrs (d w) !! "cluster_certificates".
Proof.
  unfold certificatesObserved, certificatesOf. intros Hs [= HS Hc].
  rewrite HS, Hs in Hc. exact Hc.
Qed.

(** ** The world after a describe, and the laws of the store *)

(** Code that neither touches the store nor talks to the remote leaves
    the world as it is. *)
Ltac still :=
  match goal with
  | |- worldOf (?k ?w1) = _ =>
      let Hk := fresh in
      assert (Hk : invariant (fun w => w) k) by unchanged;
      rewrite (Hk w1); clear Hk
  end.

Lemma describeCloudHsm2Cluster_world clusterId meta w :
  worldOf (describeCloudHsm2Cluster clusterId meta w) = described clusterId w.
Proof.
  unfold describeCloudHsm2Cluster. rewrite bind_eq. unfold call.
  destruct (DescribeClusters _ _ _) as [out [e|]]; [reflexivity|].
  still. reflexivity.
Qed.

Lemma describeHsm_world meta w :
  worldOf (describeHsm meta w)
  = described (GetString (d w) "cluster_id") w.
Proof.
  unfold describeHsm. rewrite bind_getData, bind_eq. unfold call.
  destruct (DescribeClusters _ _ _) as [out [e|]]; [reflexivity|].
  still. reflexivity.
Qed.

(** The laws of the store that the reads rely on. *)
Lemma Set__frame dd key value :
  let dd' := (Set_ dd key value).1 in
  ResourceData.id dd' = ResourceData.id dd
  /\ ResourceData.Schema dd' = ResourceData.Schema dd
  /\ ResourceData.prior dd' = ResourceData.prior dd
  /\ ResourceData.timeouts dd' = ResourceData.timeouts dd.
Proof.
  unfold Set_. destruct (ResourceData.Schema dd !! key) as [ty|];
    [destruct value as [v|]; [destruct (fits ty v)|]|]; simpl; auto.
Qed.

Lemma Set__Schema dd key value :
  ResourceData.Schema (Set_ dd key value).1 = ResourceData.Schema dd.
Proof. apply Set__frame. Qed.

Lemma Set__Id dd key value : Id (Set_ dd key value).1 = Id dd.
Proof. apply Set__frame. Qed.

Lemma Set__other dd key value key' :
  key <> key' ->
  ResourceData.attrs (Set_ dd key value).1 !! key'
  = ResourceData.attrs dd !! key'.
Proof.
  intros Hne. unfold Set_.
  destruct (ResourceData.Schema dd !! key) as [ty|];
    [destruct value as [v|]; [destruct (fits ty v)|]|]; simpl; auto.
  - apply lookup_insert_ne, Hne.
  - apply lookup_delete_ne, Hne.
Qed.

Lemma Set__same dd key ty v :
  ResourceData.Schema dd !! key = Some ty ->
  fits ty v = true ->
  (Set_ dd key (Some v)).2 = None
  /\ ResourceData.attrs (Set_ dd key (Some v)).1 !! key = Some v.
Proof.
  intros Hs Hf. unfold Set_. rewrite Hs, Hf. simpl.
  split; [reflexivity | apply lookup_insert_eq].
Qed.

(** A key that the schema does not have is refused: the store is left
    as it is. *)
Lemma Set__refused dd key value :
  ResourceData.Schema dd !! key = None -> (Set_ dd key value).1 = dd.
Proof. intros Hs. unfold Set_. rewrite Hs. reflexivity. Qed.

Lemma GetString_Set__other dd key value key' :
  key <> key' -> GetString (Set_ dd key value).1 key' = GetString dd key'.
Proof. intros Hne. unfold GetString. rewrite Set__other; auto. Qed.

(** Writing a string pointer under a string key and reading it back:
    the string, or the empty string for nil. *)
Lemma GetString_Set__same dd key p :
  ResourceData.Schema dd !! key = Some TypeString ->
  GetString (Set_ dd key (VString <$> p)).1 key = aws.StringValue p.
Proof.
  intros Hs. unfold GetString, Set_. rewrite Hs.
  destruct p as [s|]; simpl.
  - rewrite lookup_insert_eq. reflexivity.
  - rewrite lookup_delete_eq. reflexivity.
Qed.

Lemma bind_dSet {B} key value (k : option error -> M B) w :
  bind (dSet key value) k w
  = k (Set_ (d w) key value).2
      {| d := (Set_ (d w) key value).1; trace := trace w |}.
Proof.
  unfold dSet, bind, getData, putData, ret.
  destruct (Set_ (d w) key value). reflexivity.
Qed.

(** The outcome of a retry is determined by the closure. *)
Lemma retried_unique {S} backoff timeout
    (g : S -> M (S * option RetryError)) elapsed n s w r1 r2 :
  retried backoff timeout g elapsed n s w r1 ->
  retried backoff timeout g elapsed n s w r2 ->
  r1 = r2.
Proof.
  intros H1. revert r2.
  induction H1 as [elapsed n s w s' w' Hg
                  |elapsed n s w s' re w' Hg Hre
                  |elapsed n s w s' re w' Hg Hre Hlt
                  |elapsed n s w s' re w' r Hg Hre Hle _ IH
                  |elapsed n s w w' Hg];
    intros r2 H2; inversion H2; subst;
    match goal with
    | Hg' : g s w = _ |- _ => rewrite Hg in Hg'; try discriminate Hg';
                              injection Hg' as; subst
    end;
    try reflexivity; try congruence; try lia.
  apply IH. assumption.
Qed.

(** ** The retry of each operation *)

Section Through.
Variable isAWSErr : error -> string -> string -> bool.
Variable diffTagsGeneric :
  gmap string string -> gmap string string ->
  gmap string string * gmap string string.
Variable backoff : nat -> Z.
Hypothesis pauses : forall n, 1 <= backoff n.

Lemma through_ClusterCreate meta w :
  let backupId := GetString (d w) "backup_identifier" in
  let input :=
    CreateClusterInput.mk (Some (GetString (d w) "hsm_type"))
      (if len backupId =? 0 then None else Some backupId)
      (GetStrings (d w) "subnet_ids") in
  exists r,
    retried backoff 180
      (resourceAwsCloudHsm2ClusterCreate_func isAWSErr (cloudhsmv2conn meta)
         input) 0 0 None (after (EvRetry 180) w) r
    /\ through r
         (resourceAwsCloudHsm2ClusterCreate isAWSErr diffTagsGeneric backoff
            meta w).
Proof.
  intros backupId input.
  exists (Retry backoff 180
            (resourceAwsCloudHsm2ClusterCreate_func isAWSErr
               (cloudhsmv2conn meta) input) None w).
  split; [apply Retry_retried, pauses|].
  unfold resourceAwsCloudHsm2ClusterCreate.
  rewrite bind_getData. fold backupId. cbv zeta.
  match goal with
  | |- context [bind (Retry backoff 180
                  (resourceAwsCloudHsm2ClusterCreate_func _ _ ?i) None)] =>
      replace i with input by (subst input; destruct (len backupId =? 0);
                               reflexivity)
  end.
  split_run w a w1 HR; rewrite HR; [|exact eq_refl].
  destruct a as [output [e|]]; [exact eq_refl|].
  unfold through, mutations. rest_unchanged (onTrace selMutation).
  exact eq_refl.
Qed.

Lemma through_ClusterDelete meta w :
  exists r,
    retried backoff 180
      (resourceAwsCloudHsm2ClusterDelete_func isAWSErr (cloudhsmv2conn meta))
      0 0 None (after (EvRetry 180) w) r
    /\ through r (resourceAwsCloudHsm2ClusterDelete isAWSErr backoff meta w).
Proof.
  exists (Retry backoff 180
            (resourceAwsCloudHsm2ClusterDelete_func isAWSErr
               (cloudhsmv2conn meta)) None w).
  split; [apply Retry_retried, pauses|].
  unfold resourceAwsCloudHsm2ClusterDelete.
  split_run w a w1 HR; rewrite HR; [|exact eq_refl].
  destruct a as [output [e|]]; [exact eq_refl|].
  unfold through, mutations. rest_unchanged (onTrace selMutation).
  exact eq_refl.
Qed.

Lemma through_HsmDelete meta w :
  exists r,
    retried backoff 180
      (resourceAwsCloudHsm2HsmDelete_func isAWSErr (cloudhsmv2conn meta)
         (GetString (d w) "cluster_id"))
      0 0 None (after (EvRetry 180) w) r
    /\ through r (resourceAwsCloudHsm2HsmDelete isAWSErr backoff meta w).
Proof.
  exists (Retry backoff 180
            (resourceAwsCloudHsm2HsmDelete_func isAWSErr
               (cloudhsmv2conn meta) (GetString (d w) "cluster_id")) None w).
  split; [apply Retry_retried, pauses|].
  unfold resourceAwsCloudHsm2HsmDelete. rewrite bind_getData. cbv zeta.
  split_run w a w1 HR; rewrite HR; [|exact eq_refl].
  destruct a as [output [e|]]; [exact eq_refl|].
  unfold through, mutations. rest_unchanged (onTrace selMutation).
  exact eq_refl.
Qed.

(** The HSM create from its retry on, once the owning cluster is found
    and the zone resolved. *)
Lemma through_HsmCreate_from meta w cluster err availabilityZone :
  let op := resourceAwsCloudHsm2HsmCreate isAWSErr backoff meta w in
  let clusterId := GetString (d w) "cluster_id" in
  let ipAddress := GetString (d w) "ip_address" in
  describeCloudHsm2Cluster clusterId meta w
    = Returns (Some cluster, err) (described clusterId w) ->
  (if len (GetString (d w) "availability_zone") =? 0 then
     forRange (Cluster.SubnetMapping cluster)
       (GetString (d w) "availability_zone")
       (fun availabilityZone '(az, sn) =>
          let* s := deref sn in
          ret (if String.eqb s (GetString (d w) "subnet_id") then az
               else availabilityZone))
   else ret (GetString (d w) "availability_zone")) (described clusterId w)
    = Returns availabilityZone (described clusterId w) ->
  exists r,
    retried backoff 180
      (resourceAwsCloudHsm2HsmCreate_func isAWSErr (cloudhsmv2conn meta)
         (CreateHsmInput.mk (Some availabilityZone) (Some clusterId)
            (if len ipAddress =? 0 then None else Some ipAddress)))
      0 0 None (after (EvRetry 180) (described clusterId w)) r
    /\ through r op.
Proof.
  intros op clusterId ipAddress HD HZ. subst op.
  exists (Retry backoff 180
            (resourceAwsCloudHsm2HsmCreate_func isAWSErr (cloudhsmv2conn meta)
               (CreateHsmInput.mk (Some availabilityZone) (Some clusterId)
                  (if len ipAddress =? 0 then None else Some ipAddress)))
            None (described clusterId w)).
  split; [apply Retry_retried, pauses|].
  unfold resourceAwsCloudHsm2HsmCreate.
  rewrite bind_getData. fold clusterId ipAddress. cbv zeta.
  rewrite bind_eq, HD. rewrite bind_eq, HZ.
  match goal with
  | |- context [bind (Retry backoff 180
                  (resourceAwsCloudHsm2HsmCreate_func _ _ ?i) None)] =>
      replace i with
        (CreateHsmInput.mk (Some availabilityZone) (Some clusterId)
           (if len ipAddress =? 0 then None else Some ipAddress))
        by (destruct (len ipAddress =? 0); reflexivity)
  end.
  split_run (described clusterId w) b w1 HR; rewrite HR; [|exact eq_refl].
  destruct b as [output [e|]]; [exact eq_refl|].
  unfold through, mutations. rest_unchanged (onTrace selMutation).
  exact eq_refl.
Qed.

(** The HSM create reaches the retry once the owning cluster is found
    and the zone resolved, after its one describe call: always when the
    cluster is found and the zone is given or the subnet mapping holds
    no nil pointer.  Otherwise it stops without a retry and without a
    mutating request. *)
Lemma through_HsmCreate meta w :
  let op := resourceAwsCloudHsm2HsmCreate isAWSErr backoff meta w in
  let clusterId := GetString (d w) "cluster_id" in
  let ipAddress := GetString (d w) "ip_address" in
  let reached :=
    exists availabilityZone r,
      retried backoff 180
        (resourceAwsCloudHsm2HsmCreate_func isAWSErr (cloudhsmv2conn meta)
           (CreateHsmInput.mk (Some availabilityZone) (Some clusterId)
              (if len ipAddress =? 0 then None else Some ipAddress)))
        0 0 None (after (EvRetry 180) (described clusterId w)) r
      /\ through r op in
  ((retryCeilings (worldOf op) = retryCeilings w
    /\ mutations (worldOf op) = mutations w)
   \/ reached)
  /\ (forall cluster err w0,
        describeCloudHsm2Cluster clusterId meta w
          = Returns (Some cluster, err) w0 ->
        GetString (d w) "availability_zone" <> ""
        \/ Forall (fun p => is_Some p.2) (Cluster.SubnetMapping cluster) ->
        reached).
Proof.
  intros op clusterId ipAddress reached. subst reached. split.
  - pose proof (describeCloudHsm2Cluster_world clusterId meta w) as Hw1.
    destruct (describeCloudHsm2Cluster clusterId meta w)
      as [[[cluster|] err] w1|w1] eqn:HD; simpl in Hw1; subst w1.
    + set (w1 := described clusterId w) in *.
      destruct ((if len (GetString (d w) "availability_zone") =? 0 then
                   forRange (Cluster.SubnetMapping cluster)
                     (GetString (d w) "availability_zone")
                     (fun availabilityZone '(az, sn) =>
                        let* s := deref sn in
                        ret (if String.eqb s (GetString (d w) "subnet_id")
                             then az else availabilityZone))
                 else ret (GetString (d w) "availability_zone")) w1)
        as [az w2|w2] eqn:HZ; learn (fun w : World => w) HZ Hw2; subst w2.
      * right. exists az.
        exact (through_HsmCreate_from meta w cluster err az HD HZ).
      * left. subst op. unfold resourceAwsCloudHsm2HsmCreate.
        rewrite bind_getData. fold clusterId. cbv zeta.
        rewrite bind_eq, HD. rewrite bind_eq, HZ. split; reflexivity.
    + left. subst op. unfold resourceAwsCloudHsm2HsmCreate.
      rewrite bind_getData. fold clusterId. cbv zeta.
      rewrite bind_eq, HD. split; reflexivity.
    + left. subst op. unfold resourceAwsCloudHsm2HsmCreate.
      rewrite bind_getData. fold clusterId. cbv zeta.
      rewrite bind_eq, HD. split; reflexivity.
  - intros cluster err w0 HD Hcond.
    pose proof (describeCloudHsm2Cluster_world clusterId meta w) as Hw1.
    rewrite HD in Hw1. simpl in Hw1. subst w0.
    destruct Hcond as [Hzone|Hsome].
    + exists (GetString (d w) "availability_zone").
      apply (through_HsmCreate_from meta w cluster err _ HD).
      destruct (len_nonempty _ Hzone) as [-> _]. reflexivity.
    + destruct (zone_scan (GetString (d w) "subnet_id")
                  (Cluster.SubnetMapping cluster)
                  (GetString (d w) "availability_zone")
                  (described clusterId w) Hsome) as (z & Hscan & _).
      destruct (len (GetString (d w) "availability_zone") =? 0) eqn:Hlen.
      * exists z.
        apply (through_HsmCreate_from meta w cluster err _ HD).
        rewrite Hlen. exact Hscan.
      * exists (GetString (d w) "availability_zone").
        apply (through_HsmCreate_from meta w cluster err _ HD).
        rewrite Hlen. reflexivity.
Qed.

End Through.

(** ** The subnet after an HSM create *)

(** What the lookup loop ends on is what it began with or an element of
    the listing with the identifier. *)
Lemma scan_found {A} (key : A -> option string) (id : string)
    (l : list A) (acc : option A) (w w' : World) (c : A) :
  forRange l acc
    (fun acc x =>
       let* k := deref (key x) in
       ret (if String.eqb k id then Some x else acc)) w
  = Returns (Some c) w' ->
  acc = Some c \/ (In c l /\ key c = Some id).
Proof.
  revert acc. induction l as [|x l IH]; intros acc; simpl.
  - intros [= -> _]. left. reflexivity.
  - rewrite bind_eq. destruct (key x) as [k|] eqn:Hk; simpl; [|discriminate].
    intros Hrun. destruct (IH _ Hrun) as [Hacc|[Hin Hc]].
    + destruct (String.eqb_spec k id) as [->|_]; [|left; exact Hacc].
      injection Hacc as <-. right. split; [left; reflexivity | exact Hk].
    + right. split; [right; exact Hin | exact Hc].
Qed.

(** An HSM that [describeHsm] returns is listed, under the identifier
    of the store, by a cluster of the describe answer. *)
Lemma describeHsm_found meta w h err w1 :
  describeHsm meta w = Returns (Some h, err) w1 ->
  exists out c,
    DescribeClusters (cloudhsmv2conn meta) (trace w)
      (describeInput (GetString (d w) "cluster_id")) = (out, None)
    /\ In c (DescribeClustersOutput.Clusters out)
    /\ In h (Cluster.Hsms c)
    /\ Hsm.HsmId h = Some (Id (d w)).
Proof.
  unfold describeHsm. rewrite bind_getData, bind_eq. unfold call.
  fold (describeInput (GetString (d w) "cluster_id")).
  destruct (DescribeClusters _ _ _) as [out [e|]] eqn:HD; [discriminate|].
  fold (described (GetString (d w) "cluster_id") w).
  split_run (described (GetString (d w) "cluster_id") w) oc w2 HC;
    [|discriminate].
  destruct oc as [c|]; [|discriminate].
  split_run w2 oh w3 HH; [|discriminate].
  intros [= -> _ _].
  destruct (scan_found _ _ _ _ _ _ _ HC) as [[=]|[Hc _]].
  destruct (scan_found _ _ _ _ _ _ _ HH) as [[=]|[Hh Hid]].
  exists out, c. split; [reflexivity|]. split; [exact Hc|].
  split; [exact Hh | exact Hid].
Qed.

(** Writing a string pointer under a key and reading the key back: the
    string of the pointer, or what the key held when the store refuses
    the write. *)
Lemma GetString_Set__either dd key p :
  GetString (Set_ dd key (VString <$> p)).1 key = GetString dd key
  \/ GetString (Set_ dd key (VString <$> p)).1 key = aws.StringValue p.
Proof.
  unfold GetString, Set_.
  destruct (ResourceData.Schema dd !! key) as [ty|]; [|left; reflexivity].
  destruct p as [s|]; simpl.
  - destruct (fits ty (VString s)); [|left; reflexivity].
    right. simpl. rewrite lookup_insert_eq. reflexivity.
  - right. rewrite lookup_delete_eq. reflexivity.
Qed.

(** The subnet_id after an HSM read: as it was, or the subnet of the
    HSM that the describe answer of the read lists. *)
Lemma HsmRead_subnet meta w err w' :
  resourceAwsCloudHsm2HsmRead meta w = Returns err w' ->
  trace w' = trace (described (GetString (d w) "cluster_id") w)
  /\ (GetString (d w') "subnet_id" = GetString (d w) "subnet_id"
      \/ exists out c h,
           DescribeClusters (cloudhsmv2conn meta) (trace w)
             (describeInput (GetString (d w) "cluster_id")) = (out, None)
           /\ In c (DescribeClustersOutput.Clusters out)
           /\ In h (Cluster.Hsms c)
           /\ Hsm.HsmId h = Some (Id (d w'))
           /\ GetString (d w') "subnet_id"
              = aws.StringValue (Hsm.SubnetId h)).
Proof.
  unfold resourceAwsCloudHsm2HsmRead.
  pose proof (describeHsm_world meta w) as Hw1.
  split_run w a w1 HD; rewrite HD in Hw1; simpl in Hw1; [|discriminate].
  destruct a as [[h|] e].
  - rewrite !bind_dSet.
    match goal with
    | |- ret None ?final = _ -> _ =>
        assert (Hd : d final
                     = (Set_ (Set_ (Set_ (Set_ (Set_ (Set_ (Set_ (d w1)
                          "cluster_id" (VString <$> Hsm.ClusterId h)).1
                          "subnet_id" (VString <$> Hsm.SubnetId h)).1
                          "availability_zone"
                          (VString <$> Hsm.AvailabilityZone h)).1
                          "ip_address" (VString <$> Hsm.EniIp h)).1
                          "hsm_id" (VString <$> Hsm.HsmId h)).1
                          "hsm_state" (VString <$> Hsm.State h)).1
                          "hsm_eni_id" (VString <$> Hsm.EniId h)).1)
          by reflexivity;
        assert (Ht : trace final = trace w1) by reflexivity;
        generalize dependent final
    end.
    intros final Hd Ht [= _ <-]. rewrite Hd, Ht. clear Hd Ht final.
    split; [rewrite Hw1; reflexivity|].
    rewrite !Set__Id, !GetString_Set__other by discriminate.
    destruct (describeHsm_found meta w h e w1 HD)
      as (out & c & Ho & Hc & Hh & Hid).
    rewrite Hw1. cbn [d described].
    destruct (GetString_Set__either
                (Set_ (d w) "cluster_id" (VString <$> Hsm.ClusterId h)).1
                "subnet_id" (Hsm.SubnetId h)) as [Hsame|Hset].
    + left. rewrite Hsame, GetString_Set__other by discriminate.
      reflexivity.
    + right. exists out, c, h.
      repeat (split; [assumption|]). exact Hset.
  - rewrite bind_dSetId. intros [= _ <-]. cbn [d trace].
    split; [rewrite Hw1; reflexivity|]. left. rewrite Hw1. reflexivity.
Qed.

Section HsmCreateSubnet.
Variable isAWSErr : error -> string -> string -> bool.
Variable backoff : nat -> Z.

(** The subnet_id after an HSM create without an error: as it was, or
    the subnet of the created HSM as the last describe answer of the
    run lists it. *)
Lemma HsmCreate_subnet meta w w' :
  resourceAwsCloudHsm2HsmCreate isAWSErr backoff meta w = Returns None w' ->
  GetString (d w') "subnet_id" = GetString (d w) "subnet_id"
  \/ exists polled out c h,
       trace w' = trace (described (GetString (d w) "cluster_id") polled)
       /\ DescribeClusters (cloudhsmv2conn meta) (trace polled)
            (describeInput (GetString (d w) "cluster_id")) = (out, None)
       /\ In c (DescribeClustersOutput.Clusters out)
       /\ In h (Cluster.Hsms c)
       /\ Hsm.HsmId h = Some (Id (d w'))
       /\ GetString (d w') "subnet_id" = aws.StringValue (Hsm.SubnetId h).
Proof.
  unfold resourceAwsCloudHsm2HsmCreate.
  rewrite bind_getData. cbv zeta.
  split_run w a w1 HD; learn d HD Hd1; [|discriminate].
  destruct a as [[cluster|] err].
  2: { intros [= _ <-]. left. rewrite Hd1. reflexivity. }
  split_run w1 az w2 HZ; learn d HZ Hd2; [|discriminate].
  split_run w2 b w3 HR; learn d HR Hd3; [|discriminate].
  destruct b as [output [e|]]; [discriminate|].
  destruct output as [[[hsm|]]|];
    [rewrite bind_deref_Some; cbn [CreateHsmOutput.Hsm];
     rewrite bind_deref_Some
    |rewrite bind_deref_Some; cbn [CreateHsmOutput.Hsm];
     rewrite bind_deref_None; discriminate
    |rewrite bind_deref_None; discriminate].
  rewrite bind_dSetId, bind_getData.
  match goal with
  | |- context [bind (WaitForState ?c) ?k ?w4] => set (begun := w4)
  end.
  assert (Hb : ResourceData.attrs (d begun) = ResourceData.attrs (d w))
    by (subst begun; simpl; rewrite Hd3, Hd2, Hd1; reflexivity).
  clearbody begun.
  split_run begun c w5 HW; learn d HW Hd5; [|discriminate].
  destruct c as [res [e|]]; [discriminate|].
  assert (Hg : forall key, GetString (d w5) key = GetString (d w) key)
    by (intros key; unfold GetString; rewrite Hd5, Hb; reflexivity).
  intros Hread.
  destruct (HsmRead_subnet meta w5 None w' Hread) as [Ht [Hsame|Hset]].
  - left. rewrite Hsame. apply Hg.
  - right. exists w5. rewrite !Hg in Hset, Ht.
    destruct Hset as (out & c & h & Hset). exists out, c, h.
    split; [exact Ht | exact Hset].
Qed.

End HsmCreateSubnet.

(** * The status refresh functions *)

(** C1 (the code diverges from the claim).  When the describe call
    returns an error, neither refresh function propagates it: the
    describe helper returns a nil entity with the error, the refresh
    function tests the nil entity first, and so it returns the
    placeholder 42, the status "destroyed" and a nil error. *)
Theorem C1_refresh_drops_describe_error (meta : AWSClient) (w : World)
    (out : DescribeClustersOutput.t) (e : error) :
  (DescribeClusters (cloudhsmv2conn meta) (trace w)
     (describeInput (Id (d w))) = (out, Some e) ->
   resourceAwsCloudHsm2ClusterRefreshFunc meta w
   = Returns (iint 42, "destroyed", None) (described (Id (d w)) w))
  /\
  (DescribeClusters (cloudhsmv2conn meta) (trace w)
     (describeInput (GetString (d w) "cluster_id")) = (out, Some e) ->
   resourceAwsCloudHsm2HsmRefreshFunc meta w
   = Returns (iint 42, "destroyed", None)
       (described (GetString (d w) "cluster_id") w)).
Proof.
  split; intros H.
  - unfold resourceAwsCloudHsm2ClusterRefreshFunc.
    rewrite bind_eq. simpl. rewrite bind_eq.
    rewrite (describeCloudHsm2Cluster_error _ _ _ _ _ H). reflexivity.
  - unfold resourceAwsCloudHsm2HsmRefreshFunc.
    rewrite bind_eq, (describeHsm_error _ _ _ _ H). reflexivity.
Qed.

Lemma C1_refresh_drops_describe_error_witness :
  resourceAwsCloudHsm2ClusterRefreshFunc remoteDown
    (fresh (clusterData "cluster-1" ""))
  = Returns (iint 42, "destroyed", None)
      (described "cluster-1" (fresh (clusterData "cluster-1" "")))
  /\
  resourceAwsCloudHsm2HsmRefreshFunc remoteDown
    (fresh (hsmData "hsm-1" "us-east-1a" ""))
  = Returns (iint 42, "destroyed", None)
      (described "cluster-1" (fresh (hsmData "hsm-1" "us-east-1a" ""))).
Proof.
  split.
  - apply (proj1 (C1_refresh_drops_describe_error remoteDown
                    (fresh (clusterData "cluster-1" ""))
                    (DescribeClustersOutput.mk []) serviceDown)).
    reflexivity.
  - apply (proj2 (C1_refresh_drops_describe_error remoteDown
                    (fresh (hsmData "hsm-1" "us-east-1a" ""))
                    (DescribeClustersOutput.mk []) serviceDown)).
    reflexivity.
Defined.

(** C2 (as amended).  When the describe call succeeds and the entity is
    not in the listing, the refresh function returns the placeholder 42
    (not a nil entity), the status "destroyed" and a nil error; when the
    entity is listed with a status, it returns the entity, that status
    and a nil error.  For an HSM, absent means that the cluster is not
    listed or that the cluster does not list the HSM. *)
Theorem C2_refresh_absent_and_present (meta : AWSClient) (w : World)
    (out : DescribeClustersOutput.t) :
  (DescribeClusters (cloudhsmv2conn meta) (trace w)
     (describeInput (Id (d w))) = (out, None) ->
   (listsNone Cluster.ClusterId (Id (d w))
      (DescribeClustersOutput.Clusters out) ->
    resourceAwsCloudHsm2ClusterRefreshFunc meta w
    = Returns (iint 42, "destroyed", None) (described (Id (d w)) w))
   /\
   (forall c state,
      listsLast Cluster.ClusterId (Id (d w))
        (DescribeClustersOutput.Clusters out) c ->
      Cluster.State c = Some state ->
      resourceAwsCloudHsm2ClusterRefreshFunc meta w
      = Returns (icluster c, state, None) (described (Id (d w)) w)))
  /\
  (DescribeClusters (cloudhsmv2conn meta) (trace w)
     (describeInput (GetString (d w) "cluster_id")) = (out, None) ->
   (listsNone Cluster.ClusterId (GetString (d w) "cluster_id")
      (DescribeClustersOutput.Clusters out) ->
    resourceAwsCloudHsm2HsmRefreshFunc meta w
    = Returns (iint 42, "destroyed", None)
        (described (GetString (d w) "cluster_id") w))
   /\
   (forall c,
      listsLast Cluster.ClusterId (GetString (d w) "cluster_id")
        (DescribeClustersOutput.Clusters out) c ->
      (listsNone Hsm.HsmId (Id (d w)) (Cluster.Hsms c) ->
       resourceAwsCloudHsm2HsmRefreshFunc meta w
       = Returns (iint 42, "destroyed", None)
           (described (GetString (d w) "cluster_id") w))
      /\
      (forall h state,
         listsLast Hsm.HsmId (Id (d w)) (Cluster.Hsms c) h ->
         Hsm.State h = Some state ->
         resourceAwsCloudHsm2HsmRefreshFunc meta w
         = Returns (ihsm h, state, None)
             (described (GetString (d w) "cluster_id") w)))).
Proof.
  split; intros H.
  - split.
    + intros Habs. unfold resourceAwsCloudHsm2ClusterRefreshFunc.
      rewrite bind_eq. simpl. rewrite bind_eq.
      rewrite (describeCloudHsm2Cluster_absent _ _ _ _ H Habs). reflexivity.
    + intros c state Hc Hs. unfold resourceAwsCloudHsm2ClusterRefreshFunc.
      rewrite bind_eq. simpl. rewrite bind_eq.
      rewrite (describeCloudHsm2Cluster_present _ _ _ _ _ H Hc).
      rewrite bind_eq, Hs. reflexivity.
  - split.
    + intros Habs. unfold resourceAwsCloudHsm2HsmRefreshFunc.
      rewrite bind_eq, (describeHsm_no_cluster _ _ _ H Habs). reflexivity.
    + intros c Hc. split.
      * intros Habs. unfold resourceAwsCloudHsm2HsmRefreshFunc.
        rewrite bind_eq, (describeHsm_absent _ _ _ _ H Hc Habs). reflexivity.
      * intros h state Hh Hs. unfold resourceAwsCloudHsm2HsmRefreshFunc.
        rewrite bind_eq, (describeHsm_present _ _ _ _ _ H Hc Hh).
        rewrite bind_eq, Hs. reflexivity.
Qed.

(** Witness of C2: the three absent cases and the two present cases on
    the example remotes. *)
Lemma C2_refresh_absent_and_present_witness :
  (resourceAwsCloudHsm2ClusterRefreshFunc remoteEmpty
     (fresh (clusterData "cluster-1" ""))
   = Returns (iint 42, "destroyed", None)
       (described "cluster-1" (fresh (clusterData "cluster-1" ""))))
  /\
  (resourceAwsCloudHsm2ClusterRefreshFunc remoteActive
     (fresh (clusterData "cluster-1" ""))
   = Returns (icluster (exampleCluster "ACTIVE" [exampleHsm "ACTIVE"]),
              "ACTIVE", None)
       (described "cluster-1" (fresh (clusterData "cluster-1" ""))))
  /\
  (resourceAwsCloudHsm2HsmRefreshFunc remoteEmpty
     (fresh (hsmData "hsm-1" "us-east-1a" ""))
   = Returns (iint 42, "destroyed", None)
       (described "cluster-1" (fresh (hsmData "hsm-1" "us-east-1a" ""))))
  /\
  (resourceAwsCloudHsm2HsmRefreshFunc remoteActive
     (fresh (hsmData "hsm-2" "us-east-1a" ""))
   = Returns (iint 42, "destroyed", None)
       (described "cluster-1" (fresh (hsmData "hsm-2" "us-east-1a" ""))))
  /\
  (resourceAwsCloudHsm2HsmRefreshFunc remoteActive
     (fresh (hsmData "hsm-1" "us-east-1a" ""))
   = Returns (ihsm (exampleHsm "ACTIVE"), "ACTIVE", None)
       (described "cluster-1" (fresh (hsmData "hsm-1" "us-east-1a" "")))).
Proof.
  assert (Hlast : forall A (key : A -> option string) id (c : A),
             key c = Some id -> listsLast key id [c] c).
  { intros A key id c Hc. exists [], []. repeat split; auto; constructor. }
  split; [|split; [|split; [|split]]].
  - apply (proj1 (proj1 (C2_refresh_absent_and_present remoteEmpty
                           (fresh (clusterData "cluster-1" ""))
                           (DescribeClustersOutput.mk []))
                   eq_refl)).
    constructor.
  - apply (proj2 (proj1 (C2_refresh_absent_and_present remoteActive
                           (fresh (clusterData "cluster-1" ""))
                           (DescribeClustersOutput.mk
                              [exampleCluster "ACTIVE" [exampleHsm "ACTIVE"]]))
                   eq_refl)).
    + apply Hlast. reflexivity.
    + reflexivity.
  - apply (proj1 (proj2 (C2_refresh_absent_and_present remoteEmpty
                           (fresh (hsmData "hsm-1" "us-east-1a" ""))
                           (DescribeClustersOutput.mk []))
                   eq_refl)).
    constructor.
  - apply (proj1 (proj2 (proj2 (C2_refresh_absent_and_present remoteActive
                           (fresh (hsmData "hsm-2" "us-east-1a" ""))
                           (DescribeClustersOutput.mk
                              [exampleCluster "ACTIVE" [exampleHsm "ACTIVE"]]))
                   eq_refl)
             (exampleCluster "ACTIVE" [exampleHsm "ACTIVE"])
             (Hlast _ _ _ _ eq_refl))).
    repeat constructor; [eexists; reflexivity | discriminate].
  - apply (proj2 (proj2 (proj2 (C2_refresh_absent_and_present remoteActive
                           (fresh (hsmData "hsm-1" "us-east-1a" ""))
                           (DescribeClustersOutput.mk
                              [exampleCluster "ACTIVE" [exampleHsm "ACTIVE"]]))
                   eq_refl)
             (exampleCluster "ACTIVE" [exampleHsm "ACTIVE"])
             (Hlast _ _ _ _ eq_refl))).
    + apply Hlast. reflexivity.
    + reflexivity.
Defined.

(** Counterexample to C2 as stated: on a successful describe with an
    empty listing the cluster refresh function does not return a nil
    entity. *)
Lemma C2_counterexample_entity_not_nil :
  ~ (exists w',
       resourceAwsCloudHsm2ClusterRefreshFunc remoteEmpty
         (fresh (clusterData "cluster-1" ""))
       = Returns (inil, "destroyed", None) w').
Proof. intros [w' H]. vm_compute in H. discriminate H. Qed.

(** * HSM create when the owning cluster is not listed *)

(** C10.  When the describe call for the owning cluster succeeds and the
    cluster is not in the listing, the HSM create returns a nil error
    after that one describe call: no create request is sent and the
    store, identifier included, is as it was. *)
Theorem C10_hsm_create_cluster_absent
    (isAWSErr : error -> string -> string -> bool) (backoff : nat -> Z)
    (meta : AWSClient) (w : World) (out : DescribeClustersOutput.t) :
  DescribeClusters (cloudhsmv2conn meta) (trace w)
    (describeInput (GetString (d w) "cluster_id")) = (out, None) ->
  listsNone Cluster.ClusterId (GetString (d w) "cluster_id")
    (DescribeClustersOutput.Clusters out) ->
  let w' := described (GetString (d w) "cluster_id") w in
  resourceAwsCloudHsm2HsmCreate isAWSErr backoff meta w = Returns None w'
  /\ createHsmRequests w' = createHsmRequests w
  /\ d w' = d w
  /\ Id (d w') = Id (d w).
Proof.
  intros H Habs w'. repeat split.
  unfold resourceAwsCloudHsm2HsmCreate.
  rewrite bind_eq. simpl. rewrite bind_eq.
  rewrite (describeCloudHsm2Cluster_absent _ _ _ _ H Habs). reflexivity.
Qed.

(** Witness of C10: an HSM of a cluster the remote does not list. *)
Lemma C10_hsm_create_cluster_absent_witness :
  resourceAwsCloudHsm2HsmCreate byCode everySecond remoteEmpty
    (fresh (hsmData "" "us-east-1a" ""))
  = Returns None (described "cluster-1" (fresh (hsmData "" "us-east-1a" ""))).
Proof.
  apply (C10_hsm_create_cluster_absent byCode everySecond remoteEmpty
           (fresh (hsmData "" "us-east-1a" ""))
           (DescribeClustersOutput.mk []) eq_refl).
  constructor.
Defined.

(** * The waiter configuration of the delete operations *)

(** C5.  Each delete invokes the waiter at most once, and always when it
    returns a nil error.  The waiter of the cluster delete has pending
    set {DELETE_IN_PROGRESS} and target set {DELETED}, without the
    "destroyed" sentinel; the waiter of the HSM delete has pending set
    {DELETE_IN_PROGRESS} and target set {"destroyed"}, without the
    literal DELETED. *)
Theorem C5_delete_wait_sets
    (isAWSErr : error -> string -> string -> bool) (backoff : nat -> Z)
    (meta : AWSClient) (w : World) :
  (let r := resourceAwsCloudHsm2ClusterDelete isAWSErr backoff meta w in
   let sets := (["DELETE_IN_PROGRESS"], ["DELETED"]) in
   (waitSets (worldOf r) = waitSets w
    \/ waitSets (worldOf r) = sets :: waitSets w)
   /\ (forall w', r = Returns None w' -> waitSets w' = sets :: waitSets w)
   /\ ~ In "destroyed" sets.2)
  /\
  (let r := resourceAwsCloudHsm2HsmDelete isAWSErr backoff meta w in
   let sets := (["DELETE_IN_PROGRESS"], ["destroyed"]) in
   (waitSets (worldOf r) = waitSets w
    \/ waitSets (worldOf r) = sets :: waitSets w)
   /\ (forall w', r = Returns None w' -> waitSets w' = sets :: waitSets w)
   /\ ~ In "DELETED" sets.2).
Proof.
  split; intros r sets.
  - destruct (waits_ClusterDelete isAWSErr backoff meta w) as [[H|H] Hok];
      fold r in H, Hok; unfold waitSets.
    + split; [left; rewrite H; reflexivity|]. split.
      * intros w' Hr. rewrite (Hok w' Hr). reflexivity.
      * simpl. intros [Heq|[]]. discriminate Heq.
    + split; [right; rewrite H; reflexivity|]. split.
      * intros w' Hr. rewrite (Hok w' Hr). reflexivity.
      * simpl. intros [Heq|[]]. discriminate Heq.
  - destruct (waits_HsmDelete isAWSErr backoff meta w) as [[H|H] Hok];
      fold r in H, Hok; unfold waitSets.
    + split; [left; rewrite H; reflexivity|]. split.
      * intros w' Hr. rewrite (Hok w' Hr). reflexivity.
      * simpl. intros [Heq|[]]. discriminate Heq.
    + split; [right; rewrite H; reflexivity|]. split.
      * intros w' Hr. rewrite (Hok w' Hr). reflexivity.
      * simpl. intros [Heq|[]]. discriminate Heq.
Qed.

(** Witness of C5: both deletes succeed on example remotes, and the
    waiter was invoked with the sets of the statement. *)
Lemma C5_delete_wait_sets_witness :
  waitSets (worldOf (resourceAwsCloudHsm2ClusterDelete byCode everySecond
                       remoteDeleted (fresh (clusterData "cluster-1" ""))))
  = [(["DELETE_IN_PROGRESS"], ["DELETED"])]
  /\
  waitSets (worldOf (resourceAwsCloudHsm2HsmDelete byCode everySecond
                       remoteEmpty (fresh (hsmData "hsm-1" "us-east-1a" ""))))
  = [(["DELETE_IN_PROGRESS"], ["destroyed"])].
Proof.
  split.
  - apply (proj1 (proj2 (proj1 (C5_delete_wait_sets byCode everySecond
                                  remoteDeleted
                                  (fresh (clusterData "cluster-1" "")))))
             (worldOf (resourceAwsCloudHsm2ClusterDelete byCode everySecond
                         remoteDeleted (fresh (clusterData "cluster-1" ""))))).
    vm_compute. reflexivity.
  - apply (proj1 (proj2 (proj2 (C5_delete_wait_sets byCode everySecond
                                  remoteEmpty
                                  (fresh (hsmData "hsm-1" "us-east-1a" "")))))
             (worldOf (resourceAwsCloudHsm2HsmDelete byCode everySecond
                         remoteEmpty (fresh (hsmData "hsm-1" "us-east-1a" ""))))).
    vm_compute. reflexivity.
Defined.

(** * The timeout of the delete wait *)

(** C9.  The waiter of each delete operation is invoked with the
    duration of the create-timeout key of the store, and the delete
    does the same (same result, same events) whatever the delete
    timeout of the store is. *)
Theorem C9_delete_wait_uses_create_timeout
    (isAWSErr : error -> string -> string -> bool) (backoff : nat -> Z)
    (meta : AWSClient) (w : World) :
  (let r := resourceAwsCloudHsm2ClusterDelete isAWSErr backoff meta w in
   let t := Timeout_ (d w) TimeoutCreate in
   (waitTimeouts (worldOf r) = waitTimeouts w
    \/ waitTimeouts (worldOf r) = t :: waitTimeouts w)
   /\ (forall w', r = Returns None w' -> waitTimeouts w' = t :: waitTimeouts w))
  /\
  (let r := resourceAwsCloudHsm2HsmDelete isAWSErr backoff meta w in
   let t := Timeout_ (d w) TimeoutCreate in
   (waitTimeouts (worldOf r) = waitTimeouts w
    \/ waitTimeouts (worldOf r) = t :: waitTimeouts w)
   /\ (forall w', r = Returns None w' -> waitTimeouts w' = t :: waitTimeouts w))
  /\
  blindToDeleteTimeout (resourceAwsCloudHsm2ClusterDelete isAWSErr backoff meta)
  /\
  blindToDeleteTimeout (resourceAwsCloudHsm2HsmDelete isAWSErr backoff meta).
Proof.
  split; [|split; [|split]].
  - intros r t.
    destruct (waits_ClusterDelete isAWSErr backoff meta w) as [[H|H] Hok];
      fold r in H, Hok; unfold waitTimeouts.
    + split; [left; rewrite H; reflexivity|].
      intros w' Hr. rewrite (Hok w' Hr). reflexivity.
    + split; [right; rewrite H; reflexivity|].
      intros w' Hr. rewrite (Hok w' Hr). reflexivity.
  - intros r t.
    destruct (waits_HsmDelete isAWSErr backoff meta w) as [[H|H] Hok];
      fold r in H, Hok; unfold waitTimeouts.
    + split; [left; rewrite H; reflexivity|].
      intros w' Hr. rewrite (Hok w' Hr). reflexivity.
    + split; [right; rewrite H; reflexivity|].
      intros w' Hr. rewrite (Hok w' Hr). reflexivity.
  - apply blind_ClusterDelete.
  - apply blind_HsmDelete.
Qed.

(** Witness of C9: with a create timeout of one minute and a delete
    timeout of two hours, both deletes wait with a timeout of one
    minute. *)
Lemma C9_delete_wait_uses_create_timeout_witness :
  waitTimeouts
    (worldOf (resourceAwsCloudHsm2ClusterDelete byCode everySecond
                remoteDeleted
                (fresh (withTimeouts shortCreateLongDelete
                          (clusterData "cluster-1" "")))))
  = [60]
  /\
  waitTimeouts
    (worldOf (resourceAwsCloudHsm2HsmDelete byCode everySecond
                remoteEmpty
                (fresh (withTimeouts shortCreateLongDelete
                          (hsmData "hsm-1" "us-east-1a" "")))))
  = [60].
Proof.
  split.
  - apply (proj2 (proj1 (C9_delete_wait_uses_create_timeout byCode everySecond
                           remoteDeleted
                           (fresh (withTimeouts shortCreateLongDelete
                                     (clusterData "cluster-1" ""))))) _).
    vm_compute. reflexivity.
  - apply (proj2 (proj1 (proj2 (C9_delete_wait_uses_create_timeout byCode
                           everySecond remoteEmpty
                           (fresh (withTimeouts shortCreateLongDelete
                                     (hsmData "hsm-1" "us-east-1a" "")))))) _).
    vm_compute. reflexivity.
Defined.

(** The delete wait gives up after the create timeout: with a create
    timeout of one minute, a delete timeout of two hours and a cluster
    that stays in DELETE_IN_PROGRESS, the delete fails with a timeout
    after two polls, ninety seconds into the wait. *)
Example delete_wait_gives_up_after_create_timeout :
  let r := resourceAwsCloudHsm2ClusterDelete byCode everySecond remoteDeleting
             (fresh (withTimeouts shortCreateLongDelete
                       (clusterData "cluster-1" ""))) in
  (exists w',
     r = Returns
           (Some (Errorf
              ("[WARN] Error waiting for CloudHSMv2 Cluster state to be "
                 ++ quoted "DELETED" ++ ": %s")%string
              (TimeoutError "DELETE_IN_PROGRESS" ["DELETED"]))) w')
  /\ onTrace (fun e => match e with EvSleep z => Some z | _ => None end)
       (worldOf r) = [30; 30; 30].
Proof. split; [eexists|]; vm_compute; reflexivity. Qed.

(** * The waiter configuration and the request of the cluster create *)

(** C4.  The cluster create sends the same create request at every
    attempt, at least once, and invokes the waiter at most once, always
    when it returns a nil error.  Without a backup identifier the
    request carries no SourceBackupId and the waiter has pending set
    {CREATE_IN_PROGRESS, INITIALIZE_IN_PROGRESS} and target set
    {UNINITIALIZED}; with a backup identifier the request carries it as
    SourceBackupId, the pending set is the same and the target set is
    {ACTIVE}. *)
Theorem C4_cluster_create_wait_sets
    (isAWSErr : error -> string -> string -> bool)
    (diffTagsGeneric :
       gmap string string -> gmap string string ->
       gmap string string * gmap string string)
    (backoff : nat -> Z) (meta : AWSClient) (w : World) :
  let r := resourceAwsCloudHsm2ClusterCreate isAWSErr diffTagsGeneric backoff
             meta w in
  let backupId := GetString (d w) "backup_identifier" in
  let request sourceBackupId :=
    CreateClusterInput.mk (Some (GetString (d w) "hsm_type")) sourceBackupId
      (GetStrings (d w) "subnet_ids") in
  let pending := ["CREATE_IN_PROGRESS"; "INITIALIZE_IN_PROGRESS"] in
  (backupId = "" ->
   (exists k, (0 < k)%nat /\
      createClusterRequests (worldOf r)
      = repeat (request None) k ++ createClusterRequests w)
   /\ (waitSets (worldOf r) = waitSets w
       \/ waitSets (worldOf r) = (pending, ["UNINITIALIZED"]) :: waitSets w)
   /\ (forall w', r = Returns None w' ->
       waitSets w' = (pending, ["UNINITIALIZED"]) :: waitSets w))
  /\
  (backupId <> "" ->
   (exists k, (0 < k)%nat /\
      createClusterRequests (worldOf r)
      = repeat (request (Some backupId)) k ++ createClusterRequests w)
   /\ (waitSets (worldOf r) = waitSets w
       \/ waitSets (worldOf r) = (pending, ["ACTIVE"]) :: waitSets w)
   /\ (forall w', r = Returns None w' ->
       waitSets w' = (pending, ["ACTIVE"]) :: waitSets w)).
Proof.
  intros r backupId request pending.
  pose proof (requests_ClusterCreate isAWSErr diffTagsGeneric backoff meta w)
    as Hreq.
  pose proof (waits_ClusterCreate isAWSErr diffTagsGeneric backoff meta w)
    as Hwait.
  cbv zeta in Hreq, Hwait. fold r backupId in Hreq, Hwait.
  split; intros Hb.
  - rewrite Hb in Hreq, Hwait. simpl in Hreq, Hwait.
    destruct Hwait as [Hw Hok]. split; [exact Hreq|]. unfold waitSets. split.
    + destruct Hw as [Hw|Hw]; [left|right]; rewrite Hw; reflexivity.
    + intros w' Hr. rewrite (Hok w' Hr). reflexivity.
  - destruct (len_nonempty backupId Hb) as [Hz Hp].
    rewrite Hz in Hreq. rewrite Hp in Hwait.
    destruct Hwait as [Hw Hok]. split; [exact Hreq|]. unfold waitSets. split.
    + destruct Hw as [Hw|Hw]; [left|right]; rewrite Hw; reflexivity.
    + intros w' Hr. rewrite (Hok w' Hr). reflexivity.
Qed.

(** Witness of C4: a create without a backup identifier and a create
    from the backup "backup-123", both successful. *)
Lemma C4_cluster_create_wait_sets_witness :
  waitSets
    (worldOf (resourceAwsCloudHsm2ClusterCreate byCode replaceAll everySecond
                remoteUninitialized (fresh (clusterData "" ""))))
  = [(["CREATE_IN_PROGRESS"; "INITIALIZE_IN_PROGRESS"], ["UNINITIALIZED"])]
  /\
  waitSets
    (worldOf (resourceAwsCloudHsm2ClusterCreate byCode replaceAll everySecond
                remoteRestored (fresh (clusterData "" "backup-123"))))
  = [(["CREATE_IN_PROGRESS"; "INITIALIZE_IN_PROGRESS"], ["ACTIVE"])].
Proof.
  split.
  - apply (proj2 (proj2 (proj1 (C4_cluster_create_wait_sets byCode replaceAll
                                  everySecond remoteUninitialized
                                  (fresh (clusterData "" "")))
                          eq_refl)) _).
    vm_compute. reflexivity.
  - apply (proj2 (proj2 (proj2 (C4_cluster_create_wait_sets byCode replaceAll
                                  everySecond remoteRestored
                                  (fresh (clusterData "" "backup-123")))
                          ltac:(vm_compute; discriminate))) _).
    vm_compute. reflexivity.
Defined.

(** The two creates of the witness, run: one request each, without and
    with SourceBackupId. *)
Example cluster_create_requests :
  createClusterRequests
    (worldOf (resourceAwsCloudHsm2ClusterCreate byCode replaceAll everySecond
                remoteUninitialized (fresh (clusterData "" ""))))
  = [CreateClusterInput.mk (Some "hsm1.medium") None ["subnet-1"]]
  /\
  createClusterRequests
    (worldOf (resourceAwsCloudHsm2ClusterCreate byCode replaceAll everySecond
                remoteRestored (fresh (clusterData "" "backup-123"))))
  = [CreateClusterInput.mk (Some "hsm1.medium") (Some "backup-123")
       ["subnet-1"]].
Proof. split; vm_compute; reflexivity. Qed.

(** * The retry wrapper of the mutating calls *)

(** C3.  Each of the four closures handed to the retry returns nil when
    its remote call succeeds, and otherwise the error of the call,
    marked retryable exactly when [isAWSErr] classifies it as the
    CloudHSM internal failure.  The retry, for pauses of at least one
    second, returns at once on success and on an error that is not
    retryable, and attempts again on a retryable error while the pause
    fits under the ceiling, returning the last error when it does not;
    this determines its outcome.  The ceiling is 180 seconds in the create and in the delete of both
    resources (the HSM create invokes the retry unless it stops before
    sending any create request).  And the retry of each of the four
    operations is this retry of its own closure, under the ceiling of
    180 seconds and begun where the operation invokes it: an error of
    the retry is returned by the operation as it is, in the world the
    retry ended in, and after a retry without an error the operation
    sends no further mutating request.  (The HSM create reaches its
    retry whenever it finds the owning cluster and the zone is given or
    the subnet mapping holds no nil pointer; it stops without a retry
    and without a mutating request otherwise.) *)
Theorem C3_retry_wrapper
    (isAWSErr : error -> string -> string -> bool)
    (diffTagsGeneric :
       gmap string string -> gmap string string ->
       gmap string string * gmap string string)
    (backoff : nat -> Z) (meta : AWSClient) :
  (forall n, 1 <= backoff n) ->
  let conn := cloudhsmv2conn meta in
  ((forall input output w,
      resourceAwsCloudHsm2ClusterCreate_func isAWSErr conn input output w
      = Returns (Some (CreateCluster conn (trace w) input).1,
                 classified isAWSErr (CreateCluster conn (trace w) input).2)
          (after (EvCreateCluster input) w))
   /\
   (forall output w,
      let input := DeleteClusterInput.mk (Some (Id (d w))) in
      resourceAwsCloudHsm2ClusterDelete_func isAWSErr conn output w
      = Returns (Some (DeleteCluster conn (trace w) input).1,
                 classified isAWSErr (DeleteCluster conn (trace w) input).2)
          (after (EvDeleteCluster input) w))
   /\
   (forall input output w,
      resourceAwsCloudHsm2HsmCreate_func isAWSErr conn input output w
      = Returns (Some (CreateHsm conn (trace w) input).1,
                 classified isAWSErr (CreateHsm conn (trace w) input).2)
          (after (EvCreateHsm input) w))
   /\
   (forall clusterId output w,
      let input := DeleteHsmInput.mk (Some clusterId) (Some (Id (d w))) in
      resourceAwsCloudHsm2HsmDelete_func isAWSErr conn clusterId output w
      = Returns (Some (DeleteHsm conn (trace w) input).1,
                 classified isAWSErr (DeleteHsm conn (trace w) input).2)
          (after (EvDeleteHsm input) w)))
  /\
  (forall S (g : S -> M (S * option RetryError)) timeout s w,
     retried backoff timeout g 0 0 s (after (EvRetry timeout) w)
       (Retry backoff timeout g s w)
     /\ (forall r,
          retried backoff timeout g 0 0 s (after (EvRetry timeout) w) r ->
          r = Retry backoff timeout g s w))
  /\
  (forall w,
     retryCeilings
       (worldOf (resourceAwsCloudHsm2ClusterCreate isAWSErr diffTagsGeneric
                   backoff meta w))
     = 180 :: retryCeilings w
     /\
     retryCeilings
       (worldOf (resourceAwsCloudHsm2ClusterDelete isAWSErr backoff meta w))
     = 180 :: retryCeilings w
     /\
     (let r := resourceAwsCloudHsm2HsmCreate isAWSErr backoff meta w in
      (retryCeilings (worldOf r) = retryCeilings w
       /\ createHsmRequests (worldOf r) = createHsmRequests w)
      \/ retryCeilings (worldOf r) = 180 :: retryCeilings w)
     /\
     retryCeilings
       (worldOf (resourceAwsCloudHsm2HsmDelete isAWSErr backoff meta w))
     = 180 :: retryCeilings w)
  /\
  (forall w,
     (let backupId := GetString (d w) "backup_identifier" in
      let input :=
        CreateClusterInput.mk (Some (GetString (d w) "hsm_type"))
          (if len backupId =? 0 then None else Some backupId)
          (GetStrings (d w) "subnet_ids") in
      exists r,
        retried backoff 180
          (resourceAwsCloudHsm2ClusterCreate_func isAWSErr conn input)
          0 0 None (after (EvRetry 180) w) r
        /\ through r
             (resourceAwsCloudHsm2ClusterCreate isAWSErr diffTagsGeneric
                backoff meta w))
     /\
     (exists r,
        retried backoff 180
          (resourceAwsCloudHsm2ClusterDelete_func isAWSErr conn)
          0 0 None (after (EvRetry 180) w) r
        /\ through r
             (resourceAwsCloudHsm2ClusterDelete isAWSErr backoff meta w))
     /\
     (let op := resourceAwsCloudHsm2HsmCreate isAWSErr backoff meta w in
      let clusterId := GetString (d w) "cluster_id" in
      let ipAddress := GetString (d w) "ip_address" in
      let reached :=
        exists availabilityZone r,
          retried backoff 180
            (resourceAwsCloudHsm2HsmCreate_func isAWSErr conn
               (CreateHsmInput.mk (Some availabilityZone) (Some clusterId)
                  (if len ipAddress =? 0 then None else Some ipAddress)))
            0 0 None (after (EvRetry 180) (described clusterId w)) r
          /\ through r op in
      ((retryCeilings (worldOf op) = retryCeilings w
        /\ mutations (worldOf op) = mutations w)
       \/ reached)
      /\ (forall cluster err w0,
            describeCloudHsm2Cluster clusterId meta w
              = Returns (Some cluster, err) w0 ->
            GetString (d w) "availability_zone" <> ""
            \/ Forall (fun p => is_Some p.2)
                 (Cluster.SubnetMapping cluster) ->
            reached))
     /\
     (exists r,
        retried backoff 180
          (resourceAwsCloudHsm2HsmDelete_func isAWSErr conn
             (GetString (d w) "cluster_id"))
          0 0 None (after (EvRetry 180) w) r
        /\ through r
             (resourceAwsCloudHsm2HsmDelete isAWSErr backoff meta w))).
Proof.
  intros Hb conn. split; [|split; [|split]].
  - split; [|split; [|split]]; intros.
    + apply ClusterCreate_func_eq.
    + apply ClusterDelete_func_eq.
    + apply HsmCreate_func_eq.
    + apply HsmDelete_func_eq.
  - intros S g timeout s w.
    pose proof (Retry_retried backoff timeout g s w Hb) as Hretry.
    split; [exact Hretry|]. intros r Hr.
    exact (retried_unique _ _ _ _ _ _ _ _ _ Hr Hretry).
  - intros w. split; [|split; [|split]].
    + apply ceilings_ClusterCreate.
    + apply ceilings_ClusterDelete.
    + apply ceilings_HsmCreate.
    + apply ceilings_HsmDelete.
  - intros w. split; [|split; [|split]].
    + apply through_ClusterCreate, Hb.
    + apply through_ClusterDelete, Hb.
    + apply through_HsmCreate, Hb.
    + apply through_HsmDelete, Hb.
Qed.

(** Witness of C3: with a pause of one second, the four operations on
    example remotes invoke the retry with the ceiling of 180 seconds;
    the cluster delete, on a remote that refuses the delete call with
    an error that is not the internal failure, goes through the retry
    of its closure; and so does the HSM create with the zone given, on
    a remote that lists the cluster and refuses the create call. *)
Lemma C3_retry_wrapper_witness :
  retryCeilings
    (worldOf (resourceAwsCloudHsm2ClusterCreate byCode replaceAll everySecond
                remoteUninitialized (fresh (clusterData "" ""))))
  = [180]
  /\
  retryCeilings
    (worldOf (resourceAwsCloudHsm2ClusterDelete byCode everySecond
                remoteDeleted (fresh (clusterData "cluster-1" ""))))
  = [180]
  /\
  retryCeilings
    (worldOf (resourceAwsCloudHsm2HsmDelete byCode everySecond
                remoteEmpty (fresh (hsmData "hsm-1" "us-east-1a" ""))))
  = [180]
  /\
  (exists r,
     retried everySecond 180
       (resourceAwsCloudHsm2ClusterDelete_func byCode
          (cloudhsmv2conn remoteRefusing))
       0 0 None (after (EvRetry 180) (fresh (clusterData "cluster-1" ""))) r
     /\ through r
          (resourceAwsCloudHsm2ClusterDelete byCode everySecond
             remoteRefusing (fresh (clusterData "cluster-1" ""))))
  /\
  (let w := fresh (hsmData "" "us-east-1a" "") in
   let op :=
     resourceAwsCloudHsm2HsmCreate byCode everySecond remoteRefusingHsm w in
   let clusterId := GetString (d w) "cluster_id" in
   let ipAddress := GetString (d w) "ip_address" in
   exists availabilityZone r,
     retried everySecond 180
       (resourceAwsCloudHsm2HsmCreate_func byCode
          (cloudhsmv2conn remoteRefusingHsm)
          (CreateHsmInput.mk (Some availabilityZone) (Some clusterId)
             (if len ipAddress =? 0 then None else Some ipAddress)))
       0 0 None (after (EvRetry 180) (described clusterId w)) r
     /\ through r op).
Proof.
  assert (Hb : forall n, 1 <= everySecond n) by (intros n; reflexivity).
  split; [|split; [|split; [|split]]].
  - exact (proj1 (proj1 (proj2 (proj2 (C3_retry_wrapper byCode replaceAll
                                         everySecond remoteUninitialized
                                         Hb)))
                    (fresh (clusterData "" "")))).
  - exact (proj1 (proj2 (proj1 (proj2 (proj2 (C3_retry_wrapper byCode
                                         replaceAll everySecond
                                         remoteDeleted Hb)))
                           (fresh (clusterData "cluster-1" ""))))).
  - exact (proj2 (proj2 (proj2 (proj1 (proj2 (proj2 (C3_retry_wrapper byCode
                                         replaceAll everySecond remoteEmpty
                                         Hb)))
                           (fresh (hsmData "hsm-1" "us-east-1a" "")))))).
  - exact (proj1 (proj2 (proj2 (proj2 (proj2 (C3_retry_wrapper byCode
                                         replaceAll everySecond
                                         remoteRefusing Hb)))
                           (fresh (clusterData "cluster-1" ""))))).
  - intros w op clusterId ipAddress.
    destruct (C3_retry_wrapper byCode replaceAll everySecond
                remoteRefusingHsm Hb) as (_ & _ & _ & Hthrough).
    destruct (Hthrough w) as (_ & _ & [_ Hreached] & _).
    apply (Hreached (exampleCluster "ACTIVE" []) None
             (described clusterId w)).
    + vm_compute. reflexivity.
    + left. vm_compute. discriminate.
Defined.

(** The retry at work in the cluster delete, with a pause of one
    second.  Two internal failures and then success: three requests, two
    pauses in the retry, and the delete goes on to the wait.  Another
    error: one request, no pause, the error returned as it is and no
    wait.  Internal failures for ever: 181 requests, the pauses adding
    up to the 180 seconds of the ceiling, the last error returned. *)
Example cluster_delete_retries :
  let delete meta :=
    resourceAwsCloudHsm2ClusterDelete byCode everySecond meta
      (fresh (clusterData "cluster-1" "")) in
  (exists w', delete remoteFlaky = Returns None w'
     /\ List.length (onTrace selDeleteCluster w') = 3%nat
     /\ onTrace selSleep w' = [30; 1; 1])
  /\
  (exists w', delete remoteRefusing = Returns (Some serviceDown) w'
     /\ List.length (onTrace selDeleteCluster w') = 1%nat
     /\ onTrace selSleep w' = []
     /\ waits w' = [])
  /\
  (exists w', delete remoteFailing = Returns (Some internalFailure) w'
     /\ List.length (onTrace selDeleteCluster w') = 181%nat
     /\ fold_right Z.add 0 (onTrace selSleep w') = 180
     /\ waits w' = []).
Proof.
  split; [|split]; eexists; (split; [vm_compute; reflexivity|]);
    repeat split; vm_compute; reflexivity.
Qed.

(** * The identifier during a failing wait *)

(** C8.  When the retried create call of the cluster create succeeds
    and returns a cluster, the wait of the create begins in a world
    whose store already records the identifier of that cluster; when
    that wait fails, the create returns an error (wrapping the error of
    the wait) and the store still records the identifier.  The same
    holds for the HSM create, once the owning cluster is found and the
    availability zone resolved. *)
Theorem C8_identifier_recorded_before_wait
    (isAWSErr : error -> string -> string -> bool)
    (diffTagsGeneric :
       gmap string string -> gmap string string ->
       gmap string string * gmap string string)
    (backoff : nat -> Z) (meta : AWSClient) (w : World) :
  let conn := cloudhsmv2conn meta in
  (forall output cluster w1,
     let backupId := GetString (d w) "backup_identifier" in
     let input :=
       CreateClusterInput.mk (Some (GetString (d w) "hsm_type"))
         (if len backupId =? 0 then None else Some backupId)
         (GetStrings (d w) "subnet_ids") in
     Retry backoff 180
       (resourceAwsCloudHsm2ClusterCreate_func isAWSErr conn input) None w
       = Returns (Some output, None) w1 ->
     CreateClusterOutput.Cluster output = Some cluster ->
     let id := aws.StringValue (Cluster.ClusterId cluster) in
     let begun := {| d := SetId id (d w1); trace := trace w1 |} in
     let conf :=
       {| Pending := ["CREATE_IN_PROGRESS"; "INITIALIZE_IN_PROGRESS"];
          Target := [if 0 <? len backupId then "ACTIVE" else "UNINITIALIZED"];
          Refresh := resourceAwsCloudHsm2ClusterRefreshFunc meta;
          Timeout := Timeout_ (d w1) TimeoutCreate;
          MinTimeout := 30;
          Delay := 30 |} in
     Id (d begun) = id /\
     forall res errWait w2,
       WaitForState conf begun = Returns (res, Some errWait) w2 ->
       Id (d w2) = id /\
       exists format,
         resourceAwsCloudHsm2ClusterCreate isAWSErr diffTagsGeneric backoff
           meta w
         = Returns (Some (Errorf format errWait)) w2)
  /\
  (forall cluster err w0 availabilityZone w0' output hsm w1,
     let clusterId := GetString (d w) "cluster_id" in
     let ipAddress := GetString (d w) "ip_address" in
     describeCloudHsm2Cluster clusterId meta w
       = Returns (Some cluster, err) w0 ->
     (if len (GetString (d w) "availability_zone") =? 0 then
        forRange (Cluster.SubnetMapping cluster)
          (GetString (d w) "availability_zone")
          (fun availabilityZone '(az, sn) =>
             let* s := deref sn in
             ret (if String.eqb s (GetString (d w) "subnet_id") then az
                  else availabilityZone))
      else ret (GetString (d w) "availability_zone")) w0
       = Returns availabilityZone w0' ->
     let input :=
       CreateHsmInput.mk (Some availabilityZone) (Some clusterId)
         (if len ipAddress =? 0 then None else Some ipAddress) in
     Retry backoff 180
       (resourceAwsCloudHsm2HsmCreate_func isAWSErr conn input) None w0'
       = Returns (Some output, None) w1 ->
     CreateHsmOutput.Hsm output = Some hsm ->
     let id := aws.StringValue (Hsm.HsmId hsm) in
     let begun := {| d := SetId id (d w1); trace := trace w1 |} in
     let conf :=
       {| Pending := ["CREATE_IN_PROGRESS"; "destroyed"];
          Target := ["ACTIVE"];
          Refresh := resourceAwsCloudHsm2HsmRefreshFunc meta;
          Timeout := Timeout_ (d w1) TimeoutCreate;
          MinTimeout := 30;
          Delay := 30 |} in
     Id (d begun) = id /\
     forall res errWait w2,
       WaitForState conf begun = Returns (res, Some errWait) w2 ->
       Id (d w2) = id /\
       exists format,
         resourceAwsCloudHsm2HsmCreate isAWSErr backoff meta w
         = Returns (Some (Errorf format errWait)) w2).
Proof.
  intros conn. split.
  - intros output cluster w1 backupId input HR Hc id begun conf.
    split; [reflexivity|].
    intros res errWait w2 HW. split.
    + learn d HW Hd. rewrite Hd. reflexivity.
    + unfold resourceAwsCloudHsm2ClusterCreate.
      rewrite bind_getData. fold backupId. cbv zeta.
      match goal with
      | |- context [Retry backoff 180
                      (resourceAwsCloudHsm2ClusterCreate_func _ _ ?i) None] =>
          replace i with input by (subst input; destruct (len backupId =? 0);
                                   reflexivity)
      end.
      fold conn. rewrite bind_eq, HR.
      rewrite bind_deref_Some, Hc, bind_deref_Some, bind_dSetId, bind_getData.
      fold id. fold begun. rewrite bind_eq.
      simpl d. rewrite Timeout__SetId.
      change (WaitForState _ begun) with (WaitForState conf begun).
      rewrite HW.
      destruct (len backupId =? 0); eexists; reflexivity.
  - intros cluster err w0 availabilityZone w0' output hsm w1 clusterId
      ipAddress HD HZ input HR Hh id begun conf.
    split; [reflexivity|].
    intros res errWait w2 HW. split.
    + learn d HW Hd. rewrite Hd. reflexivity.
    + unfold resourceAwsCloudHsm2HsmCreate.
      rewrite bind_getData. fold clusterId ipAddress. cbv zeta.
      rewrite bind_eq, HD. rewrite bind_eq, HZ.
      match goal with
      | |- context [Retry backoff 180
                      (resourceAwsCloudHsm2HsmCreate_func _ _ ?i) None] =>
          replace i with input by (subst input; destruct (len ipAddress =? 0);
                                   reflexivity)
      end.
      fold conn. rewrite bind_eq, HR.
      rewrite bind_deref_Some, Hh, bind_deref_Some, bind_dSetId, bind_getData.
      fold id. fold begun. rewrite bind_eq.
      simpl d. rewrite Timeout__SetId.
      change (WaitForState _ begun) with (WaitForState conf begun).
      rewrite HW. eexists; reflexivity.
Qed.

(** Witness of C8: a cluster create whose wait meets a failing describe
    (reported as "destroyed", which the create does not expect), and an
    HSM create whose wait meets an HSM in an unexpected status.  Both
    return an error, and the store keeps the identifier. *)
Lemma C8_identifier_recorded_before_wait_witness :
  (exists e w2,
     resourceAwsCloudHsm2ClusterCreate byCode replaceAll everySecond
       remoteDown (fresh (clusterData "" ""))
     = Returns (Some e) w2 /\ Id (d w2) = "cluster-1")
  /\
  (exists e w2,
     resourceAwsCloudHsm2HsmCreate byCode everySecond remoteDegraded
       (fresh (hsmData "" "us-east-1a" ""))
     = Returns (Some e) w2 /\ Id (d w2) = "hsm-1").
Proof.
  split.
  - destruct (proj1 (C8_identifier_recorded_before_wait byCode replaceAll
                       everySecond remoteDown (fresh (clusterData "" "")))
                (CreateClusterOutput.mk
                   (Some (exampleCluster "CREATE_IN_PROGRESS" [])))
                (exampleCluster "CREATE_IN_PROGRESS" [])
                _ eq_refl eq_refl) as [_ H].
    edestruct H as [Hid [format Hfmt]]; [vm_compute; reflexivity|].
    eexists _, _. split; [exact Hfmt | exact Hid].
  - destruct (proj2 (C8_identifier_recorded_before_wait byCode replaceAll
                       everySecond remoteDegraded
                       (fresh (hsmData "" "us-east-1a" "")))
                (exampleCluster "ACTIVE" [exampleHsm "DEGRADED"]) None
                _ "us-east-1a" _
                (CreateHsmOutput.mk (Some (exampleHsm "CREATE_IN_PROGRESS")))
                (exampleHsm "CREATE_IN_PROGRESS") _
                eq_refl eq_refl eq_refl eq_refl) as [_ H].
    edestruct H as [Hid [format Hfmt]]; [vm_compute; reflexivity|].
    eexists _, _. split; [exact Hfmt | exact Hid].
Defined.

(** The two creates of the witness, run. *)
Example create_wait_failure_keeps_identifier :
  (let r := resourceAwsCloudHsm2ClusterCreate byCode replaceAll everySecond
              remoteDown (fresh (clusterData "" "")) in
   r = Returns
         (Some (Errorf
            ("[WARN] Error waiting for CloudHSMv2 Cluster state to be "
               ++ quoted "UNINITIALIZED" ++ ": %s")%string
            (UnexpectedStateError "destroyed" ["UNINITIALIZED"])))
         (worldOf r)
   /\ Id (d (worldOf r)) = "cluster-1")
  /\
  (let r := resourceAwsCloudHsm2HsmCreate byCode everySecond remoteDegraded
              (fresh (hsmData "" "us-east-1a" "")) in
   r = Returns
         (Some (Errorf
            ("[WARN] Error waiting for CloudHSMv2 HSM state to be "
               ++ quoted "ACTIVE" ++ ": %s")%string
            (UnexpectedStateError "DEGRADED" ["ACTIVE"])))
         (worldOf r)
   /\ Id (d (worldOf r)) = "hsm-1").
Proof.
  split; (split; [vm_compute; reflexivity|]); vm_compute; reflexivity.
Qed.

(** * The placement of the HSM create *)

(** C7 (as amended).  Let the HSM create find its owning cluster.  When
    no availability zone is given, and the subnet mapping of the
    cluster (holding no nil pointer) maps exactly one zone to the given
    subnet_id, every create request carries that zone.  When an
    availability zone is given, every create request carries it
    unchanged, whatever the mapping; no subnet is looked up: the
    request has no subnet, and unless the create returns a nil error
    the attributes of the store, subnet_id included, are as they
    were.  When the create returns a nil error, subnet_id is as it was,
    or it is the subnet that the last describe answer of the run
    reports for the HSM, of the recorded identifier, that a cluster of
    the answer lists: what the final read copies when it finds the
    HSM. *)
Theorem C7_hsm_create_zone_resolution
    (isAWSErr : error -> string -> string -> bool) (backoff : nat -> Z)
    (meta : AWSClient) (w : World) (cluster : Cluster.t)
    (err : option error) (w0 : World) :
  let r := resourceAwsCloudHsm2HsmCreate isAWSErr backoff meta w in
  let clusterId := GetString (d w) "cluster_id" in
  let ipAddress := GetString (d w) "ip_address" in
  let subnetId := GetString (d w) "subnet_id" in
  let request availabilityZone :=
    CreateHsmInput.mk (Some availabilityZone) (Some clusterId)
      (if len ipAddress =? 0 then None else Some ipAddress) in
  describeCloudHsm2Cluster clusterId meta w = Returns (Some cluster, err) w0 ->
  (GetString (d w) "availability_zone" = "" ->
   forall az,
     Forall (fun p => is_Some p.2) (Cluster.SubnetMapping cluster) ->
     In (az, Some subnetId) (Cluster.SubnetMapping cluster) ->
     (forall az', In (az', Some subnetId) (Cluster.SubnetMapping cluster) ->
                  az' = az) ->
     exists k, (0 < k)%nat /\
       createHsmRequests (worldOf r)
       = repeat (request az) k ++ createHsmRequests w)
  /\
  (GetString (d w) "availability_zone" <> "" ->
   (exists k, (0 < k)%nat /\
      createHsmRequests (worldOf r)
      = repeat (request (GetString (d w) "availability_zone")) k
        ++ createHsmRequests w)
   /\ ((forall w', r <> Returns None w') ->
       ResourceData.attrs (d (worldOf r)) = ResourceData.attrs (d w))
   /\ (forall w', r = Returns None w' ->
       GetString (d w') "subnet_id" = subnetId
       \/ exists polled out c h,
            trace w' = trace (described clusterId polled)
            /\ DescribeClusters (cloudhsmv2conn meta) (trace polled)
                 (describeInput clusterId) = (out, None)
            /\ In c (DescribeClustersOutput.Clusters out)
            /\ In h (Cluster.Hsms c)
            /\ Hsm.HsmId h = Some (Id (d w'))
            /\ GetString (d w') "subnet_id"
               = aws.StringValue (Hsm.SubnetId h))).
Proof.
  intros r clusterId ipAddress subnetId request HD. split.
  - intros Hz az Hsome Hin Huniq.
    destruct (zone_scan subnetId (Cluster.SubnetMapping cluster)
                (GetString (d w) "availability_zone") w0 Hsome)
      as (z & Hscan & [Hz'|[_ Hnone]]); [|destruct (Hnone az Hin)].
    apply Huniq in Hz'. subst z.
    apply (requests_HsmCreate isAWSErr backoff meta w cluster err w0 az w0 HD).
    rewrite Hz in Hscan |- *. exact Hscan.
  - intros Hz. destruct (len_nonempty _ Hz) as [Hlen _]. split.
    + apply (requests_HsmCreate isAWSErr backoff meta w cluster err w0 _ w0 HD).
      rewrite Hlen. reflexivity.
    + split.
      * intros Hfail.
        destruct (HsmCreate_attrs isAWSErr backoff meta w)
          as [[w' Hok]|Hsame]; [destruct (Hfail w' Hok) | exact Hsame].
      * intros w' Hok.
        exact (HsmCreate_subnet isAWSErr backoff meta w w' Hok).
Qed.

(** Witness of C7: only subnet-1 given, resolved to the zone us-east-1a
    of the example cluster; only the zone us-east-1a given, sent as it
    is, the store untouched when the remote refuses the create call;
    and only the zone given on a remote that lists the HSM: the create
    returns a nil error and subnet_id is as it was or what the remote
    reports. *)
Lemma C7_hsm_create_zone_resolution_witness :
  (exists k, (0 < k)%nat /\
     createHsmRequests
       (worldOf (resourceAwsCloudHsm2HsmCreate byCode everySecond
                   remoteActive (fresh (hsmData "" "" "subnet-1"))))
     = repeat (CreateHsmInput.mk (Some "us-east-1a") (Some "cluster-1") None)
         k)
  /\
  (exists k, (0 < k)%nat /\
     createHsmRequests
       (worldOf (resourceAwsCloudHsm2HsmCreate byCode everySecond
                   remoteRefusingHsm (fresh (hsmData "" "us-east-1a" ""))))
     = repeat (CreateHsmInput.mk (Some "us-east-1a") (Some "cluster-1") None)
         k)
  /\
  ResourceData.attrs
    (d (worldOf (resourceAwsCloudHsm2HsmCreate byCode everySecond
                   remoteRefusingHsm (fresh (hsmData "" "us-east-1a" "")))))
  = ResourceData.attrs (hsmData "" "us-east-1a" "")
  /\
  (let w' :=
     worldOf (resourceAwsCloudHsm2HsmCreate byCode everySecond remoteActive
                (fresh (hsmData "" "us-east-1a" ""))) in
   GetString (d w') "subnet_id" = ""
   \/ exists polled out c h,
        trace w' = trace (described "cluster-1" polled)
        /\ DescribeClusters (cloudhsmv2conn remoteActive) (trace polled)
             (describeInput "cluster-1") = (out, None)
        /\ In c (DescribeClustersOutput.Clusters out)
        /\ In h (Cluster.Hsms c)
        /\ Hsm.HsmId h = Some (Id (d w'))
        /\ GetString (d w') "subnet_id" = aws.StringValue (Hsm.SubnetId h)).
Proof.
  split; [|split; [|split]].
  - destruct (proj1 (C7_hsm_create_zone_resolution byCode everySecond
                       remoteActive (fresh (hsmData "" "" "subnet-1"))
                       (exampleCluster "ACTIVE" [exampleHsm "ACTIVE"]) None _
                       eq_refl)
                eq_refl "us-east-1a")
      as (k & Hk & Heq).
    + repeat constructor. eexists. reflexivity.
    + left. reflexivity.
    + intros az' [Heq|[]]. injection Heq as <-. reflexivity.
    + exists k. split; [exact Hk|]. rewrite Heq. apply app_nil_r.
  - destruct (proj1 (proj2 (C7_hsm_create_zone_resolution byCode everySecond
                       remoteRefusingHsm (fresh (hsmData "" "us-east-1a" ""))
                       (exampleCluster "ACTIVE" []) None _ eq_refl)
                ltac:(vm_compute; discriminate))) as (k & Hk & Heq).
    exists k. split; [exact Hk|]. rewrite Heq. apply app_nil_r.
  - apply (proj1 (proj2 (proj2 (C7_hsm_create_zone_resolution byCode
                       everySecond remoteRefusingHsm
                       (fresh (hsmData "" "us-east-1a" ""))
                       (exampleCluster "ACTIVE" []) None _ eq_refl)
                ltac:(vm_compute; discriminate)))).
    intros w' Hr. vm_compute in Hr. discriminate Hr.
  - intros w'.
    apply (proj2 (proj2 (proj2 (C7_hsm_create_zone_resolution byCode
                       everySecond remoteActive
                       (fresh (hsmData "" "us-east-1a" ""))
                       (exampleCluster "ACTIVE" [exampleHsm "ACTIVE"]) None _
                       eq_refl)
                ltac:(vm_compute; discriminate))) w').
    subst w'. vm_compute. reflexivity.
Defined.

(** Counterexample to C7 as stated: an HSM create with only the zone
    us-east-1a given, in a cluster whose mapping sends that zone to
    subnet-1, and whose create call the remote refuses.  The create
    sends one request, which has no subnet, returns the error of the
    call, and leaves subnet_id empty: the subnet was not looked up. *)
Lemma C7_counterexample_subnet_not_looked_up :
  let r := resourceAwsCloudHsm2HsmCreate byCode everySecond remoteRefusingHsm
             (fresh (hsmData "" "us-east-1a" "")) in
  In ("us-east-1a", Some "subnet-1")
    (Cluster.SubnetMapping (exampleCluster "ACTIVE" []))
  /\ createHsmRequests (worldOf r)
     = [CreateHsmInput.mk (Some "us-east-1a") (Some "cluster-1") None]
  /\ r = Returns (Some serviceDown) (worldOf r)
  /\ GetString (d (worldOf r)) "subnet_id" <> "subnet-1".
Proof.
  split; [left; reflexivity|].
  split; [vm_compute; reflexivity|].
  split; [vm_compute; reflexivity|].
  vm_compute. discriminate.
Qed.

(** An HSM create with only the zone given that returns a nil error
    and leaves subnet_id empty: the last poll of the wait lists the HSM
    as ACTIVE, the final read does not find it any more, clears the
    identifier and returns the nil error of its describe call. *)
Example create_returns_nil_without_subnet :
  let r := resourceAwsCloudHsm2HsmCreate byCode everySecond remoteVanishing
             (fresh (hsmData "" "us-east-1a" "")) in
  r = Returns None (worldOf r)
  /\ createHsmRequests (worldOf r)
     = [CreateHsmInput.mk (Some "us-east-1a") (Some "cluster-1") None]
  /\ Id (d (worldOf r)) = ""
  /\ GetString (d (worldOf r)) "subnet_id" = "".
Proof.
  split; [vm_compute; reflexivity|].
  split; [vm_compute; reflexivity|].
  split; [vm_compute; reflexivity|].
  vm_compute. reflexivity.
Qed.

(** * Create, then read: the certificate projection *)

(** C6 (the code diverges from the claim).  The cluster read writes the
    certificate projection under the key "cluster_certificate", which
    the schema of the cluster resource does not have, so the write is
    refused and its error dropped.  Whatever the remote answers, the
    read, the update and the create (which ends with the read) leave
    the computed attribute "cluster_certificates" as it was: unset for
    a cluster that has just been created. *)
Theorem C6_read_never_sets_cluster_certificates
    (isAWSErr : error -> string -> string -> bool)
    (diffTagsGeneric :
       gmap string string -> gmap string string ->
       gmap string string * gmap string string)
    (backoff : nat -> Z) (meta : AWSClient) (w : World) :
  ResourceData.Schema (d w) = resourceAwsCloudHsm2Cluster_Schema ->
  let unchanged_in r :=
    ResourceData.attrs (d (worldOf r)) !! "cluster_certificates"
    = ResourceData.attrs (d w) !! "cluster_certificates" in
  unchanged_in (resourceAwsCloudHsm2ClusterRead meta w)
  /\ unchanged_in (resourceAwsCloudHsm2ClusterUpdate diffTagsGeneric meta w)
  /\ unchanged_in
       (resourceAwsCloudHsm2ClusterCreate isAWSErr diffTagsGeneric backoff
          meta w).
Proof.
  intros Hs unchanged_in. subst unchanged_in. cbv beta.
  split; [|split]; apply (certificatesObserved_cluster w _ Hs).
  - apply certificates_ClusterRead.
  - apply certificates_ClusterUpdate.
  - apply certificates_ClusterCreate.
Qed.

(** Witness of C6 (the failing input): a cluster created from the
    backup "backup-123" on a remote that lists it as ACTIVE, restored
    from that backup, with its certificates.  The create succeeds and the attribute is unset. *)
Lemma C6_read_never_sets_cluster_certificates_witness :
  ResourceData.attrs
    (d (worldOf (resourceAwsCloudHsm2ClusterCreate byCode replaceAll
                   everySecond remoteRestored
                   (fresh (clusterData "" "backup-123")))))
    !! "cluster_certificates"
  = None.
Proof.
  exact (proj2 (proj2 (C6_read_never_sets_cluster_certificates byCode
                         replaceAll everySecond remoteRestored
                         (fresh (clusterData "" "backup-123")) eq_refl))).
Defined.

(** The create of the witness, run: it returns a nil error at the
    target status ACTIVE, the remote cluster has a certificate to
    project, the declared fields and the other computed fields are in
    the store, and the certificate set is empty. *)
Example create_then_read_leaves_certificates_empty :
  let r := resourceAwsCloudHsm2ClusterCreate byCode replaceAll everySecond
             remoteRestored (fresh (clusterData "" "backup-123")) in
  let dd := d (worldOf r) in
  r = Returns None (worldOf r)
  /\ (forall c,
        In c (DescribeClustersOutput.Clusters
                (DescribeClusters (cloudhsmv2conn remoteRestored) [] 
                   (describeInput "cluster-1")).1) ->
        readCloudHsm2ClusterCertificates c
        = [[("cluster_certificate", "cluster-cert")]])
  /\ (Id dd, GetString dd "cluster_id", GetString dd "cluster_state",
      GetString dd "vpc_id", GetString dd "security_group_id",
      GetString dd "hsm_type", GetStrings dd "subnet_ids")
     = ("cluster-1", "cluster-1", "ACTIVE", "vpc-1", "sg-1", "hsm1.medium",
        ["subnet-1"])
  /\ GetString dd "backup_identifier" = "backup-123"
  /\ GetMaps dd "cluster_certificates" = [].
Proof.
  intros r dd.
  split; [vm_compute; reflexivity|].
  split; [intros c [<-|[]]; vm_compute; reflexivity|].
  split; [vm_compute; reflexivity|].
  split; vm_compute; reflexivity.
Qed.

(** * Further properties of the resource code *)

(** ** The describe helper and the refresh functions *)

(** The lookup loop dereferences every identifier of the listing: a nil
    identifier anywhere in the listing is a panic. *)
Lemma scan_nil {A} (key : A -> option string) (id : string)
    (l : list A) (acc : option A) (w : World) :
  Exists (fun x => key x = None) l ->
  forRange l acc
    (fun acc x =>
       let* k := deref (key x) in
       ret (if String.eqb k id then Some x else acc)) w
  = Panics w.
Proof.
  intros Hl. revert acc.
  induction l as [|x l IH]; intros acc; [inversion Hl|].
  simpl. rewrite bind_eq. destruct (key x) as [k|] eqn:Hk; simpl.
  - apply IH. inversion Hl as [? ? Hx|]; [congruence | assumption].
  - reflexivity.
Qed.

(** X1.  [describeCloudHsm2Cluster] sends one describe request for the
    identifier, capped at one result, and never touches the store.  An
    error of the call is returned with a nil cluster; otherwise the
    result is the last listed cluster with that identifier (not the
    first), or nil when there is none; a nil identifier in the listing
    is a panic. *)
Theorem describeCloudHsm2Cluster_cases (clusterId : string)
    (meta : AWSClient) (w : World) (out : DescribeClustersOutput.t)
    (oerr : option error) :
  DescribeClusters (cloudhsmv2conn meta) (trace w)
    (DescribeClustersInput.mk [("clusterIds", [clusterId])] (Some 1))
    = (out, oerr) ->
  let r := describeCloudHsm2Cluster clusterId meta w in
  let listing := DescribeClustersOutput.Clusters out in
  worldOf r = described clusterId w
  /\ (forall e, oerr = Some e -> r = Returns (None, Some e) (worldOf r))
  /\ (oerr = None ->
      (listsNone Cluster.ClusterId clusterId listing ->
       r = Returns (None, None) (worldOf r))
      /\ (forall c, listsLast Cluster.ClusterId clusterId listing c ->
          r = Returns (Some c, None) (worldOf r))
      /\ (Exists (fun c => Cluster.ClusterId c = None) listing ->
          r = Panics (worldOf r))).
Proof.
  intros H r listing. subst r listing.
  pose proof (describeCloudHsm2Cluster_world clusterId meta w) as Hw.
  split; [exact Hw|]. rewrite Hw. split.
  - intros e ->. eapply describeCloudHsm2Cluster_error. exact H.
  - intros ->. split; [|split].
    + intros Habs. eapply describeCloudHsm2Cluster_absent; eauto.
    + intros c Hc. eapply describeCloudHsm2Cluster_present; eauto.
    + intros Hnil. unfold describeCloudHsm2Cluster. rewrite bind_eq.
      unfold call. rewrite H.
      rewrite bind_eq, (scan_nil Cluster.ClusterId); [reflexivity|exact Hnil].
Qed.

(** Witness of X1: a failing describe, an empty listing, a listing with
    the cluster twice (the second is returned) and a listing with a nil
    identifier. *)
Lemma describeCloudHsm2Cluster_cases_witness :
  describeCloudHsm2Cluster "cluster-1" remoteDown (fresh (clusterData "" ""))
  = Returns (None, Some serviceDown)
      (described "cluster-1" (fresh (clusterData "" "")))
  /\
  describeCloudHsm2Cluster "cluster-1" remoteEmpty (fresh (clusterData "" ""))
  = Returns (None, None) (described "cluster-1" (fresh (clusterData "" "")))
  /\
  describeCloudHsm2Cluster "cluster-1" remoteTwice (fresh (clusterData "" ""))
  = Returns (Some (exampleCluster "ACTIVE" []), None)
      (described "cluster-1" (fresh (clusterData "" "")))
  /\
  describeCloudHsm2Cluster "cluster-1" remoteNameless
    (fresh (clusterData "" ""))
  = Panics (described "cluster-1" (fresh (clusterData "" ""))).
Proof.
  set (w := fresh (clusterData "" "")).
  split; [|split; [|split]].
  - destruct (describeCloudHsm2Cluster_cases "cluster-1" remoteDown w
                _ _ eq_refl) as (Hw & He & _).
    rewrite (He serviceDown eq_refl), Hw. reflexivity.
  - destruct (describeCloudHsm2Cluster_cases "cluster-1" remoteEmpty w
                _ _ eq_refl) as (Hw & _ & Hok).
    destruct (Hok eq_refl) as (Habs & _).
    rewrite Habs, Hw; [reflexivity | constructor].
  - destruct (describeCloudHsm2Cluster_cases "cluster-1" remoteTwice w
                _ _ eq_refl) as (Hw & _ & Hok).
    destruct (Hok eq_refl) as (_ & Hpres & _).
    rewrite (Hpres (exampleCluster "ACTIVE" [])), Hw; [reflexivity|].
    exists [exampleCluster "CREATE_IN_PROGRESS" []], [].
    split; [reflexivity|]. split; [|split; [reflexivity | constructor]].
    repeat constructor. eexists. reflexivity.
  - destruct (describeCloudHsm2Cluster_cases "cluster-1" remoteNameless w
                _ _ eq_refl) as (Hw & _ & Hok).
    destruct (Hok eq_refl) as (_ & _ & Hnil).
    rewrite Hnil, Hw; [reflexivity|].
    apply Exists_cons_tl, Exists_cons_hd. reflexivity.
Defined.

(** X2.  A call of either refresh function sends exactly one describe
    request (for the identifier of the store, or for its cluster_id in
    the case of an HSM) and changes nothing else: the store is as it
    was, whether the call returns or panics. *)
Theorem refresh_is_one_describe (meta : AWSClient) (w : World) :
  worldOf (resourceAwsCloudHsm2ClusterRefreshFunc meta w)
  = described (Id (d w)) w
  /\
  worldOf (resourceAwsCloudHsm2HsmRefreshFunc meta w)
  = described (GetString (d w) "cluster_id") w.
Proof.
  split.
  - unfold resourceAwsCloudHsm2ClusterRefreshFunc.
    rewrite bind_getData, bind_eq.
    pose proof (describeCloudHsm2Cluster_world (Id (d w)) meta w) as Hw.
    destruct (describeCloudHsm2Cluster _ _ _) as [a w1|w1]; simpl in Hw;
      subst w1; [|reflexivity].
    still. reflexivity.
  - unfold resourceAwsCloudHsm2HsmRefreshFunc. rewrite bind_eq.
    pose proof (describeHsm_world meta w) as Hw.
    destruct (describeHsm _ _) as [a w1|w1]; simpl in Hw;
      subst w1; [|reflexivity].
    still. reflexivity.
Qed.

(** ** Validation and the certificate projection *)

(** X3.  [validateCloudHsm2HsmType] accepts exactly the value
    "hsm1.medium": it never warns, it reports no error for that value,
    and exactly one error for any other value, whatever the key. *)
Theorem validateCloudHsm2HsmType_accepts_one_value (v k : string) :
  (validateCloudHsm2HsmType v k).1 = []
  /\ ((validateCloudHsm2HsmType v k).2 = [] <-> v = "hsm1.medium")
  /\ (v <> "hsm1.medium" ->
      List.length (validateCloudHsm2HsmType v k).2 = 1%nat).
Proof.
  unfold validateCloudHsm2HsmType.
  destruct (String.eqb_spec v "hsm1.medium") as [->|Hne]; simpl.
  - split; [reflexivity|]. split; [tauto | congruence].
  - split; [reflexivity|]. split; [|reflexivity].
    split; [discriminate | congruence].
Qed.

(** X4.  [readCloudHsm2ClusterCertificates] always returns exactly one
    map.  The map has the four keys of the signing request bundle
    exactly when the cluster has certificates and is UNINITIALIZED, the
    one key "cluster_certificate" exactly when it has certificates and
    is ACTIVE, and no key otherwise; so the request bundle and the
    cluster certificate are never projected together.  Each key holds
    the certificate of the cluster of that name, and a certificate that
    is nil is projected as the empty string. *)
Theorem readCloudHsm2ClusterCertificates_exclusive (cluster : Cluster.t) :
  exists certs,
    readCloudHsm2ClusterCertificates cluster = [certs]
    /\ (certs.*1 = ["cluster_csr"; "aws_hardware_certificate";
                    "hsm_certificate"; "manufacturer_hardware_certificate"]
        <-> (is_Some (Cluster.Certificates cluster)
             /\ Cluster.State cluster = Some "UNINITIALIZED"))
    /\ (certs.*1 = ["cluster_certificate"]
        <-> (is_Some (Cluster.Certificates cluster)
             /\ Cluster.State cluster = Some "ACTIVE"))
    /\ (certs = []
        \/ certs.*1 = ["cluster_csr"; "aws_hardware_certificate";
                       "hsm_certificate"; "manufacturer_hardware_certificate"]
        \/ certs.*1 = ["cluster_certificate"])
    /\ (forall c, Cluster.Certificates cluster = Some c ->
        Cluster.State cluster = Some "ACTIVE" ->
        certs = [("cluster_certificate",
                  aws.StringValue (Certificates.ClusterCertificate c))])
    /\ (forall c, Cluster.Certificates cluster = Some c ->
        Cluster.State cluster = Some "UNINITIALIZED" ->
        certs = [("cluster_csr",
                  aws.StringValue (Certificates.ClusterCsr c));
                 ("aws_hardware_certificate",
                  aws.StringValue (Certificates.AwsHardwareCertificate c));
                 ("hsm_certificate",
                  aws.StringValue (Certificates.HsmCertificate c));
                 ("manufacturer_hardware_certificate",
                  aws.StringValue
                    (Certificates.ManufacturerHardwareCertificate c))]).
Proof.
  unfold readCloudHsm2ClusterCertificates.
  destruct (Cluster.Certificates cluster) as [c|].
  - destruct (Cluster.State cluster) as [st|]; simpl.
    + destruct (String.eqb_spec st "UNINITIALIZED") as [->|Hu].
      { eexists. split; [reflexivity|]. simpl.
        split; [split; [intros _; split; [eexists|]; reflexivity
                       | reflexivity]|].
        split; [split; [discriminate | intros [_ [=]]]|].
        split; [right; left; reflexivity|].
        split; [intros ? _ [=] | intros c' [= <-] _; reflexivity]. }
      destruct (String.eqb_spec st "ACTIVE") as [->|Ha].
      { eexists. split; [reflexivity|]. simpl.
        split; [split; [discriminate | intros [_ [=]]]|].
        split; [split; [intros _; split; [eexists|]; reflexivity
                       | reflexivity]|].
        split; [right; right; reflexivity|].
        split; [intros c' [= <-] _; reflexivity | intros ? _ [=]]. }
      eexists. split; [reflexivity|]. simpl.
      split; [split; [discriminate | intros [_ [= ->]]; congruence]|].
      split; [split; [discriminate | intros [_ [= ->]]; congruence]|].
      split; [left; reflexivity|].
      split; intros ? _ [= ->]; congruence.
    + eexists. split; [reflexivity|]. simpl.
      split; [split; [discriminate | intros [_ [=]]]|].
      split; [split; [discriminate | intros [_ [=]]]|].
      split; [left; reflexivity|].
      split; intros ? _ [=].
  - eexists. split; [reflexivity|]. simpl.
    split; [split; [discriminate | intros [[? [=]] _]]|].
    split; [split; [discriminate | intros [[? [=]] _]]|].
    split; [left; reflexivity|].
    split; intros ? [=].
Qed.

(** ** The read operations *)

(** X5.  When the describe call of a read fails, or succeeds without
    listing the entity, the read clears the identifier of the store,
    leaves every attribute as it was, and returns the error of the
    describe call (nil when the entity is merely not listed).  For an
    HSM, not listed means that the cluster is not listed or does not
    list the HSM. *)
Theorem read_clears_identifier_when_not_found (meta : AWSClient)
    (w : World) (out : DescribeClustersOutput.t) (oerr : option error) :
  (DescribeClusters (cloudhsmv2conn meta) (trace w)
     (describeInput (Id (d w))) = (out, oerr) ->
   is_Some oerr
   \/ listsNone Cluster.ClusterId (Id (d w))
        (DescribeClustersOutput.Clusters out) ->
   resourceAwsCloudHsm2ClusterRead meta w
   = Returns oerr
       {| d := SetId "" (d w); trace := trace (described (Id (d w)) w) |})
  /\
  (let clusterId := GetString (d w) "cluster_id" in
   DescribeClusters (cloudhsmv2conn meta) (trace w) (describeInput clusterId)
     = (out, oerr) ->
   is_Some oerr
   \/ listsNone Cluster.ClusterId clusterId
        (DescribeClustersOutput.Clusters out)
   \/ (exists c,
         listsLast Cluster.ClusterId clusterId
           (DescribeClustersOutput.Clusters out) c
         /\ listsNone Hsm.HsmId (Id (d w)) (Cluster.Hsms c)) ->
   resourceAwsCloudHsm2HsmRead meta w
   = Returns oerr
       {| d := SetId "" (d w); trace := trace (described clusterId w) |}).
Proof.
  split.
  - intros H Hnot. unfold resourceAwsCloudHsm2ClusterRead.
    rewrite bind_getData, bind_eq.
    destruct oerr as [e|].
    + rewrite (describeCloudHsm2Cluster_error _ _ _ _ _ H). reflexivity.
    + destruct Hnot as [[? [=]]|Habs].
      rewrite (describeCloudHsm2Cluster_absent _ _ _ _ H Habs). reflexivity.
  - intros clusterId H Hnot. unfold resourceAwsCloudHsm2HsmRead.
    rewrite bind_eq. destruct oerr as [e|].
    + rewrite (describeHsm_error _ _ _ _ H). reflexivity.
    + destruct Hnot as [[? [=]]|[Habs|(c & Hc & Habs)]].
      * rewrite (describeHsm_no_cluster _ _ _ H Habs). reflexivity.
      * rewrite (describeHsm_absent _ _ _ _ H Hc Habs). reflexivity.
Qed.

(** Witness of X5: a cluster read against a failing describe, and an
    HSM read in a cluster that lists another HSM. *)
Lemma read_clears_identifier_when_not_found_witness :
  resourceAwsCloudHsm2ClusterRead remoteDown
    (fresh (clusterData "cluster-1" ""))
  = Returns (Some serviceDown)
      {| d := clusterData "" "";
         trace := [EvDescribeClusters (describeInput "cluster-1")] |}
  /\
  resourceAwsCloudHsm2HsmRead remoteActive
    (fresh (hsmData "hsm-2" "us-east-1a" ""))
  = Returns None
      {| d := hsmData "" "us-east-1a" "";
         trace := [EvDescribeClusters (describeInput "cluster-1")] |}.
Proof.
  split.
  - apply (proj1 (read_clears_identifier_when_not_found remoteDown
                    (fresh (clusterData "cluster-1" ""))
                    (DescribeClustersOutput.mk []) (Some serviceDown))
             eq_refl).
    left. eexists. reflexivity.
  - apply (proj2 (read_clears_identifier_when_not_found remoteActive
                    (fresh (hsmData "hsm-2" "us-east-1a" ""))
                    (DescribeClustersOutput.mk
                       [exampleCluster "ACTIVE" [exampleHsm "ACTIVE"]]) None)
             eq_refl).
    right. right. exists (exampleCluster "ACTIVE" [exampleHsm "ACTIVE"]).
    split.
    + exists [], []. repeat split; constructor.
    + repeat constructor; [eexists; reflexivity | discriminate].
Defined.

(** The loop of the cluster read over the subnet mapping. *)
Lemma subnet_scan (mapping : list (string * option string))
    (subnets acc : list string) (w : World) :
  mapping.*2 = Some <$> subnets ->
  forRange mapping acc
    (fun subnets '(_, sn) => let* s := deref sn in ret (subnets ++ [s])) w
  = Returns (acc ++ subnets) w.
Proof.
  revert subnets acc.
  induction mapping as [|[az sn] mapping IH]; intros subnets acc Hm;
    destruct subnets as [|s subnets]; try discriminate Hm; simpl.
  - rewrite app_nil_r. reflexivity.
  - injection Hm as -> Hm. rewrite bind_eq. simpl.
    rewrite (IH subnets (acc ++ [s]) Hm), <- app_assoc. reflexivity.
Qed.

(** X6.  When the describe call lists the cluster and its subnet
    mapping holds no nil pointer, the cluster read returns a nil error,
    keeps the identifier, and copies the described cluster into the
    store: cluster_id, cluster_state, security_group_id, vpc_id,
    backup_identifier and hsm_type hold the described strings (the
    empty string for a nil pointer), subnet_ids the subnets of the
    mapping in its order; every other attribute is left as it was. *)
Theorem cluster_read_copies_described_cluster (meta : AWSClient)
    (w : World) (out : DescribeClustersOutput.t) (c : Cluster.t)
    (subnets : list string) :
  ResourceData.Schema (d w) = resourceAwsCloudHsm2Cluster_Schema ->
  DescribeClusters (cloudhsmv2conn meta) (trace w)
    (describeInput (Id (d w))) = (out, None) ->
  listsLast Cluster.ClusterId (Id (d w))
    (DescribeClustersOutput.Clusters out) c ->
  (Cluster.SubnetMapping c).*2 = Some <$> subnets ->
  exists w',
    resourceAwsCloudHsm2ClusterRead meta w = Returns None w'
    /\ trace w' = trace (described (Id (d w)) w)
    /\ Id (d w') = Id (d w)
    /\ GetString (d w') "cluster_id" = aws.StringValue (Cluster.ClusterId c)
    /\ GetString (d w') "cluster_state" = aws.StringValue (Cluster.State c)
    /\ GetString (d w') "security_group_id"
       = aws.StringValue (Cluster.SecurityGroup c)
    /\ GetString (d w') "vpc_id" = aws.StringValue (Cluster.VpcId c)
    /\ GetString (d w') "backup_identifier"
       = aws.StringValue (Cluster.SourceBackupId c)
    /\ GetString (d w') "hsm_type" = aws.StringValue (Cluster.HsmType c)
    /\ GetStrings (d w') "subnet_ids" = subnets
    /\ (forall key,
          ~ In key ["cluster_id"; "cluster_state"; "security_group_id";
                    "vpc_id"; "backup_identifier"; "hsm_type"; "subnet_ids"] ->
          ResourceData.attrs (d w') !! key = ResourceData.attrs (d w) !! key).
Proof.
  intros Hs H Hc Hm. unfold resourceAwsCloudHsm2ClusterRead.
  rewrite bind_getData, bind_eq.
  rewrite (describeCloudHsm2Cluster_present _ _ _ _ _ H Hc).
  rewrite !bind_dSet. cbn [d trace described].
  rewrite bind_eq, (subnet_scan _ subnets [] _ Hm). cbn [app].
  rewrite bind_dSet. cbn [d trace].
  rewrite (Set__refused _ "cluster_certificate")
    by (rewrite !Set__Schema, Hs; reflexivity).
  match goal with
  | |- context [Set_ ?dd "subnet_ids" ?v] =>
      destruct (Set__same dd "subnet_ids" TypeSet (VStrings subnets))
        as [Herr Hget];
      [rewrite !Set__Schema, Hs; reflexivity | reflexivity |]
  end.
  rewrite Herr. eexists. split; [reflexivity|]. cbn [d trace].
  split; [reflexivity|].
  split; [rewrite !Set__Id; reflexivity|].
  assert (Hstr : forall dd key,
             ResourceData.Schema dd = resourceAwsCloudHsm2Cluster_Schema ->
             In key ["cluster_id"; "cluster_state"; "security_group_id";
                     "vpc_id"; "backup_identifier"; "hsm_type"] ->
             ResourceData.Schema dd !! key = Some TypeString).
  { intros dd key -> Hin. simpl in Hin.
    repeat (destruct Hin as [<-|Hin]; [reflexivity|]). destruct Hin. }
  repeat split.
  1-6: repeat (rewrite GetString_Set__other by discriminate);
       apply GetString_Set__same, Hstr;
       [rewrite ?Set__Schema; exact Hs | simpl; tauto].
  - unfold GetStrings. rewrite Hget. reflexivity.
  - intros key Hkey. simpl in Hkey.
    repeat (rewrite Set__other; [|intros <-; tauto]). reflexivity.
Qed.

(** Witness of X6: the read of the example cluster restored from a
    backup. *)
Lemma cluster_read_copies_described_cluster_witness :
  exists w',
    resourceAwsCloudHsm2ClusterRead remoteRestored
      (fresh (clusterData "cluster-1" "")) = Returns None w'
    /\ GetString (d w') "cluster_state" = "ACTIVE"
    /\ GetString (d w') "backup_identifier" = "backup-123"
    /\ GetStrings (d w') "subnet_ids" = ["subnet-1"].
Proof.
  destruct (cluster_read_copies_described_cluster remoteRestored
              (fresh (clusterData "cluster-1" ""))
              (DescribeClusters (cloudhsmv2conn remoteRestored) []
                 (describeInput "cluster-1")).1
              (Cluster.mk (Some exampleCertificates) (Some "cluster-1")
                 (Some "hsm1.medium") [] (Some "sg-1") (Some "backup-123")
                 (Some "ACTIVE") [("us-east-1a", Some "subnet-1")]
                 (Some "vpc-1"))
              ["subnet-1"] eq_refl eq_refl)
    as (w' & Hr & _ & _ & _ & Hst & _ & _ & Hb & _ & Hsn & _).
  - exists [], []. repeat split; constructor.
  - reflexivity.
  - exists w'. repeat split; assumption.
Defined.

(** X7.  When the describe call lists the cluster and the cluster lists
    the HSM, the HSM read returns a nil error, keeps the identifier and
    copies the described HSM into the store: cluster_id, subnet_id,
    availability_zone, ip_address (the address of the network
    interface), hsm_id, hsm_state and hsm_eni_id hold the described
    strings (the empty string for a nil pointer); every other attribute
    is left as it was. *)
Theorem hsm_read_copies_described_hsm (meta : AWSClient) (w : World)
    (out : DescribeClustersOutput.t) (c : Cluster.t) (h : Hsm.t) :
  ResourceData.Schema (d w) = resourceAwsCloudHsm2Hsm_Schema ->
  DescribeClusters (cloudhsmv2conn meta) (trace w)
    (describeInput (GetString (d w) "cluster_id")) = (out, None) ->
  listsLast Cluster.ClusterId (GetString (d w) "cluster_id")
    (DescribeClustersOutput.Clusters out) c ->
  listsLast Hsm.HsmId (Id (d w)) (Cluster.Hsms c) h ->
  exists w',
    resourceAwsCloudHsm2HsmRead meta w = Returns None w'
    /\ trace w' = trace (described (GetString (d w) "cluster_id") w)
    /\ Id (d w') = Id (d w)
    /\ GetString (d w') "cluster_id" = aws.StringValue (Hsm.ClusterId h)
    /\ GetString (d w') "subnet_id" = aws.StringValue (Hsm.SubnetId h)
    /\ GetString (d w') "availability_zone"
       = aws.StringValue (Hsm.AvailabilityZone h)
    /\ GetString (d w') "ip_address" = aws.StringValue (Hsm.EniIp h)
    /\ GetString (d w') "hsm_id" = aws.StringValue (Hsm.HsmId h)
    /\ GetString (d w') "hsm_state" = aws.StringValue (Hsm.State h)
    /\ GetString (d w') "hsm_eni_id" = aws.StringValue (Hsm.EniId h)
    /\ (forall key,
          ~ In key ["cluster_id"; "subnet_id"; "availability_zone";
                    "ip_address"; "hsm_id"; "hsm_state"; "hsm_eni_id"] ->
          ResourceData.attrs (d w') !! key = ResourceData.attrs (d w) !! key).
Proof.
  intros Hs H Hc Hh. unfold resourceAwsCloudHsm2HsmRead.
  rewrite bind_eq, (describeHsm_present _ _ _ _ _ H Hc Hh).
  rewrite !bind_dSet. cbn [d trace described].
  eexists. split; [reflexivity|]. cbn [d trace].
  split; [reflexivity|].
  split; [rewrite !Set__Id; reflexivity|].
  assert (Hstr : forall dd key,
             ResourceData.Schema dd = resourceAwsCloudHsm2Hsm_Schema ->
             In key ["cluster_id"; "subnet_id"; "availability_zone";
                     "ip_address"; "hsm_id"; "hsm_state"; "hsm_eni_id"] ->
             ResourceData.Schema dd !! key = Some TypeString).
  { intros dd key -> Hin. simpl in Hin.
    repeat (destruct Hin as [<-|Hin]; [reflexivity|]). destruct Hin. }
  repeat split.
  1-7: repeat (rewrite GetString_Set__other by discriminate);
       apply GetString_Set__same, Hstr;
       [rewrite ?Set__Schema; exact Hs | simpl; tauto].
  intros key Hkey. simpl in Hkey.
  repeat (rewrite Set__other; [|intros <-; tauto]). reflexivity.
Qed.

(** Witness of X7: the read of the example HSM. *)
Lemma hsm_read_copies_described_hsm_witness :
  exists w',
    resourceAwsCloudHsm2HsmRead remoteActive
      (fresh (hsmData "hsm-1" "" "")) = Returns None w'
    /\ GetString (d w') "subnet_id" = "subnet-1"
    /\ GetString (d w') "availability_zone" = "us-east-1a"
    /\ GetString (d w') "ip_address" = "10.0.0.7"
    /\ GetString (d w') "hsm_state" = "ACTIVE".
Proof.
  destruct (hsm_read_copies_described_hsm remoteActive
              (fresh (hsmData "hsm-1" "" ""))
              (DescribeClustersOutput.mk
                 [exampleCluster "ACTIVE" [exampleHsm "ACTIVE"]])
              (exampleCluster "ACTIVE" [exampleHsm "ACTIVE"])
              (exampleHsm "ACTIVE") eq_refl eq_refl)
    as (w' & Hr & _ & _ & _ & Hsn & Haz & Hip & _ & Hst & _).
  - exists [], []. repeat split; constructor.
  - exists [], []. repeat split; constructor.
  - exists w'. repeat split; assumption.
Defined.

(** ** Import *)

(** X8.  The import of a cluster copies the identifier of the store
    into the attribute cluster_id, and the import of an HSM into
    hsm_id; it touches nothing else, talks to nobody, and returns the
    store as its one result with a nil error. *)
Theorem import_copies_identifier (w : World) :
  (ResourceData.Schema (d w) !! "cluster_id" = Some TypeString ->
   exists dd',
     resourceAwsCloudHsm2ClusterImport w
     = Returns ([dd'], None) {| d := dd'; trace := trace w |}
     /\ GetString dd' "cluster_id" = Id (d w)
     /\ Id dd' = Id (d w)
     /\ (forall key, key <> "cluster_id" ->
         ResourceData.attrs dd' !! key = ResourceData.attrs (d w) !! key))
  /\
  (ResourceData.Schema (d w) !! "hsm_id" = Some TypeString ->
   exists dd',
     resourceAwsCloudHsm2HsmImport w
     = Returns ([dd'], None) {| d := dd'; trace := trace w |}
     /\ GetString dd' "hsm_id" = Id (d w)
     /\ Id dd' = Id (d w)
     /\ (forall key, key <> "hsm_id" ->
         ResourceData.attrs dd' !! key = ResourceData.attrs (d w) !! key)).
Proof.
  split; intros Hs.
  - unfold resourceAwsCloudHsm2ClusterImport.
    rewrite bind_getData, bind_dSet, bind_getData. cbn [d trace].
    eexists. split; [reflexivity|]. split; [|split].
    + apply (GetString_Set__same (d w) "cluster_id" (Some (Id (d w)))), Hs.
    + apply Set__Id.
    + intros key Hkey. apply Set__other. congruence.
  - unfold resourceAwsCloudHsm2HsmImport.
    rewrite bind_getData, bind_dSet, bind_getData. cbn [d trace].
    eexists. split; [reflexivity|]. split; [|split].
    + apply (GetString_Set__same (d w) "hsm_id" (Some (Id (d w)))), Hs.
    + apply Set__Id.
    + intros key Hkey. apply Set__other. congruence.
Qed.

(** Witness of X8: the imports of cluster-1 and of hsm-1. *)
Lemma import_copies_identifier_witness :
  (exists dd',
     resourceAwsCloudHsm2ClusterImport (fresh (clusterData "cluster-1" ""))
     = Returns ([dd'], None) (fresh dd')
     /\ GetString dd' "cluster_id" = "cluster-1")
  /\
  (exists dd',
     resourceAwsCloudHsm2HsmImport (fresh (hsmData "hsm-1" "" ""))
     = Returns ([dd'], None) (fresh dd')
     /\ GetString dd' "hsm_id" = "hsm-1").
Proof.
  split.
  - destruct (proj1 (import_copies_identifier
                       (fresh (clusterData "cluster-1" ""))) eq_refl)
      as (dd' & Hr & Hg & _).
    exists dd'. split; [exact Hr | exact Hg].
  - destruct (proj2 (import_copies_identifier
                       (fresh (hsmData "hsm-1" "" ""))) eq_refl)
      as (dd' & Hr & Hg & _).
    exists dd'. split; [exact Hr | exact Hg].
Defined.

(** ** Tags *)

Section Tags.
Variable diffTagsGeneric :
  gmap string string -> gmap string string ->
  gmap string string * gmap string string.

(** X9.  When the tags of the configuration are those of the prior
    state, [setTagsAwsCloudHsm2Cluster] makes no call, leaves the world
    as it is and returns a nil error, whatever the tag differ says; the
    cluster update is then just the cluster read. *)
Theorem setTags_without_change_is_silent (meta : AWSClient) (w : World) :
  HasChange (d w) "tags" = false ->
  setTagsAwsCloudHsm2Cluster diffTagsGeneric (cloudhsmv2conn meta) w
  = Returns None w
  /\ resourceAwsCloudHsm2ClusterUpdate diffTagsGeneric meta w
     = resourceAwsCloudHsm2ClusterRead meta w.
Proof.
  intros H.
  assert (Hs : setTagsAwsCloudHsm2Cluster diffTagsGeneric
                 (cloudhsmv2conn meta) w = Returns None w).
  { unfold setTagsAwsCloudHsm2Cluster. rewrite bind_getData, H.
    reflexivity. }
  split; [exact Hs|].
  unfold resourceAwsCloudHsm2ClusterUpdate. rewrite bind_eq, Hs. reflexivity.
Qed.

Lemma size_positive (m : gmap string string) :
  m <> ∅ -> (0 <? Z.of_nat (size m)) = true.
Proof.
  intros Hm. apply Z.ltb_lt.
  assert (size m <> 0%nat) by (intros H0; apply map_size_empty_iff in H0;
                               contradiction).
  lia.
Qed.

(** X10.  Tags are removed before tags are added, and a failing removal
    stops the synchronisation: when the tags changed, the differ asks
    to remove some tags and the untag call fails, the error of the call
    is returned after that one call; no tag call is made, whatever the
    differ asks to create, and the cluster update returns the error
    without reading. *)
Theorem setTags_untag_failure_stops (meta : AWSClient) (w : World)
    (create remove : gmap string string) (e : error) :
  HasChange (d w) "tags" = true ->
  diffTagsGeneric (GetChange (d w) "tags").1 (GetChange (d w) "tags").2
    = (create, remove) ->
  remove <> ∅ ->
  let input :=
    UntagResourceInput.mk (Some (Id (d w))) (map_to_list remove).*1 in
  UntagResource (cloudhsmv2conn meta) (trace w) input = Some e ->
  setTagsAwsCloudHsm2Cluster diffTagsGeneric (cloudhsmv2conn meta) w
  = Returns (Some e) (after (EvUntagResource input) w)
  /\ resourceAwsCloudHsm2ClusterUpdate diffTagsGeneric meta w
     = Returns (Some e) (after (EvUntagResource input) w)
  /\ tagRequests (after (EvUntagResource input) w) = tagRequests w.
Proof.
  intros Hc Hd Hr input Hu.
  assert (Hs : setTagsAwsCloudHsm2Cluster diffTagsGeneric
                 (cloudhsmv2conn meta) w
               = Returns (Some e) (after (EvUntagResource input) w)).
  { unfold setTagsAwsCloudHsm2Cluster. rewrite bind_getData, Hc.
    destruct (GetChange (d w) "tags") as [oraw nraw]. simpl in Hd.
    rewrite Hd, (size_positive remove Hr), bind_eq.
    unfold call, aws.String. cbv zeta. fold input. rewrite Hu.
    reflexivity. }
  split; [exact Hs|]. split; [|reflexivity].
  unfold resourceAwsCloudHsm2ClusterUpdate. rewrite bind_eq, Hs. reflexivity.
Qed.

End Tags.

(** Witness of X10: the tag "old" is to be replaced by the tag "new",
    and the remote refuses the untag call. *)
Lemma setTags_untag_failure_stops_witness :
  let w := fresh (taggedClusterData "cluster-1" {[ "old" := "1" ]}
                    {[ "new" := "2" ]}) in
  resourceAwsCloudHsm2ClusterUpdate replaceAll remoteNoUntag w
  = Returns (Some serviceDown)
      (after (EvUntagResource
                (UntagResourceInput.mk (Some "cluster-1") ["old"])) w).
Proof.
  intros w.
  destruct (setTags_untag_failure_stops replaceAll remoteNoUntag w
              {[ "new" := "2" ]} {[ "old" := "1" ]} serviceDown)
    as (_ & Hu & _).
  - vm_compute. reflexivity.
  - reflexivity.
  - intros H. apply (f_equal (fun m => m !! "old")) in H.
    vm_compute in H. discriminate H.
  - reflexivity.
  - rewrite Hu. vm_compute. reflexivity.
Defined.

(** Witness of X9: a store whose configured tags are those of the prior
    state. *)
Lemma setTags_without_change_is_silent_witness :
  let w := fresh (taggedClusterData "cluster-1" {[ "env" := "prod" ]}
                    {[ "env" := "prod" ]}) in
  setTagsAwsCloudHsm2Cluster replaceAll (cloudhsmv2conn remoteActive) w
  = Returns None w.
Proof.
  intros w.
  apply (setTags_without_change_is_silent replaceAll remoteActive w).
  vm_compute. reflexivity.
Defined.

(** The tag list of the one tag request: every tag takes its key from
    the one loop variable, which holds the last key when the request is
    built. *)
Lemma aliased_tags (create : gmap string string) :
  let k := List.last (map_to_list create).*1 "" in
  let tagList :=
    (fun kv : string * string => Tag.mk (Some k) (Some kv.2))
      <$> map_to_list create in
  Tag.Value <$> tagList = Some <$> (map_to_list create).*2
  /\ (forall t, In t tagList -> Tag.Key t = Some k)
  /\ ((2 <= size create)%nat ->
      exists k', is_Some (create !! k') /\ k' <> k).
Proof.
  intros k tagList. split; [|split].
  - subst tagList. rewrite <- !list_fmap_compose. reflexivity.
  - intros t Ht. apply list_elem_of_In, list_elem_of_fmap in Ht.
    destruct Ht as (kv & -> & _). reflexivity.
  - intros Hsize. rewrite <- length_map_to_list in Hsize.
    pose proof (NoDup_fst_map_to_list create) as Hnd.
    assert (Hin : forall kv, kv ∈ map_to_list create ->
                             is_Some (create !! kv.1)).
    { intros [k0 v0] Hkv. apply elem_of_map_to_list in Hkv. eauto. }
    destruct (map_to_list create) as [|kv1 [|kv2 l]]; simpl in Hsize;
      try lia.
    simpl in Hnd. apply NoDup_cons in Hnd as [Hne _].
    destruct (decide (kv1.1 = k)) as [Heq|Hk].
    + exists kv2.1. split; [apply Hin; set_solver|].
      intros Heq2. apply Hne. rewrite Heq, <- Heq2. left.
    + exists kv1.1. split; [apply Hin; set_solver | exact Hk].
Qed.

Lemma call_eq {I O} (ev : I -> Event) (f : list Event -> I -> O) i w :
  call ev f i w = Returns (f (trace w) i) (after (ev i) w).
Proof. reflexivity. Qed.

Section TagKeys.
Variable diffTagsGeneric :
  gmap string string -> gmap string string ->
  gmap string string * gmap string string.

(** X11.  [setTagsAwsCloudHsm2Cluster] sends at most one tag request.
    The request names the cluster of the store and carries one tag per
    tag to create, with the values of the tags to create; but every tag
    of the request has the same key, because each takes the address of
    the one loop variable.  So when two or more tags are to be created,
    some key to create is not in the request.  The request is sent
    whenever nothing is to be removed and something is to be
    created. *)
Theorem setTags_request_repeats_one_key (meta : AWSClient) (w : World)
    (create remove : gmap string string) :
  HasChange (d w) "tags" = true ->
  diffTagsGeneric (GetChange (d w) "tags").1 (GetChange (d w) "tags").2
    = (create, remove) ->
  let r :=
    setTagsAwsCloudHsm2Cluster diffTagsGeneric (cloudhsmv2conn meta) w in
  let sent :=
    exists request,
      tagRequests (worldOf r) = request :: tagRequests w
      /\ TagResourceInput.ResourceId request = Some (Id (d w))
      /\ Tag.Value <$> TagResourceInput.TagList request
         = Some <$> (map_to_list create).*2
      /\ (forall t1 t2,
            In t1 (TagResourceInput.TagList request) ->
            In t2 (TagResourceInput.TagList request) ->
            Tag.Key t1 = Tag.Key t2)
      /\ ((2 <= size create)%nat ->
          exists k, is_Some (create !! k)
                    /\ ~ In (Some k)
                         (Tag.Key <$> TagResourceInput.TagList request)) in
  (tagRequests (worldOf r) = tagRequests w \/ sent)
  /\ (remove = ∅ -> create <> ∅ -> sent).
Proof.
  intros Hc Hd r sent.
  destruct (aliased_tags create) as (Hval & Hkey & Hmiss).
  set (k := List.last (map_to_list create).*1 "") in *.
  set (tagList := (fun kv : string * string => Tag.mk (Some k) (Some kv.2))
                    <$> map_to_list create) in *.
  assert (Hsent : forall w1,
             tagRequests w1 = tagRequests w ->
             tagRequests
               (after (EvTagResource
                         (TagResourceInput.mk (Some (Id (d w))) tagList)) w1)
             = TagResourceInput.mk (Some (Id (d w))) tagList :: tagRequests w
             /\ TagResourceInput.ResourceId
                  (TagResourceInput.mk (Some (Id (d w))) tagList)
                = Some (Id (d w))
             /\ Tag.Value <$> tagList = Some <$> (map_to_list create).*2
             /\ (forall t1 t2, In t1 tagList -> In t2 tagList ->
                               Tag.Key t1 = Tag.Key t2)
             /\ ((2 <= size create)%nat ->
                 exists k', is_Some (create !! k')
                            /\ ~ In (Some k') (Tag.Key <$> tagList))).
  { intros w1 Hw1. split; [|split; [reflexivity|split; [exact Hval|split]]].
    - transitivity (TagResourceInput.mk (Some (Id (d w))) tagList
                    :: tagRequests w1); [reflexivity|].
      rewrite Hw1. reflexivity.
    - intros t1 t2 H1 H2. rewrite (Hkey t1 H1), (Hkey t2 H2). reflexivity.
    - intros Hsize. destruct (Hmiss Hsize) as (k' & Hin & Hne).
      exists k'. split; [exact Hin|]. intros Hk'.
      apply list_elem_of_In, list_elem_of_fmap in Hk'.
      destruct Hk' as (t & Ht & Hint).
      apply list_elem_of_In in Hint. rewrite (Hkey t Hint) in Ht. congruence. }
  assert (Hrun : forall w1 (Hw1 : tagRequests w1 = tagRequests w),
             d w1 = d w ->
             let rest :=
               (if 0 <? Z.of_nat (size create) then
                  let* errTag :=
                    call EvTagResource (TagResource (cloudhsmv2conn meta))
                      (TagResourceInput.mk (Some (Id (d w))) tagList) in
                  match errTag with
                  | Some e => ret (Some e)
                  | None => ret None
                  end
                else ret None) w1 in
             (tagRequests (worldOf rest) = tagRequests w
              \/ worldOf rest
                 = after (EvTagResource
                            (TagResourceInput.mk (Some (Id (d w))) tagList))
                     w1)
             /\ (create <> ∅ ->
                 worldOf rest
                 = after (EvTagResource
                            (TagResourceInput.mk (Some (Id (d w))) tagList))
                     w1)).
  { intros w1 Hw1 Hd1 rest. subst rest.
    destruct (0 <? Z.of_nat (size create)) eqn:Hsz.
    - rewrite bind_eq. unfold call.
      destruct (TagResource _ _ _); (split; [right|intros _]); reflexivity.
    - split; [left; exact Hw1|]. intros Hne.
      rewrite (size_positive create Hne) in Hsz. discriminate Hsz. }
  set (request := TagResourceInput.mk (Some (Id (d w))) tagList) in *.
  assert (Hworld :
            (tagRequests (worldOf r) = tagRequests w
             \/ exists w1, tagRequests w1 = tagRequests w
                           /\ worldOf r = after (EvTagResource request) w1)
            /\ (remove = ∅ -> create <> ∅ ->
                exists w1, tagRequests w1 = tagRequests w
                           /\ worldOf r = after (EvTagResource request) w1)).
  { subst r. unfold setTagsAwsCloudHsm2Cluster.
    rewrite bind_getData, Hc.
    destruct (GetChange (d w) "tags") as [oraw nraw]. simpl in Hd.
    rewrite Hd. unfold aws.String. cbv zeta. fold k. fold tagList.
    fold request.
    destruct (0 <? Z.of_nat (size remove)) eqn:Hrem.
    - rewrite bind_eq, (call_eq EvUntagResource).
      destruct (UntagResource _ _ _) as [e|].
      + split; [left; reflexivity|].
        intros ->. rewrite map_size_empty in Hrem. discriminate Hrem.
      + split; [|intros ->; rewrite map_size_empty in Hrem;
                 discriminate Hrem].
        match goal with
        | |- context [worldOf (_ ?w1)] =>
            destruct (Hrun w1 eq_refl eq_refl) as [[Hl|Hr] _];
            [left; exact Hl | right; exists w1; split; [reflexivity|exact Hr]]
        end.
    - rewrite bind_ret.
      destruct (Hrun w eq_refl eq_refl) as [[Hl|Hr] Hne].
      + split; [left; exact Hl|]. intros _ Hcreate.
        exists w. split; [reflexivity | exact (Hne Hcreate)].
      + split; [right|intros _ _]; exists w; (split; [reflexivity|exact Hr]). }
  clearbody r. subst sent.
  destruct Hworld as [Hor Hne]. split.
  - destruct Hor as [Hl|(w1 & Hw1 & Hr)]; [left; exact Hl|right].
    exists request. rewrite Hr. apply Hsent, Hw1.
  - intros H1 H2. destruct (Hne H1 H2) as (w1 & Hw1 & Hr).
    exists request. rewrite Hr. apply Hsent, Hw1.
Qed.

End TagKeys.

(** Witness of X11: the tags "env" and "team" are to be created on a
    cluster without tags.  The request carries both values under one
    key. *)
Lemma setTags_request_repeats_one_key_witness :
  let w := fresh (taggedClusterData "cluster-1" ∅
                    {[ "env" := "prod"; "team" := "hsm" ]}) in
  exists request k,
    tagRequests
      (worldOf (setTagsAwsCloudHsm2Cluster replaceAll
                  (cloudhsmv2conn remoteActive) w))
    = [request]
    /\ Tag.Key <$> TagResourceInput.TagList request = [Some k; Some k]
    /\ (exists k', (k' = "env" \/ k' = "team")
                   /\ ~ In (Some k')
                        (Tag.Key <$> TagResourceInput.TagList request)).
Proof.
  intros w.
  destruct (setTags_request_repeats_one_key replaceAll remoteActive w
              {[ "env" := "prod"; "team" := "hsm" ]} ∅) as [_ Hsent].
  - vm_compute. reflexivity.
  - reflexivity.
  - destruct Hsent as (request & Hreq & _).
    + reflexivity.
    + intros H. apply (f_equal (fun m => m !! "env")) in H.
      vm_compute in H. discriminate H.
    + vm_compute in Hreq. injection Hreq as <-.
      eexists _, _. split; [vm_compute; reflexivity|].
      split; [vm_compute; reflexivity|].
      first [ exists "env"; split; [left; reflexivity|];
              vm_compute; intros [H|[H|[]]]; discriminate H
            | exists "team"; split; [right; reflexivity|];
              vm_compute; intros [H|[H|[]]]; discriminate H ].
Defined.

(** ** The delete operations and the store *)

(** X12.  Neither delete writes the store: whatever the remote answers,
    and whether the delete returns or panics, the identifier and every
    attribute are as they were (clearing the identifier is left to the
    caller); and no create request and no tag request is sent. *)
Theorem delete_never_writes_store
    (isAWSErr : error -> string -> string -> bool) (backoff : nat -> Z)
    (meta : AWSClient) (w : World) :
  let rc := resourceAwsCloudHsm2ClusterDelete isAWSErr backoff meta w in
  let rh := resourceAwsCloudHsm2HsmDelete isAWSErr backoff meta w in
  (d (worldOf rc) = d w
   /\ createClusterRequests (worldOf rc) = createClusterRequests w
   /\ tagRequests (worldOf rc) = tagRequests w)
  /\
  (d (worldOf rh) = d w
   /\ createHsmRequests (worldOf rh) = createHsmRequests w).
Proof.
  intros rc rh. subst rc rh. unfold tagRequests.
  repeat split;
    apply (invariant_outcome _ _ w _ eq_refl);
    unfold resourceAwsCloudHsm2ClusterDelete, resourceAwsCloudHsm2HsmDelete;
    unchanged_piece.
Qed.

(** ** The waiter of the HSM create and the polling policy *)

Section Polling.
Variable isAWSErr : error -> string -> string -> bool.
Variable diffTagsGeneric :
  gmap string string -> gmap string string ->
  gmap string string * gmap string string.
Variable backoff : nat -> Z.

(** X13.  The HSM create invokes the waiter at most once, and it has
    done so whenever it returns a nil error after sending a create
    request.  The waiter treats both CREATE_IN_PROGRESS and the
    not-found status "destroyed" as pending (an HSM that is not listed
    yet is waited for) and ACTIVE as the target; it polls with the
    create timeout of the store, a minimum interval of 30 seconds and
    an initial delay of 30 seconds. *)
Theorem hsm_create_waits_through_not_found (meta : AWSClient) (w : World) :
  let r := resourceAwsCloudHsm2HsmCreate isAWSErr backoff meta w in
  let c := (["CREATE_IN_PROGRESS"; "destroyed"], ["ACTIVE"],
            Timeout_ (d w) TimeoutCreate, 30, 30) in
  (waits (worldOf r) = waits w \/ waits (worldOf r) = c :: waits w)
  /\ (forall w', r = Returns None w' ->
      createHsmRequests w' <> createHsmRequests w ->
      waits w' = c :: waits w).
Proof.
  intros r c. subst r c. unfold resourceAwsCloudHsm2HsmCreate.
  rewrite bind_getData. cbv zeta.
  split_run w a w1 HD; learn waits HD Hw1; learn d HD Hd1;
    learn createHsmRequests HD Hq1.
  2: { split; [left; exact Hw1 | discriminate]. }
  destruct a as [[cluster|] err].
  2: { split; [left; exact Hw1|]. intros w' [= _ <-] Hne. destruct (Hne Hq1). }
  split_run w1 az w2 HZ; learn waits HZ Hw2; learn d HZ Hd2.
  2: { split; [left; simpl; congruence | discriminate]. }
  split_run w2 b w3 HR; learn waits HR Hw3; learn d HR Hd3.
  2: { split; [left; simpl; congruence | discriminate]. }
  destruct b as [output [e|]].
  { split; [left; simpl; congruence | discriminate]. }
  destruct output as [[[hsm|]]|];
    [rewrite bind_deref_Some; cbn [CreateHsmOutput.Hsm];
     rewrite bind_deref_Some
    |rewrite bind_deref_Some; cbn [CreateHsmOutput.Hsm];
     rewrite bind_deref_None;
     split; [left; simpl; congruence | discriminate]
    |rewrite bind_deref_None;
     split; [left; simpl; congruence | discriminate]].
  rewrite bind_dSetId, bind_getData. simpl d.
  rewrite Timeout__SetId, Hd3, Hd2, Hd1.
  match goal with
  | |- context [bind (WaitForState _) _ ?w4] => set (begun := w4)
  end.
  assert (Hb : waits begun = waits w)
    by (subst begun; change (waits w3 = waits w); congruence).
  clearbody begun.
  assert (Hall : forall x : Res (option error),
             waits (worldOf x) = ([HsmStateCreateInProgress; "destroyed"],
                                  [HsmStateActive],
                                  Timeout_ (d w) TimeoutCreate, 30, 30)
                                 :: waits w ->
             (waits (worldOf x) = waits w
              \/ waits (worldOf x)
                 = ([HsmStateCreateInProgress; "destroyed"],
                    [HsmStateActive], Timeout_ (d w) TimeoutCreate, 30, 30)
                   :: waits w)
             /\ (forall w', x = Returns None w' ->
                 createHsmRequests w' <> createHsmRequests w ->
                 waits w'
                 = ([HsmStateCreateInProgress; "destroyed"],
                    [HsmStateActive], Timeout_ (d w) TimeoutCreate, 30, 30)
                   :: waits w)).
  { intros x Hx. split; [right; exact Hx|].
    intros w' -> _. exact Hx. }
  apply Hall.
  split_run begun c0 w5 HW; learn_added selWait HW Hwait;
    fold waits in Hwait; rewrite Hb in Hwait; [|exact Hwait].
  rest_unchanged waits. exact Hwait.
Qed.


(** X14.  The cluster create and both deletes poll alike: every waiter
    they invoke has the create timeout of the store as its timeout, a
    minimum interval of 30 seconds and an initial delay of 30
    seconds. *)
Theorem waits_poll_every_thirty_seconds (meta : AWSClient) (w : World) :
  let policy := (Timeout_ (d w) TimeoutCreate, 30, 30) in
  let polls (r : Res (option error)) :=
    (waitPolicies (worldOf r) = waitPolicies w
     \/ waitPolicies (worldOf r) = policy :: waitPolicies w)
    /\ (forall w', r = Returns None w' ->
        waitPolicies w' = policy :: waitPolicies w) in
  polls (resourceAwsCloudHsm2ClusterCreate isAWSErr diffTagsGeneric backoff
           meta w)
  /\ polls (resourceAwsCloudHsm2ClusterDelete isAWSErr backoff meta w)
  /\ polls (resourceAwsCloudHsm2HsmDelete isAWSErr backoff meta w).
Proof.
  intros policy polls. subst polls policy. cbv beta.
  assert (Hproj : forall (r : Res (option error)) c,
             c.1.1.2 = Timeout_ (d w) TimeoutCreate -> c.1.2 = 30 ->
             c.2 = 30 ->
             (waits (worldOf r) = waits w \/ waits (worldOf r) = c :: waits w)
             /\ (forall w', r = Returns None w' -> waits w' = c :: waits w) ->
             (waitPolicies (worldOf r) = waitPolicies w
              \/ waitPolicies (worldOf r)
                 = (Timeout_ (d w) TimeoutCreate, 30, 30) :: waitPolicies w)
             /\ (forall w', r = Returns None w' ->
                 waitPolicies w'
                 = (Timeout_ (d w) TimeoutCreate, 30, 30) :: waitPolicies w)).
  { intros r c H1 H2 H3 [Hor Hok]. unfold waitPolicies. split.
    - destruct Hor as [H|H]; [left|right]; rewrite H; [reflexivity|].
      simpl. rewrite H1, H2, H3. reflexivity.
    - intros w' Hr. rewrite (Hok w' Hr). simpl. rewrite H1, H2, H3.
      reflexivity. }
  split; [|split].
  - eapply Hproj;
      [| | |apply (waits_ClusterCreate isAWSErr diffTagsGeneric backoff)];
      reflexivity.
  - eapply Hproj; [| | |apply (waits_ClusterDelete isAWSErr backoff)];
      reflexivity.
  - eapply Hproj; [| | |apply (waits_HsmDelete isAWSErr backoff)];
      reflexivity.
Qed.

End Polling.

(** Witness of X13: an HSM create on the example remote, whose HSM is
    listed as ACTIVE. *)
Lemma hsm_create_waits_through_not_found_witness :
  waits (worldOf (resourceAwsCloudHsm2HsmCreate byCode everySecond
                    remoteActive (fresh (hsmData "" "us-east-1a" ""))))
  = [(["CREATE_IN_PROGRESS"; "destroyed"], ["ACTIVE"], 7200, 30, 30)].
Proof.
  apply (proj2 (hsm_create_waits_through_not_found byCode everySecond
                  remoteActive (fresh (hsmData "" "us-east-1a" ""))) _).
  - vm_compute. reflexivity.
  - vm_compute. discriminate.
Defined.

(** Witness of X14: a successful cluster delete. *)
Lemma waits_poll_every_thirty_seconds_witness :
  waitPolicies
    (worldOf (resourceAwsCloudHsm2ClusterDelete byCode everySecond
                remoteDeleted (fresh (clusterData "cluster-1" ""))))
  = [(7200, 30, 30)].
Proof.
  apply (proj2 (proj1 (proj2 (waits_poll_every_thirty_seconds byCode
                                replaceAll everySecond remoteDeleted
                                (fresh (clusterData "cluster-1" ""))))) _).
  vm_compute. reflexivity.
Defined.

(** ** A refused mutating call *)

(** An attempt that succeeds, or fails with an error that is not
    retryable, ends the retry at once, whatever the ceiling. *)
Lemma Retry_stops {S} backoff timeout (g : S -> M (S * option RetryError))
    s w s' rerr w' :
  g s (after (EvRetry timeout) w) = Returns (s', rerr) w' ->
  (forall re, rerr = Some re -> Retryable re = false) ->
  Retry backoff timeout g s w = Returns (s', Err <$> rerr) w'.
Proof.
  intros Hg Hre.
  change (Retry backoff timeout g s w)
    with (retryLoop backoff (Z.to_nat timeout) timeout 0 0 g s
            (after (EvRetry timeout) w)).
  destruct (Z.to_nat timeout); simpl; rewrite bind_eq, Hg;
    (destruct rerr as [re|]; [rewrite (Hre re eq_refl)|]); reflexivity.
Qed.

Lemma Retry_succeeds {S} backoff timeout (g : S -> M (S * option RetryError))
    s w s' w' :
  g s (after (EvRetry timeout) w) = Returns (s', None) w' ->
  Retry backoff timeout g s w = Returns (s', None) w'.
Proof.
  intros Hg. apply (Retry_stops backoff timeout g s w s' None w' Hg).
  intros re [=].
Qed.

Section Refused.
Variable isAWSErr : error -> string -> string -> bool.
Variable diffTagsGeneric :
  gmap string string -> gmap string string ->
  gmap string string * gmap string string.
Variable backoff : nat -> Z.

(** X15.  When the first attempt of the mutating call of the cluster
    create, of the cluster delete or of the HSM delete fails with an
    error that is not the internal failure, the operation returns that
    very error after this one request: without pause, without a second
    attempt, without invoking the waiter, and with the store as it was
    (no identifier is recorded). *)
Theorem refused_call_is_returned_as_is (meta : AWSClient) (w : World)
    (e : error) :
  isAWSErr e ErrCodeCloudHsmInternalFailureException internalFailureMessage
    = false ->
  let conn := cloudhsmv2conn meta in
  let history := trace (after (EvRetry 180) w) in
  (forall out,
     let backupId := GetString (d w) "backup_identifier" in
     let input :=
       CreateClusterInput.mk (Some (GetString (d w) "hsm_type"))
         (if len backupId =? 0 then None else Some backupId)
         (GetStrings (d w) "subnet_ids") in
     CreateCluster conn history input = (out, Some e) ->
     resourceAwsCloudHsm2ClusterCreate isAWSErr diffTagsGeneric backoff meta w
     = Returns (Some e) (after (EvCreateCluster input) (after (EvRetry 180) w)))
  /\
  (forall out,
     let input := DeleteClusterInput.mk (Some (Id (d w))) in
     DeleteCluster conn history input = (out, Some e) ->
     resourceAwsCloudHsm2ClusterDelete isAWSErr backoff meta w
     = Returns (Some e) (after (EvDeleteCluster input) (after (EvRetry 180) w)))
  /\
  (forall out,
     let input :=
       DeleteHsmInput.mk (Some (GetString (d w) "cluster_id"))
         (Some (Id (d w))) in
     DeleteHsm conn history input = (out, Some e) ->
     resourceAwsCloudHsm2HsmDelete isAWSErr backoff meta w
     = Returns (Some e) (after (EvDeleteHsm input) (after (EvRetry 180) w))).
Proof.
  intros He conn history. split; [|split].
  - intros out backupId input H.
    unfold resourceAwsCloudHsm2ClusterCreate.
    rewrite bind_getData. fold backupId. cbv zeta.
    match goal with
    | |- context [Retry backoff 180
                    (resourceAwsCloudHsm2ClusterCreate_func _ _ ?i) None] =>
        replace i with input by (subst input; destruct (len backupId =? 0);
                                 reflexivity)
    end.
    rewrite bind_eq.
    erewrite Retry_stops;
      [|rewrite ClusterCreate_func_eq; fold conn; cbn [trace after] in *;
        fold history; rewrite H; reflexivity
       |simpl; intros re [= <-]; exact He].
    reflexivity.
  - intros out input H. unfold resourceAwsCloudHsm2ClusterDelete.
    rewrite bind_eq.
    erewrite Retry_stops;
      [|rewrite ClusterDelete_func_eq; fold conn; cbn [trace after d] in *;
        unfold aws.String; fold input; fold history; rewrite H; reflexivity
       |simpl; intros re [= <-]; exact He].
    reflexivity.
  - intros out input H. unfold resourceAwsCloudHsm2HsmDelete.
    rewrite bind_getData. cbv zeta. rewrite bind_eq.
    erewrite Retry_stops;
      [|rewrite HsmDelete_func_eq; fold conn; cbn [trace after d] in *;
        unfold aws.String; fold input; fold history; rewrite H; reflexivity
       |simpl; intros re [= <-]; exact He].
    reflexivity.
Qed.

End Refused.

(** Witness of X15: the cluster delete on a remote that refuses it. *)
Lemma refused_call_is_returned_as_is_witness :
  resourceAwsCloudHsm2ClusterDelete byCode everySecond remoteRefusing
    (fresh (clusterData "cluster-1" ""))
  = Returns (Some serviceDown)
      {| d := clusterData "cluster-1" "";
         trace := [EvDeleteCluster (DeleteClusterInput.mk (Some "cluster-1"));
                   EvRetry 180] |}.
Proof.
  apply (proj1 (proj2 (refused_call_is_returned_as_is byCode replaceAll
                         everySecond remoteRefusing
                         (fresh (clusterData "cluster-1" "")) serviceDown
                         eq_refl))
           (DeleteClusterOutput.mk None)).
  reflexivity.
Defined.

(** ** The first poll of a delete wait *)

(** The waiter whose initial delay fits under its timeout polls once
    after the delay; a target status at that poll ends the wait well,
    and a status that is neither target nor pending ends it with a
    state mismatch. *)
Lemma WaitForState_first_poll conf w res st w2 :
  Delay conf <= Timeout conf ->
  Refresh conf
    (after (EvSleep (Delay conf))
       (after (EvWaitForState (Pending conf) (Target conf) (Timeout conf)
                 (MinTimeout conf) (Delay conf)) w))
    = Returns (res, st, None) w2 ->
  (inStates st (Target conf) = true ->
   WaitForState conf w = Returns (res, None) w2)
  /\ (inStates st (Target conf) = false ->
      inStates st (Pending conf) = false ->
      WaitForState conf w
      = Returns (inil, Some (UnexpectedStateError st (Target conf))) w2).
Proof.
  intros Hfit Hr.
  change (WaitForState conf w)
    with (waitLoop (Datatypes.S (Z.to_nat (Timeout conf))) conf (Delay conf) ""
            (after (EvSleep (Delay conf))
               (after (EvWaitForState (Pending conf) (Target conf)
                         (Timeout conf) (MinTimeout conf) (Delay conf)) w))).
  cbn [waitLoop].
  destruct (Z.ltb_spec (Timeout conf) (Delay conf)) as [Hlt|_]; [lia|].
  rewrite bind_eq, Hr. split.
  - intros ->. reflexivity.
  - intros -> ->. reflexivity.
Qed.

Section DeleteWait.
Variable isAWSErr : error -> string -> string -> bool.
Variable backoff : nat -> Z.

(** X16.  The HSM delete reports success on a failing describe: when
    the delete call succeeds at its first attempt, the create timeout
    of the store is at least the 30 seconds of the initial delay, and
    the first describe call of the wait returns an error, the HSM
    delete returns a nil error after that one poll.  (The refresh
    function turns the error into the status "destroyed", which is the
    target of the wait.) *)
Theorem hsm_delete_succeeds_on_describe_error (meta : AWSClient) (w : World)
    (out : DeleteHsmOutput.t) (listing : DescribeClustersOutput.t)
    (e : error) :
  let conn := cloudhsmv2conn meta in
  let clusterId := GetString (d w) "cluster_id" in
  let input := DeleteHsmInput.mk (Some clusterId) (Some (Id (d w))) in
  let timeout := Timeout_ (d w) TimeoutCreate in
  let deleted := after (EvDeleteHsm input) (after (EvRetry 180) w) in
  let polling :=
    after (EvSleep 30)
      (after (EvWaitForState ["DELETE_IN_PROGRESS"] ["destroyed"] timeout
                30 30) deleted) in
  DeleteHsm conn (trace (after (EvRetry 180) w)) input = (out, None) ->
  30 <= timeout ->
  DescribeClusters conn (trace polling) (describeInput clusterId)
    = (listing, Some e) ->
  resourceAwsCloudHsm2HsmDelete isAWSErr backoff meta w
  = Returns None (described clusterId polling).
Proof.
  intros conn clusterId input timeout deleted polling Hdel Hfit Hdesc.
  unfold resourceAwsCloudHsm2HsmDelete.
  rewrite bind_getData. cbv zeta. rewrite bind_eq.
  erewrite Retry_succeeds;
    [|rewrite HsmDelete_func_eq; fold conn; cbn [trace after d] in *;
      unfold aws.String; fold clusterId; fold input; rewrite Hdel; reflexivity].
  rewrite bind_getData. cbn [d after].
  fold timeout. rewrite bind_eq.
  assert (Href : resourceAwsCloudHsm2HsmRefreshFunc meta polling
                 = Returns (iint 42, "destroyed", None)
                     (described clusterId polling)).
  { unfold resourceAwsCloudHsm2HsmRefreshFunc. rewrite bind_eq.
    rewrite (describeHsm_error meta polling listing e Hdesc). reflexivity. }
  match goal with
  | |- context [WaitForState ?conf ?w0] =>
      change w0 with deleted;
      destruct (WaitForState_first_poll conf deleted (iint 42) "destroyed"
                  (described clusterId polling) Hfit Href) as [Hok _]
  end.
  rewrite (Hok eq_refl). reflexivity.
Qed.

(** X17.  The cluster delete fails when the cluster is gone: when the
    delete call succeeds at its first attempt, the create timeout of
    the store is at least the 30 seconds of the initial delay, and the
    first describe call of the wait fails or does not list the cluster,
    the cluster delete returns an error for the unexpected status
    "destroyed", which is neither its pending status nor its target
    DELETED. *)
Theorem cluster_delete_fails_when_cluster_is_gone (meta : AWSClient)
    (w : World) (out : DeleteClusterOutput.t)
    (listing : DescribeClustersOutput.t) (oerr : option error) :
  let conn := cloudhsmv2conn meta in
  let input := DeleteClusterInput.mk (Some (Id (d w))) in
  let timeout := Timeout_ (d w) TimeoutCreate in
  let deleted := after (EvDeleteCluster input) (after (EvRetry 180) w) in
  let polling :=
    after (EvSleep 30)
      (after (EvWaitForState ["DELETE_IN_PROGRESS"] ["DELETED"] timeout
                30 30) deleted) in
  DeleteCluster conn (trace (after (EvRetry 180) w)) input = (out, None) ->
  30 <= timeout ->
  DescribeClusters conn (trace polling) (describeInput (Id (d w)))
    = (listing, oerr) ->
  is_Some oerr
  \/ listsNone Cluster.ClusterId (Id (d w))
       (DescribeClustersOutput.Clusters listing) ->
  resourceAwsCloudHsm2ClusterDelete isAWSErr backoff meta w
  = Returns
      (Some (Errorf
         ("[WARN] Error waiting for CloudHSMv2 Cluster state to be "
            ++ quoted "DELETED" ++ ": %s")%string
         (UnexpectedStateError "destroyed" ["DELETED"])))
      (described (Id (d w)) polling).
Proof.
  intros conn input timeout deleted polling Hdel Hfit Hdesc Hgone.
  unfold resourceAwsCloudHsm2ClusterDelete. rewrite bind_eq.
  erewrite Retry_succeeds;
    [|rewrite ClusterDelete_func_eq; fold conn; cbn [trace after d] in *;
      unfold aws.String; fold input; rewrite Hdel; reflexivity].
  rewrite bind_getData. cbn [d after].
  fold timeout. rewrite bind_eq.
  assert (Href : resourceAwsCloudHsm2ClusterRefreshFunc meta polling
                 = Returns (iint 42, "destroyed", None)
                     (described (Id (d w)) polling)).
  { unfold resourceAwsCloudHsm2ClusterRefreshFunc.
    rewrite bind_getData, bind_eq.
    change (Id (d polling)) with (Id (d w)).
    destruct oerr as [e|].
    + rewrite (describeCloudHsm2Cluster_error _ meta polling listing e Hdesc).
      reflexivity.
    + destruct Hgone as [[? [=]]|Habs].
      rewrite (describeCloudHsm2Cluster_absent _ meta polling listing Hdesc
                 Habs).
      reflexivity. }
  match goal with
  | |- context [WaitForState ?conf ?w0] =>
      change w0 with deleted;
      destruct (WaitForState_first_poll conf deleted (iint 42) "destroyed"
                  (described (Id (d w)) polling) Hfit Href) as [_ Hbad]
  end.
  rewrite (Hbad eq_refl eq_refl). reflexivity.
Qed.

End DeleteWait.

(** Witness of X16: an HSM delete whose delete call succeeds while the
    describe call is down. *)
Lemma hsm_delete_succeeds_on_describe_error_witness :
  exists w',
    resourceAwsCloudHsm2HsmDelete byCode everySecond remoteDown
      (fresh (hsmData "hsm-1" "us-east-1a" "")) = Returns None w'.
Proof.
  eexists.
  apply (hsm_delete_succeeds_on_describe_error byCode everySecond remoteDown
           (fresh (hsmData "hsm-1" "us-east-1a" ""))
           (DeleteHsmOutput.mk (Some "hsm-1")) (DescribeClustersOutput.mk [])
           serviceDown eq_refl).
  - vm_compute. discriminate.
  - reflexivity.
Defined.

(** Witness of X17: a cluster delete after which the remote lists
    nothing. *)
Lemma cluster_delete_fails_when_cluster_is_gone_witness :
  exists w',
    resourceAwsCloudHsm2ClusterDelete byCode everySecond remoteEmpty
      (fresh (clusterData "cluster-1" ""))
    = Returns
        (Some (Errorf
           ("[WARN] Error waiting for CloudHSMv2 Cluster state to be "
              ++ quoted "DELETED" ++ ": %s")%string
           (UnexpectedStateError "destroyed" ["DELETED"]))) w'.
Proof.
  eexists.
  apply (cluster_delete_fails_when_cluster_is_gone byCode everySecond
           remoteEmpty (fresh (clusterData "cluster-1" ""))
           (DeleteClusterOutput.mk None) (DescribeClustersOutput.mk []) None
           eq_refl).
  - vm_compute. discriminate.
  - reflexivity.
  - right. constructor.
Defined.

(** ** An HSM create without a usable placement *)

Lemma zone_scan_nil (subnetId : string)
    (mapping : list (string * option string)) (acc : string) (w : World) :
  Exists (fun p => p.2 = None) mapping ->
  forRange mapping acc
    (fun availabilityZone '(az, sn) =>
       let* s := deref sn in
       ret (if String.eqb s subnetId then az else availabilityZone)) w
  = Panics w.
Proof.
  intros Hm. revert acc.
  induction mapping as [|[az sn] mapping IH]; intros acc; [inversion Hm|].
  simpl. rewrite bind_eq. destruct sn as [s|]; simpl; [|reflexivity].
  apply IH. inversion Hm as [? ? Hx|]; [discriminate Hx | assumption].
Qed.

(** X18.  An HSM create that is given no availability zone, in a
    cluster none of whose zones is mapped to the given subnet_id (for
    instance when no subnet_id is given either), is not stopped: every
    create request is sent with an empty availability zone.  When the
    subnet mapping of the cluster holds a nil pointer, the create
    panics before it sends any request. *)
Theorem hsm_create_without_placement
    (isAWSErr : error -> string -> string -> bool) (backoff : nat -> Z)
    (meta : AWSClient) (w : World) (cluster : Cluster.t)
    (err : option error) (w0 : World) :
  let r := resourceAwsCloudHsm2HsmCreate isAWSErr backoff meta w in
  let clusterId := GetString (d w) "cluster_id" in
  let ipAddress := GetString (d w) "ip_address" in
  let subnetId := GetString (d w) "subnet_id" in
  describeCloudHsm2Cluster clusterId meta w = Returns (Some cluster, err) w0 ->
  GetString (d w) "availability_zone" = "" ->
  (Forall (fun p => is_Some p.2) (Cluster.SubnetMapping cluster) ->
   (forall az, ~ In (az, Some subnetId) (Cluster.SubnetMapping cluster)) ->
   exists k, (0 < k)%nat /\
     createHsmRequests (worldOf r)
     = repeat (CreateHsmInput.mk (Some "") (Some clusterId)
                 (if len ipAddress =? 0 then None else Some ipAddress)) k
       ++ createHsmRequests w)
  /\
  (Exists (fun p => p.2 = None) (Cluster.SubnetMapping cluster) ->
   r = Panics w0 /\ createHsmRequests w0 = createHsmRequests w).
Proof.
  intros r clusterId ipAddress subnetId HD Hz. split.
  - intros Hsome Hnone.
    destruct (zone_scan subnetId (Cluster.SubnetMapping cluster)
                (GetString (d w) "availability_zone") w0 Hsome)
      as (z & Hscan & [Hin|[-> _]]); [destruct (Hnone z Hin)|].
    apply (requests_HsmCreate isAWSErr backoff meta w cluster err w0 "" w0
             HD).
    rewrite Hz in Hscan |- *. exact Hscan.
  - intros Hnil. split.
    + subst r. unfold resourceAwsCloudHsm2HsmCreate.
      rewrite bind_getData. cbv zeta. fold clusterId.
      rewrite bind_eq, HD, bind_eq, Hz.
      change (len "" =? 0) with true. cbv iota.
      rewrite (zone_scan_nil _ _ _ _ Hnil). reflexivity.
    + learn createHsmRequests HD Hq. exact Hq.
Qed.

(** Witness of X18: an HSM create with only a subnet that the cluster
    does not have. *)
Lemma hsm_create_without_placement_witness :
  exists k, (0 < k)%nat /\
    createHsmRequests
      (worldOf (resourceAwsCloudHsm2HsmCreate byCode everySecond remoteActive
                  (fresh (hsmData "" "" "subnet-9"))))
    = repeat (CreateHsmInput.mk (Some "") (Some "cluster-1") None) k.
Proof.
  destruct (proj1 (hsm_create_without_placement byCode everySecond
                     remoteActive (fresh (hsmData "" "" "subnet-9"))
                     (exampleCluster "ACTIVE" [exampleHsm "ACTIVE"]) None _
                     eq_refl eq_refl)) as (k & Hk & Heq).
  - repeat constructor. eexists. reflexivity.
  - intros az [Hin|[]]. discriminate Hin.
  - exists k. split; [exact Hk|]. rewrite Heq. apply app_nil_r.
Defined.

(** ** A create that converges at the first poll *)

Section Converging.
Variable isAWSErr : error -> string -> string -> bool.
Variable diffTagsGeneric :
  gmap string string -> gmap string string ->
  gmap string string * gmap string string.
Variable backoff : nat -> Z.

(** X19.  A cluster create whose tags need no change, whose create call
    succeeds at its first attempt and returns a cluster, and whose
    first poll (30 seconds later, within the create timeout) finds the
    cluster in the target status, is from there on exactly the cluster
    read: it returns what the read returns, run with the identifier of
    the created cluster recorded and after one retry event, one create
    request, the waiter event, one pause and one describe request.  The
    target status is ACTIVE with a backup identifier and UNINITIALIZED
    without. *)
Theorem cluster_create_converging_is_a_read (meta : AWSClient) (w : World)
    (out : CreateClusterOutput.t) (created polled : Cluster.t)
    (listing : DescribeClustersOutput.t) :
  let conn := cloudhsmv2conn meta in
  let backupId := GetString (d w) "backup_identifier" in
  let input :=
    CreateClusterInput.mk (Some (GetString (d w) "hsm_type"))
      (if len backupId =? 0 then None else Some backupId)
      (GetStrings (d w) "subnet_ids") in
  let target := if len backupId =? 0 then "UNINITIALIZED" else "ACTIVE" in
  let timeout := Timeout_ (d w) TimeoutCreate in
  let id := aws.StringValue (Cluster.ClusterId created) in
  let begun :=
    {| d := SetId id (d w);
       trace := EvCreateCluster input :: EvRetry 180 :: trace w |} in
  let polling :=
    after (EvSleep 30)
      (after (EvWaitForState ["CREATE_IN_PROGRESS"; "INITIALIZE_IN_PROGRESS"]
                [target] timeout 30 30) begun) in
  HasChange (d w) "tags" = false ->
  CreateCluster conn (trace (after (EvRetry 180) w)) input = (out, None) ->
  CreateClusterOutput.Cluster out = Some created ->
  30 <= timeout ->
  DescribeClusters conn (trace polling) (describeInput id) = (listing, None) ->
  listsLast Cluster.ClusterId id (DescribeClustersOutput.Clusters listing)
    polled ->
  Cluster.State polled = Some target ->
  resourceAwsCloudHsm2ClusterCreate isAWSErr diffTagsGeneric backoff meta w
  = resourceAwsCloudHsm2ClusterRead meta (described id polling).
Proof.
  intros conn backupId input target timeout id begun polling
    Htags Hcreate Hout Hfit Hdesc Hlast Hstate.
  unfold resourceAwsCloudHsm2ClusterCreate.
  rewrite bind_getData. fold backupId. cbv zeta.
  match goal with
  | |- context [Retry backoff 180
                  (resourceAwsCloudHsm2ClusterCreate_func _ _ ?i) None] =>
      replace i with input by (subst input; destruct (len backupId =? 0);
                               reflexivity)
  end.
  rewrite bind_eq.
  erewrite Retry_succeeds;
    [|rewrite ClusterCreate_func_eq; fold conn; cbn [trace after] in *;
      rewrite Hcreate; reflexivity].
  cbn [fst]. rewrite bind_deref_Some, Hout, bind_deref_Some, bind_dSetId,
    bind_getData.
  fold id. cbn [d after trace]. rewrite Timeout__SetId. fold timeout.
  replace (if 0 <? len backupId then ClusterStateActive
           else ClusterStateUninitialized) with target
    by (subst target; unfold len; destruct backupId; reflexivity).
  assert (Href : resourceAwsCloudHsm2ClusterRefreshFunc meta polling
                 = Returns (icluster polled, target, None)
                     (described id polling)).
  { unfold resourceAwsCloudHsm2ClusterRefreshFunc.
    rewrite bind_getData, bind_eq.
    change (Id (d polling)) with id.
    rewrite (describeCloudHsm2Cluster_present _ meta polling listing polled
               Hdesc Hlast).
    rewrite bind_eq, Hstate. reflexivity. }
  rewrite bind_eq.
  match goal with
  | |- context [WaitForState ?conf ?w0] =>
      change w0 with begun;
      destruct (WaitForState_first_poll conf begun (icluster polled) target
                  (described id polling) Hfit Href) as [Hok _]
  end.
  rewrite Hok by (cbn [Target inStates existsb]; rewrite String.eqb_refl;
                  reflexivity).
  rewrite bind_eq.
  unfold setTagsAwsCloudHsm2Cluster at 1.
  rewrite bind_getData.
  change (HasChange (d (described id polling)) "tags")
    with (HasChange (d w) "tags").
  rewrite Htags. reflexivity.
Qed.

(** X20.  An HSM create with an availability zone given, whose owning
    cluster is listed, whose create call succeeds at its first attempt
    and returns an HSM, and whose first poll (30 seconds later, within
    the create timeout) finds the HSM listed as ACTIVE, is from there on
    exactly the HSM read, run with the identifier of the created HSM
    recorded. *)
Theorem hsm_create_converging_is_a_read (meta : AWSClient) (w : World)
    (owners listing : DescribeClustersOutput.t) (owner polled : Cluster.t)
    (out : CreateHsmOutput.t) (created found : Hsm.t) :
  let conn := cloudhsmv2conn meta in
  let clusterId := GetString (d w) "cluster_id" in
  let ipAddress := GetString (d w) "ip_address" in
  let input :=
    CreateHsmInput.mk (Some (GetString (d w) "availability_zone"))
      (Some clusterId) (if len ipAddress =? 0 then None else Some ipAddress) in
  let timeout := Timeout_ (d w) TimeoutCreate in
  let id := aws.StringValue (Hsm.HsmId created) in
  let retrying := after (EvRetry 180) (described clusterId w) in
  let begun :=
    {| d := SetId id (d w); trace := EvCreateHsm input :: trace retrying |} in
  let polling :=
    after (EvSleep 30)
      (after (EvWaitForState ["CREATE_IN_PROGRESS"; "destroyed"] ["ACTIVE"]
                timeout 30 30) begun) in
  GetString (d w) "availability_zone" <> "" ->
  DescribeClusters conn (trace w) (describeInput clusterId) = (owners, None) ->
  listsLast Cluster.ClusterId clusterId
    (DescribeClustersOutput.Clusters owners) owner ->
  CreateHsm conn (trace retrying) input = (out, None) ->
  CreateHsmOutput.Hsm out = Some created ->
  30 <= timeout ->
  DescribeClusters conn (trace polling) (describeInput clusterId)
    = (listing, None) ->
  listsLast Cluster.ClusterId clusterId
    (DescribeClustersOutput.Clusters listing) polled ->
  listsLast Hsm.HsmId id (Cluster.Hsms polled) found ->
  Hsm.State found = Some "ACTIVE" ->
  resourceAwsCloudHsm2HsmCreate isAWSErr backoff meta w
  = resourceAwsCloudHsm2HsmRead meta (described clusterId polling).
Proof.
  intros conn clusterId ipAddress input timeout id retrying begun polling
    Hzone Howners Howner Hcreate Hout Hfit Hdesc Hlast Hfound Hstate.
  unfold resourceAwsCloudHsm2HsmCreate.
  rewrite bind_getData. fold clusterId ipAddress. cbv zeta.
  rewrite bind_eq.
  rewrite (describeCloudHsm2Cluster_present _ meta w owners owner Howners
             Howner).
  destruct (len_nonempty _ Hzone) as [Hlen _]. rewrite Hlen, bind_ret.
  match goal with
  | |- context [Retry backoff 180
                  (resourceAwsCloudHsm2HsmCreate_func _ _ ?i) None] =>
      replace i with input by (subst input; destruct (len ipAddress =? 0);
                               reflexivity)
  end.
  rewrite bind_eq.
  erewrite Retry_succeeds;
    [|rewrite HsmCreate_func_eq; fold conn; fold retrying;
      rewrite Hcreate; reflexivity].
  cbn [fst]. rewrite bind_deref_Some, Hout, bind_deref_Some, bind_dSetId,
    bind_getData.
  fold id. cbn [d after trace described]. rewrite Timeout__SetId.
  fold timeout.
  assert (Href : resourceAwsCloudHsm2HsmRefreshFunc meta polling
                 = Returns (ihsm found, "ACTIVE", None)
                     (described clusterId polling)).
  { unfold resourceAwsCloudHsm2HsmRefreshFunc. rewrite bind_eq.
    rewrite (describeHsm_present meta polling listing polled found Hdesc
               Hlast Hfound).
    rewrite bind_eq, Hstate. reflexivity. }
  rewrite bind_eq.
  match goal with
  | |- context [WaitForState ?conf ?w0] =>
      change w0 with begun;
      destruct (WaitForState_first_poll conf begun (ihsm found) "ACTIVE"
                  (described clusterId polling) Hfit Href) as [Hok _]
  end.
  rewrite (Hok eq_refl). reflexivity.
Qed.

End Converging.

(** Witness of X19: the create of a cluster from the backup
    "backup-123" on the example remote, which lists it as ACTIVE. *)
Lemma cluster_create_converging_is_a_read_witness :
  let w := fresh (clusterData "" "backup-123") in
  exists waited,
    Id (d waited) = "cluster-1"
    /\ resourceAwsCloudHsm2ClusterCreate byCode replaceAll everySecond
         remoteRestored w
       = resourceAwsCloudHsm2ClusterRead remoteRestored waited.
Proof.
  intros w. eexists. split; [|
    apply (cluster_create_converging_is_a_read byCode replaceAll everySecond
             remoteRestored w
             (CreateClusterOutput.mk
                (Some (exampleCluster "CREATE_IN_PROGRESS" [])))
             (exampleCluster "CREATE_IN_PROGRESS" [])
             (Cluster.mk (Some exampleCertificates) (Some "cluster-1")
                (Some "hsm1.medium") [] (Some "sg-1") (Some "backup-123")
                (Some "ACTIVE") [("us-east-1a", Some "subnet-1")]
                (Some "vpc-1"))
             (DescribeClusters (cloudhsmv2conn remoteRestored) []
                (describeInput "cluster-1")).1)].
  - reflexivity.
  - vm_compute. reflexivity.
  - reflexivity.
  - reflexivity.
  - vm_compute. discriminate.
  - reflexivity.
  - exists [], []. split; [reflexivity|].
    split; [constructor|]. split; [reflexivity | constructor].
  - reflexivity.
Defined.

(** Witness of X20: the create of an HSM in the zone us-east-1a on the
    example remote, which lists it as ACTIVE. *)
Lemma hsm_create_converging_is_a_read_witness :
  let w := fresh (hsmData "" "us-east-1a" "") in
  exists waited,
    Id (d waited) = "hsm-1"
    /\ resourceAwsCloudHsm2HsmCreate byCode everySecond remoteActive w
       = resourceAwsCloudHsm2HsmRead remoteActive waited.
Proof.
  intros w. eexists. split; [|
    apply (hsm_create_converging_is_a_read byCode everySecond remoteActive w
             (DescribeClustersOutput.mk
                [exampleCluster "ACTIVE" [exampleHsm "ACTIVE"]])
             (DescribeClustersOutput.mk
                [exampleCluster "ACTIVE" [exampleHsm "ACTIVE"]])
             (exampleCluster "ACTIVE" [exampleHsm "ACTIVE"])
             (exampleCluster "ACTIVE" [exampleHsm "ACTIVE"])
             (CreateHsmOutput.mk (Some (exampleHsm "CREATE_IN_PROGRESS")))
             (exampleHsm "CREATE_IN_PROGRESS") (exampleHsm "ACTIVE"))].
  - reflexivity.
  - vm_compute. discriminate.
  - reflexivity.
  - exists [], []. split; [reflexivity|].
    split; [constructor|]. split; [reflexivity | constructor].
  - reflexivity.
  - reflexivity.
  - vm_compute. discriminate.
  - reflexivity.
  - exists [], []. split; [reflexivity|].
    split; [constructor|]. split; [reflexivity | constructor].
  - exists [], []. split; [reflexivity|].
    split; [constructor|]. split; [reflexivity | constructor].
  - reflexivity.
Defined.

(** Witness of X3: the one accepted value, and a value that is not. *)
Lemma validateCloudHsm2HsmType_accepts_one_value_witness :
  (validateCloudHsm2HsmType "hsm1.medium" "hsm_type").2 = []
  /\ List.length (validateCloudHsm2HsmType "hsm2.large" "hsm_type").2 = 1%nat.
Proof.
  destruct (validateCloudHsm2HsmType_accepts_one_value "hsm1.medium"
              "hsm_type") as (_ & [_ Hok] & _).
  destruct (validateCloudHsm2HsmType_accepts_one_value "hsm2.large"
              "hsm_type") as (_ & _ & Hbad).
  split; [apply Hok; reflexivity | apply Hbad; discriminate].
Defined.

(** Witness of X4: the example cluster projects its cluster
    certificate only when ACTIVE, and the four certificates of the
    signing request bundle when UNINITIALIZED. *)
Lemma readCloudHsm2ClusterCertificates_exclusive_witness :
  readCloudHsm2ClusterCertificates (exampleCluster "ACTIVE" [])
  = [[("cluster_certificate", "cluster-cert")]]
  /\
  readCloudHsm2ClusterCertificates (exampleCluster "UNINITIALIZED" [])
  = [[("cluster_csr", "cluster-csr");
      ("aws_hardware_certificate", "aws-hw-cert");
      ("hsm_certificate", "hsm-cert");
      ("manufacturer_hardware_certificate", "manufacturer-cert")]].
Proof.
  split.
  - destruct (readCloudHsm2ClusterCertificates_exclusive
                (exampleCluster "ACTIVE" []))
      as (certs & Heq & _ & _ & _ & Hact & _).
    rewrite Heq, (Hact exampleCertificates eq_refl eq_refl). reflexivity.
  - destruct (readCloudHsm2ClusterCertificates_exclusive
                (exampleCluster "UNINITIALIZED" []))
      as (certs & Heq & _ & _ & _ & _ & Hun).
    rewrite Heq, (Hun exampleCertificates eq_refl eq_refl). reflexivity.
Defined.
